(** * The users API of the backend project: a shallow embedding

    The development follows the two source files of the backend:
    the Express application (the route handlers and [start]) and
    [database.js] (the pool, [runMigrations], [initializeDatabase]).

    - [Js]        JavaScript values as the handlers see them: strings as
                  lists of UTF-16 code units, numbers as IEEE 754 binary64
                  values, [Number(string)] and [Number.isInteger].
    - [Effects]   the state the handlers act on (the database behind the
                  pool, the statements submitted to the pool, the console)
                  and a small state monad over it.
    - [Server]    the route handlers, written against an arbitrary pool.
    - [Database]  [runMigrations], [initializeDatabase] and [start].
    - [UsersTable] a reference model of the [users] table for the five
                  statements the handlers submit.
    - [Samples]   pools, files and requests to run the program on.

    The properties follow the definitions: numbers, the handlers against
    any pool, sorting, start-up, and the handlers over the users table. *)

From Stdlib Require Import ZArith NArith PArith List String Ascii Bool Lia.
From Stdlib Require Import Sorted Permutation SpecFloat DecimalPos.
Import ListNotations.

Local Open Scope Z_scope.

(* ===================================================================== *)
(** ** JavaScript values                                                  *)
(* ===================================================================== *)

Module Js.

(** A JavaScript string is a sequence of UTF-16 code units. *)
Definition JsString := list N.

Definition js (s : string) : JsString :=
  map N_of_ascii (list_ascii_of_string s).

Fixpoint str_eqb (a b : JsString) : bool :=
  match a, b with
  | [], [] => true
  | x :: a', y :: b' => N.eqb x y && str_eqb a' b'
  | _, _ => false
  end.

(** Comparison of two strings by code units, the order of
    [Array.prototype.sort] without a comparator. *)
Fixpoint str_leb (a b : JsString) : bool :=
  match a, b with
  | [], _ => true
  | _ :: _, [] => false
  | x :: a', y :: b' =>
      if N.ltb x y then true
      else if N.ltb y x then false
      else str_leb a' b'
  end.

Fixpoint starts_with (p s : JsString) : bool :=
  match p, s with
  | [], _ => true
  | _ :: _, [] => false
  | x :: p', y :: s' => N.eqb x y && starts_with p' s'
  end.

(** [String.prototype.endsWith]. *)
Definition ends_with (s suffix : JsString) : bool :=
  starts_with (rev suffix) (rev s).

(** [String.prototype.includes]. *)
Fixpoint includes (s sub : JsString) : bool :=
  starts_with sub s ||
  match s with
  | [] => false
  | _ :: s' => includes s' sub
  end.

(** A JavaScript number is a binary64 value. *)
Definition JsNumber := spec_float.

Definition prec : Z := 53.
Definition emax : Z := 1024.

(** The number nearest to the integer [z] (ties to even). *)
Definition number_of_Z (z : Z) : JsNumber :=
  binary_normalize prec emax z 0 false.

(** The number nearest to [m * 10 ^ e], for [m] positive; [neg] is the
    sign of the literal. *)
Definition number_of_decimal (neg : bool) (m : positive) (e : Z) : JsNumber :=
  match e with
  | Zneg k =>
      let '(q, e', l) :=
        SFdiv_core_binary prec emax (Zpos m) 0 (Z.pow 10 (Zpos k)) 0 in
      binary_round_aux prec emax neg q e' l
  | _ => binary_round prec emax neg (m * Z.to_pos (Z.pow 10 e))%positive 0
  end.

(** The integer a number denotes, when it denotes one. *)
Definition Z_of_number (x : JsNumber) : option Z :=
  match x with
  | S754_zero _ => Some 0
  | S754_finite s m e =>
      let v :=
        match e with
        | Zneg k =>
            if Z.eqb (Z.modulo (Zpos m) (Z.pow 2 (Zpos k))) 0
            then Some (Z.div (Zpos m) (Z.pow 2 (Zpos k)))
            else None
        | _ => Some (Zpos m * Z.pow 2 e)
        end in
      match v with
      | Some z => Some (if s then - z else z)
      | None => None
      end
  | S754_infinity _ | S754_nan => None
  end.

(** [Number.isInteger]. *)
Definition is_integer (x : JsNumber) : bool :=
  match Z_of_number x with
  | Some _ => true
  | None => false
  end.

(** *** [Number(string)]: the StringToNumber grammar *)

(** WhiteSpace and LineTerminator code points. *)
Definition is_ws (c : N) : bool :=
  match c with
  | 9 | 10 | 11 | 12 | 13 | 32 | 160 | 5760
  | 8232 | 8233 | 8239 | 8287 | 12288 | 65279 => true
  | _ => N.leb 8192 c && N.leb c 8202
  end%N.

Fixpoint drop_ws (s : JsString) : JsString :=
  match s with
  | c :: s' => if is_ws c then drop_ws s' else s
  | [] => []
  end.

Definition trim (s : JsString) : JsString :=
  rev (drop_ws (rev (drop_ws s))).

(** The value of a digit in the given radix. *)
Definition digit_of (radix : Z) (c : N) : option Z :=
  let c := Z.of_N c in
  let v :=
    if (48 <=? c) && (c <=? 57) then Some (c - 48)
    else if (97 <=? c) && (c <=? 122) then Some (c - 87)
    else if (65 <=? c) && (c <=? 90) then Some (c - 55)
    else None in
  match v with
  | Some d => if d <? radix then Some d else None
  | None => None
  end.

(** Reads the longest run of digits at the head of [s]: the value read on
    top of [acc], the number of digits read and the rest of the string. *)
Fixpoint take_digits (radix : Z) (s : JsString) (acc : Z) (n : Z)
  : Z * Z * JsString :=
  match s with
  | c :: s' =>
      match digit_of radix c with
      | Some d => take_digits radix s' (acc * radix + d) (n + 1)
      | None => (acc, n, s)
      end
  | [] => (acc, n, [])
  end.

(** NonDecimalIntegerLiteral digits: at least one, and nothing after. *)
Definition radix_literal (radix : Z) (s : JsString) : JsNumber :=
  match take_digits radix s 0 0 with
  | (v, n, []) => if 0 <? n then number_of_Z v else S754_nan
  | _ => S754_nan
  end.

(** ExponentPart, already past the [e]: an optional sign, at least one
    digit, and nothing after. *)
Definition exponent_part (s : JsString) : option Z :=
  let '(neg, ds) :=
    match s with
    | 43%N :: r => (false, r)
    | 45%N :: r => (true, r)
    | _ => (false, s)
    end in
  match take_digits 10 ds 0 0 with
  | (v, n, []) => if 0 <? n then Some (if neg then - v else v) else None
  | _ => None
  end.

(** StrUnsignedDecimalLiteral with the sign already read. *)
Definition unsigned_decimal (neg : bool) (s : JsString) : JsNumber :=
  if str_eqb s (js "Infinity") then S754_infinity neg
  else
    let '(ip, ni, r1) := take_digits 10 s 0 0 in
    let '(m, nf, r2) :=
      match r1 with
      | 46%N :: r => take_digits 10 r ip 0
      | _ => (ip, 0, r1)
      end in
    if (ni + nf) <=? 0 then S754_nan
    else
      let ex :=
        match r2 with
        | [] => Some 0
        | c :: r => if N.eqb c 101 || N.eqb c 69 then exponent_part r else None
        end in
      match ex with
      | None => S754_nan
      | Some e =>
          match m with
          | Zpos p => number_of_decimal neg p (e - nf)
          | _ => S754_zero neg
          end
      end.

(** [Number(s)] for a string [s]. *)
Definition to_number (s : JsString) : JsNumber :=
  match trim s with
  | [] => S754_zero false
  | 48%N :: x :: r =>
      if N.eqb x 120 || N.eqb x 88 then radix_literal 16 r
      else if N.eqb x 111 || N.eqb x 79 then radix_literal 8 r
      else if N.eqb x 98 || N.eqb x 66 then radix_literal 2 r
      else unsigned_decimal false (48%N :: x :: r)
  | 43%N :: r => unsigned_decimal false r
  | 45%N :: r => unsigned_decimal true r
  | t => unsigned_decimal false t
  end.

(** [String(p)] for a positive integer [p]: its decimal digits. *)
Fixpoint units_of_uint (d : Decimal.uint) : JsString :=
  match d with
  | Decimal.Nil => []
  | Decimal.D0 l => 48%N :: units_of_uint l
  | Decimal.D1 l => 49%N :: units_of_uint l
  | Decimal.D2 l => 50%N :: units_of_uint l
  | Decimal.D3 l => 51%N :: units_of_uint l
  | Decimal.D4 l => 52%N :: units_of_uint l
  | Decimal.D5 l => 53%N :: units_of_uint l
  | Decimal.D6 l => 54%N :: units_of_uint l
  | Decimal.D7 l => 55%N :: units_of_uint l
  | Decimal.D8 l => 56%N :: units_of_uint l
  | Decimal.D9 l => 57%N :: units_of_uint l
  end.

Definition decimal (p : positive) : JsString := units_of_uint (Pos.to_uint p).

(** *** Values *)

#[warnings="-register-all"] Inductive JsValue :=
| JUndefined
| JNull
| JBool (b : bool)
| JNum (x : JsNumber)
| JStr (s : JsString)
| JArr (items : list JsValue)
| JObj (props : list (JsString * JsValue)).

(** An object: its own properties in insertion order. *)
Definition JsObject := list (JsString * JsValue).

(** ToBoolean: [!v] is [negb (truthy v)]. *)
Definition truthy (v : JsValue) : bool :=
  match v with
  | JUndefined | JNull => false
  | JBool b => b
  | JNum (S754_zero _) | JNum S754_nan => false
  | JNum _ => true
  | JStr [] => false
  | JStr _ => true
  | JArr _ | JObj _ => true
  end.

(** Property read [o.k]; an absent property reads [undefined]. *)
Fixpoint get_prop (o : JsObject) (k : JsString) : JsValue :=
  match o with
  | [] => JUndefined
  | (k', v) :: o' => if str_eqb k' k then v else get_prop o' k
  end.

(** Property write [o.k = v]: an existing key keeps its place. *)
Fixpoint set_prop (o : JsObject) (k : JsString) (v : JsValue) : JsObject :=
  match o with
  | [] => [(k, v)]
  | (k', v') :: o' =>
      if str_eqb k' k then (k, v) :: o' else (k', v') :: set_prop o' k v
  end.

(** Spread [{...o, ...meta}]. *)
Definition spread (o meta : JsObject) : JsObject :=
  fold_left (fun acc kv => set_prop acc (fst kv) (snd kv)) meta o.

(** An [Error] object, as far as the program reads it. *)
Record JsError := { message : JsString }.

End Js.

Import Js.

(* ===================================================================== *)
(** ** Effects: the pool, the console and the clock                       *)
(* ===================================================================== *)

Module Effects.

(** A result row, as the driver hands it over: an object keyed by column. *)
Definition Row := JsObject.

(** The outcome of [await pool.query(...)]: the promise resolves with rows
    or rejects with an error that the awaiting code sees as a throw. *)
Inductive QueryResult :=
| Resolved (rows : list Row)
| Rejected (error : JsError).

(** What was handed to [pool.query]: the SQL text and the bound values. *)
Record Statement := { text : JsString; values : list JsValue }.

(** The pool: one statement against the database behind it. *)
Definition Pool (DB : Type) :=
  JsString -> list JsValue -> DB -> QueryResult * DB.

Inductive ConsoleArg :=
| AStr (s : JsString)
| AErr (e : JsError)
| AJson (v : JsValue).          (* the text [JSON.stringify(v)] *)

Inductive ConsoleLine :=
| Log (args : list ConsoleArg)      (* console.log *)
| Error (args : list ConsoleArg).   (* console.error *)

(** What the process does to the outside, in the order it does it. *)
Inductive Event :=
| Submitted (st : Statement)                 (* pool.query(text, values) *)
| Console (l : ConsoleLine)
| Listen (port : JsString) (host : JsString) (* the call app.listen(port, host, f) *)
| Exit (code : Z)                            (* process.exit(code) *)
| Uncaught (e : JsError).      (* an 'error' event that has no listener *)

Record World (DB : Type) := {
  database : DB;
  trace : list Event;              (* oldest first *)
  clock : JsString                 (* new Date().toISOString() *)
}.
Arguments database {DB} _.
Arguments trace {DB} _.
Arguments clock {DB} _.

(** The statements among some events, and the console lines among them. *)
Fixpoint statements_of (evs : list Event) : list Statement :=
  match evs with
  | [] => []
  | Submitted st :: evs' => st :: statements_of evs'
  | _ :: evs' => statements_of evs'
  end.

Fixpoint console_of (evs : list Event) : list ConsoleLine :=
  match evs with
  | [] => []
  | Console l :: evs' => l :: console_of evs'
  | _ :: evs' => console_of evs'
  end.

Definition M (DB A : Type) := World DB -> A * World DB.

Definition ret {DB A} (a : A) : M DB A := fun w => (a, w).

Definition bind {DB A B} (m : M DB A) (f : A -> M DB B) : M DB B :=
  fun w => let '(a, w') := m w in f a w'.

Declare Scope js_scope.
Delimit Scope js_scope with js.
Notation "x <- m ;; k" := (bind m (fun x => k))
  (at level 61, m at next level, right associativity) : js_scope.
Notation "m ;; k" := (bind m (fun _ => k))
  (at level 61, right associativity) : js_scope.

Definition emit {DB} (e : Event) : M DB unit :=
  fun w =>
    (tt, {| database := database w; trace := trace w ++ [e]; clock := clock w |}).

(** [await pool.query(sql, params)] *)
Definition query {DB} (pool : Pool DB) (sql : JsString) (params : list JsValue)
  : M DB QueryResult :=
  fun w =>
    let '(r, d) := pool sql params (database w) in
    (r, {| database := d;
           trace := trace w ++ [Submitted {| text := sql; values := params |}];
           clock := clock w |}).

Definition console_log {DB} (args : list ConsoleArg) : M DB unit :=
  emit (Console (Log args)).

Definition console_error {DB} (args : list ConsoleArg) : M DB unit :=
  emit (Console (Error args)).

Definition now {DB} : M DB JsString := fun w => (clock w, w).

(** The events a computation adds to the trace of [w]. *)
Definition new_events {DB A} (m : M DB A) (w : World DB) : list Event :=
  skipn (List.length (trace w)) (trace (snd (m w))).

End Effects.

Import Effects.
Local Open Scope js_scope.

(* ===================================================================== *)
(** ** The Express application                                            *)
(* ===================================================================== *)

Module Server.

Record Request := {
  params_id : JsString;     (* req.params.id *)
  body : JsObject           (* req.body, as express.json() leaves it *)
}.

Inductive Payload :=
| Json (v : JsValue)        (* res.json(v) *)
| NoContent.                (* res.send() *)

Record Response := { status : Z; payload : Payload }.

Definition error_body (msg : string) : Payload :=
  Json (JObj [(js "error", JStr (js msg))]).

(** The property [k] of a JSON object sent as the body. *)
Definition field (r : Response) (k : string) : JsValue :=
  match payload r with
  | Json (JObj o) => get_prop o (js k)
  | _ => JUndefined
  end.

(** [result.rows[0]] *)
Definition first_row (rows : list Row) : JsValue :=
  match rows with
  | r :: _ => JObj r
  | [] => JUndefined
  end.

Section Handlers.

Context {DB : Type} (pool : Pool DB).

(** The structured logger: one line of JSON on the error stream. *)
Definition logger_error (msg : JsString) (meta : JsObject) : M DB unit :=
  t <- now ;;
  console_error
    [AJson (JObj (set_prop
                    (spread [(js "level", JStr (js "error")); (js "msg", JStr msg)] meta)
                    (js "timestamp") (JStr t)))].

(** [logger.info]: the same line, on the output stream. *)
Definition logger_info (msg : JsString) (meta : JsObject) : M DB unit :=
  t <- now ;;
  console_log
    [AJson (JObj (set_prop
                    (spread [(js "level", JStr (js "info")); (js "msg", JStr msg)] meta)
                    (js "timestamp") (JStr t)))].

Definition sql_list : JsString :=
  js "SELECT id, name, email FROM users ORDER BY id".
Definition sql_create : JsString :=
  js "INSERT INTO users (name, email) VALUES ($1, $2) RETURNING *".
Definition sql_get : JsString :=
  js "SELECT id, name, email FROM users WHERE id = $1".
Definition sql_update : JsString :=
  js "UPDATE users SET name = $1, email = $2 WHERE id = $3 RETURNING id, name, email".
Definition sql_delete : JsString :=
  js "DELETE FROM users WHERE id = $1 RETURNING id".

(** [app.get('/api/users', ...)].  The source declares this one arrow
    function without [async] (see [declared_async]); what is embedded
    here is its body with [await] read as in the four sibling handlers. *)
Definition list_users (req : Request) : M DB Response :=
  result <- query pool sql_list [] ;;
  match result with
  | Resolved rows =>
      ret {| status := 200; payload := Json (JArr (map JObj rows)) |}
  | Rejected error =>
      logger_error (js "Error fetching users")
        [(js "endpoint", JStr (js "/api/users"));
         (js "error", JStr (message error))] ;;
      ret {| status := 500; payload := error_body "Internal server error" |}
  end.

(** [app.post('/api/users', ...)] *)
Definition create_user (req : Request) : M DB Response :=
  let name := get_prop (body req) (js "name") in
  let email := get_prop (body req) (js "email") in
  if negb (truthy name) || negb (truthy email) then
    ret {| status := 400; payload := error_body "Name and email required" |}
  else
    result <- query pool sql_create [name; email] ;;
    match result with
    | Resolved rows =>
        ret {| status := 201; payload := Json (first_row rows) |}
    | Rejected error =>
        console_error [AStr (js "Error creating user:"); AErr error] ;;
        ret {| status := 500; payload := error_body "Internal server error" |}
    end.

(** [app.get('/api/users/:id', ...)] *)
Definition get_user (req : Request) : M DB Response :=
  let id := to_number (params_id req) in
  if negb (is_integer id) then
    ret {| status := 400; payload := error_body "Invalid user id" |}
  else
    result <- query pool sql_get [JNum id] ;;
    match result with
    | Resolved [] =>
        ret {| status := 404; payload := error_body "User not found" |}
    | Resolved rows =>
        ret {| status := 200; payload := Json (first_row rows) |}
    | Rejected error =>
        console_error [AStr (js "Error fetching user:"); AErr error] ;;
        ret {| status := 500; payload := error_body "Internal server error" |}
    end.

(** [app.put('/api/users/:id', ...)] *)
Definition update_user (req : Request) : M DB Response :=
  let id := to_number (params_id req) in
  let name := get_prop (body req) (js "name") in
  let email := get_prop (body req) (js "email") in
  if negb (is_integer id) then
    ret {| status := 400; payload := error_body "Invalid user id" |}
  else if negb (truthy name) || negb (truthy email) then
    ret {| status := 400; payload := error_body "Name and email required" |}
  else
    result <- query pool sql_update [name; email; JNum id] ;;
    match result with
    | Resolved [] =>
        ret {| status := 404; payload := error_body "User not found" |}
    | Resolved rows =>
        ret {| status := 200; payload := Json (first_row rows) |}
    | Rejected error =>
        console_error [AStr (js "Error updating user:"); AErr error] ;;
        ret {| status := 500; payload := error_body "Internal server error" |}
    end.

(** [app.delete('/api/users/:id', ...)] *)
Definition delete_user (req : Request) : M DB Response :=
  let id := to_number (params_id req) in
  if negb (is_integer id) then
    ret {| status := 400; payload := error_body "Invalid user id" |}
  else
    result <- query pool sql_delete [JNum id] ;;
    match result with
    | Resolved [] =>
        ret {| status := 404; payload := error_body "User not found" |}
    | Resolved _ =>
        ret {| status := 204; payload := NoContent |}
    | Rejected error =>
        console_error [AStr (js "Error deleting user:"); AErr error] ;;
        ret {| status := 500; payload := error_body "Internal server error" |}
    end.

(** The routes of the users resource. *)
Inductive Endpoint := ListUsers | CreateUser | GetUser | UpdateUser | DeleteUser.

Definition handle (ep : Endpoint) : Request -> M DB Response :=
  match ep with
  | ListUsers => list_users
  | CreateUser => create_user
  | GetUser => get_user
  | UpdateUser => update_user
  | DeleteUser => delete_user
  end.

End Handlers.

(** How each handler is declared: [async (req, res) => { ... }] for four
    of them, [(req, res) => { ... }] for the list route. *)
Definition declared_async (ep : Endpoint) : bool :=
  match ep with
  | ListUsers => false
  | CreateUser | GetUser | UpdateUser | DeleteUser => true
  end.

(** Every handler awaits [pool.query] in its body. *)
Definition uses_await (ep : Endpoint) : bool :=
  match ep with
  | ListUsers | CreateUser | GetUser | UpdateUser | DeleteUser => true
  end.

(** [await] is an operator in the body of an async function only; in
    any other function body [await pool.query(...)] is a syntax error,
    and a file with a syntax error is not loaded. *)
Definition parses (ep : Endpoint) : bool :=
  declared_async ep || negb (uses_await ep).

(** The path each route is registered under. *)
Definition route (ep : Endpoint) : JsString :=
  match ep with
  | ListUsers | CreateUser => js "/api/users"
  | GetUser | UpdateUser | DeleteUser => js "/api/users/:id"
  end.

(** The SQL literal of each handler. *)
Definition sql_of (ep : Endpoint) : JsString :=
  match ep with
  | ListUsers => sql_list
  | CreateUser => sql_create
  | GetUser => sql_get
  | UpdateUser => sql_update
  | DeleteUser => sql_delete
  end.

(** The array each handler binds to its statement. *)
Definition bound_values (ep : Endpoint) (req : Request) : list JsValue :=
  let id := JNum (to_number (params_id req)) in
  let name := get_prop (body req) (js "name") in
  let email := get_prop (body req) (js "email") in
  match ep with
  | ListUsers => []
  | CreateUser => [name; email]
  | GetUser => [id]
  | UpdateUser => [name; email; id]
  | DeleteUser => [id]
  end.

(** The status each handler sends when its query found what it asked. *)
Definition success_status (ep : Endpoint) : Z :=
  match ep with
  | ListUsers | GetUser | UpdateUser => 200
  | CreateUser => 201
  | DeleteUser => 204
  end.

(** The routes with an [:id] segment. *)
Definition by_id (ep : Endpoint) : bool :=
  match ep with
  | GetUser | UpdateUser | DeleteUser => true
  | ListUsers | CreateUser => false
  end.

(** The routes that read [name] and [email] from the body. *)
Definition reads_body (ep : Endpoint) : bool :=
  match ep with
  | CreateUser | UpdateUser => true
  | ListUsers | GetUser | DeleteUser => false
  end.

(** [!Number.isInteger(Number(req.params.id))] *)
Definition bad_id (req : Request) : bool :=
  negb (is_integer (to_number (params_id req))).

(** [!name || !email] *)
Definition lacks_fields (req : Request) : bool :=
  negb (truthy (get_prop (body req) (js "name")))
  || negb (truthy (get_prop (body req) (js "email"))).

(** The request fails a check of the handler. *)
Definition rejected_by_validation (ep : Endpoint) (req : Request) : bool :=
  (by_id ep && bad_id req) || (reads_body ep && lacks_fields req).

(** The world after a handler that submitted its statement, left the
    database as [d] and went on to do [tail]. *)
Definition after {DB} (ep : Endpoint) (req : Request) (w : World DB) (d : DB)
    (tail : list Event) : World DB :=
  {| database := d;
     trace := trace w
              ++ Submitted {| text := sql_of ep; values := bound_values ep req |}
              :: tail;
     clock := clock w |}.

(** What a handler writes to the console when its query is rejected. *)
Definition failure_line (ep : Endpoint) (error : JsError) (time : JsString)
  : ConsoleLine :=
  match ep with
  | ListUsers =>
      Error [AJson (JObj [(js "level", JStr (js "error"));
                          (js "msg", JStr (js "Error fetching users"));
                          (js "endpoint", JStr (js "/api/users"));
                          (js "error", JStr (message error));
                          (js "timestamp", JStr time)])]
  | CreateUser => Error [AStr (js "Error creating user:"); AErr error]
  | GetUser => Error [AStr (js "Error fetching user:"); AErr error]
  | UpdateUser => Error [AStr (js "Error updating user:"); AErr error]
  | DeleteUser => Error [AStr (js "Error deleting user:"); AErr error]
  end.

(** The strings a console line shows. *)
Definition arg_texts (a : ConsoleArg) : list JsString :=
  match a with
  | AStr s => [s]
  | AErr e => [message e]
  | AJson (JObj props) =>
      flat_map (fun kv => match snd kv with JStr s => [s] | _ => [] end) props
  | AJson _ => []
  end.

Definition line_texts (l : ConsoleLine) : list JsString :=
  match l with
  | Log args | Error args => flat_map arg_texts args
  end.

(** The line shows [s] somewhere. *)
Definition mentions (l : ConsoleLine) (s : JsString) : bool :=
  existsb (fun t => includes t s) (line_texts l).

End Server.

(* ===================================================================== *)
(** ** database.js and the start-up of the process                        *)
(* ===================================================================== *)

Module Database.

(** The result of a call that may throw. *)
Inductive Try (A : Type) :=
| Returned (a : A)
| Thrown (e : JsError).
Arguments Returned {A} _.
Arguments Thrown {A} _.

(** The [fs] calls the module makes; paths are keys, compared as written. *)
Record FileSystem := {
  existsSync : JsString -> bool;
  readdirSync : JsString -> Try (list JsString);
  readFileSync : JsString -> Try JsString
}.

(** [process.env], as far as the program reads it. *)
Record Env := { PORT : option JsString; NODE_ENV : option JsString }.

(** [path.join(a, b)] for the joins the module makes. *)
Definition path_join (a b : JsString) : JsString := a ++ js "/" ++ b.

(** Insertion of [x] into a list ordered by [leb], after the elements
    that are strictly smaller. *)
Fixpoint insert_by {A} (leb : A -> A -> bool) (x : A) (l : list A) : list A :=
  match l with
  | [] => [x]
  | y :: l' => if leb x y then x :: l else y :: insert_by leb x l'
  end.

(** A stable sort. *)
Definition sort_by {A} (leb : A -> A -> bool) (l : list A) : list A :=
  fold_right (insert_by leb) [] l.

Section Startup.

Context {DB : Type} (pool : Pool DB) (fs : FileSystem) (env : Env).
Context (dirname : JsString).     (* __dirname *)

Definition migrationsDir : JsString := path_join dirname (js "../migrations").

(** The body of the [for ... of files] loop of [runMigrations], over the
    files still to run; a throw leaves the loop. *)
Fixpoint run_files (files : list JsString) : M DB (Try unit) :=
  match files with
  | [] => ret (Returned tt)
  | file :: rest =>
      console_log [AStr (js "Running migration: " ++ file)] ;;
      match readFileSync fs (path_join migrationsDir file) with
      | Thrown e => ret (Thrown e)
      | Returned sql =>
          result <- query pool sql [] ;;
          match result with
          | Rejected e => ret (Thrown e)
          | Resolved _ =>
              console_log [AStr (js "Migration " ++ file ++ js " completed")] ;;
              run_files rest
          end
      end
  end.

(** [runMigrations] *)
Definition runMigrations : M DB (Try unit) :=
  if negb (existsSync fs migrationsDir) then
    console_log [AStr (js "No migrations directory found, skipping migrations")] ;;
    ret (Returned tt)
  else
    match readdirSync fs migrationsDir with
    | Thrown e => ret (Thrown e)
    | Returned entries =>
        let files :=
          sort_by str_leb (filter (fun file => ends_with file (js ".sql")) entries) in
        run_files files
    end.

(** [initializeDatabase] *)
Definition initializeDatabase : M DB (Try unit) :=
  console_log [AStr (js "Initializing database schema...")] ;;
  attempt <-
    match readFileSync fs (path_join dirname (js "schema.sql")) with
    | Thrown e => ret (Thrown e)
    | Returned schemaSQL =>
        result <- query pool schemaSQL [] ;;
        match result with
        | Rejected e => ret (Thrown e)
        | Resolved _ =>
            console_log [AStr (js "Database schema initialized successfully")] ;;
            ret (Returned tt)
        end
    end ;;
  match attempt with
  | Returned _ => ret (Returned tt)
  | Thrown error =>
      console_error [AStr (js "Error initializing database:"); AErr error] ;;
      ret (Thrown error)
  end.

(** [process.env.PORT || 3000], as the template literal renders it. *)
Definition port_text : JsString :=
  match PORT env with
  | Some (c :: p) => c :: p
  | _ => js "3000"
  end.

Definition node_env_text : JsString :=
  match NODE_ENV env with
  | Some v => v
  | None => js "undefined"
  end.

(** How [start] leaves the process. *)
Inductive Outcome := Serving | Terminated (code : Z).

(** What a call of [app.listen(port, host, f)] comes to.  The call throws
    when the port is refused as it is given (a number outside 0..65535);
    otherwise it returns, and the server then emits 'listening', on which
    [f] runs, or 'error' (the address is taken, the port is privileged),
    for which the program registers no listener. *)
Inductive Listener :=
| Bound
| Throws (e : JsError)
| Fails (e : JsError).

Context (app_listen : JsString -> JsString -> Listener).

(** [start], from the application file: what [module.exports] of
    database.js offers it is [pool] and [initializeDatabase].  The call
    of [app.listen] stands inside the [try]; an 'error' event without a
    listener is thrown where nothing catches it, and ends the process
    with code 1. *)
Definition start : M DB Outcome :=
  attempt <- initializeDatabase ;;
  match attempt with
  | Returned _ =>
      emit (Listen port_text (js "0.0.0.0")) ;;
      match app_listen port_text (js "0.0.0.0") with
      | Bound =>
          console_log [AStr (js "Server running on port " ++ port_text)] ;;
          console_log [AStr (js "Environment: " ++ node_env_text)] ;;
          ret Serving
      | Throws error =>
          console_error [AStr (js "Failed to start server:"); AErr error] ;;
          emit (Exit 1) ;;
          ret (Terminated 1)
      | Fails error =>
          emit (Uncaught error) ;;
          ret (Terminated 1)
      end
  | Thrown error =>
      console_error [AStr (js "Failed to start server:"); AErr error] ;;
      emit (Exit 1) ;;
      ret (Terminated 1)
  end.

End Startup.

End Database.

(* ===================================================================== *)
(** ** A reference model of the users table                               *)
(* ===================================================================== *)

Module UsersTable.

Import Server Database.

(** Modelled from the spec: the types of the columns of the [users] table
    (schema.sql is not among the sources; the tutorial of the repository
    shows it, see [schema_text] below).  [id] is SERIAL, a 32-bit integer;
    [name] and [email] are VARCHAR(255): at most 255 characters, none of
    them NUL. *)
Definition in_int4 (z : Z) : bool := (-2147483648 <=? z) && (z <=? 2147483647).

(** A cell of the [id] column, read as the 32-bit integer it is. *)
Definition int4 (z : Z) : Z := (z + 2147483648) mod 4294967296 - 2147483648.

Definition is_high (c : N) : bool := ((55296 <=? c) && (c <=? 56319))%N.

Definition is_low (c : N) : bool := ((56320 <=? c) && (c <=? 57343))%N.

(** The characters of a string as the driver sends it, in UTF-8: a high
    surrogate followed by a low one is one character, any other surrogate
    goes out as U+FFFD. *)
Fixpoint characters (s : JsString) : list JsString :=
  match s with
  | [] => []
  | c :: s' =>
      if is_high c then
        match s' with
        | d :: s'' =>
            if is_low d then [c; d] :: characters s''
            else [65533%N] :: characters s'
        | [] => [[65533%N]]
        end
      else if is_low c then [65533%N] :: characters s'
      else [c] :: characters s'
  end.

(** A value bound to a parameter, as the engine takes it. *)
Inductive Param (A : Type) :=
| Refused (error : JsError)
| SqlNull
| Value (a : A).
Arguments Refused {A} _.
Arguments SqlNull {A}.
Arguments Value {A} _.

(** A text assigned to a VARCHAR(255) column.  NUL is no character of a
    text; characters past the 255th are cut when all of them are spaces,
    and refused otherwise. *)
Definition varchar255 (s : JsString) : Param JsString :=
  let cs := characters s in
  if existsb (fun c => str_eqb c [0%N]) cs then
    Refused {| message := js "invalid byte sequence for encoding UTF8: 0x00" |}
  else if (List.length cs <=? 255)%nat then Value (List.concat cs)
  else if forallb (fun c => str_eqb c [32%N]) (skipn 255 cs) then
    Value (List.concat (firstn 255 cs))
  else
    Refused {| message := js "value too long for type character varying(255)" |}.

(** A cell of a VARCHAR(255) column, read as the text it is. *)
Definition as_varchar255 (s : JsString) : JsString :=
  match varchar255 s with
  | Value s' => s'
  | _ => []
  end.

(** Modelled from the spec: the [users] table behind the pool (schema.sql
    is not among the sources).  The table has the columns [id] (serial
    primary key), [name] (text, not null), [email] (text, unique, not
    null) and [created_at] (timestamp, default now); the engine answers
    the five statements of the handlers and nothing else.  The [phone]
    column belongs to a migration, which [start] never runs.  A row
    holds one cell per column; [id], [name] and [email] below read a
    cell at the type of its column. *)
Record UserRow := {
  id_cell : Z;
  name_cell : JsString;
  email_cell : JsString;
  created_at : JsString
}.

(** The columns, read at their types. *)
Definition id (r : UserRow) : Z := int4 (id_cell r).

Definition name (r : UserRow) : JsString := as_varchar255 (name_cell r).

Definition email (r : UserRow) : JsString := as_varchar255 (email_cell r).

Record Table := {
  users : list UserRow;            (* in heap order *)
  users_id_seq : positive;         (* the next value of the id sequence *)
  current_timestamp : JsString
}.

Definition fail (msg : string) : QueryResult := Rejected {| message := js msg |}.

(** The rows as the driver returns them. *)
Definition id_column (r : UserRow) : JsString * JsValue :=
  (js "id", JNum (number_of_Z (id r))).

Definition brief_row (r : UserRow) : Row :=
  [id_column r; (js "name", JStr (name r)); (js "email", JStr (email r))].

Definition full_row (r : UserRow) : Row :=
  brief_row r ++ [(js "created_at", JStr (created_at r))].

Definition has_id (z : Z) (r : UserRow) : bool := Z.eqb (id r) z.

Definition has_email (e : JsString) (r : UserRow) : bool := str_eqb (email r) e.

(** The order of [ORDER BY id]. *)
Definition id_leb (a b : UserRow) : bool := Z.leb (id a) (id b).

(** What the constraints of the table keep true: the primary key, the
    unique emails, and ids handed out by the sequence, which stops at
    the largest [integer]. *)
Definition well_formed (t : Table) : Prop :=
  NoDup (map id (users t))
  /\ NoDup (map email (users t))
  /\ Forall (fun r => 0 < id r < Zpos (users_id_seq t)) (users t)
  /\ Zpos (users_id_seq t) <= 2147483648.

Section Engine.

(** The text the driver sends for a bound value that is not a string
    (numbers, booleans, arrays, objects); a string is sent as it is. *)
Variable prepareValue : JsValue -> JsString.

(** A value bound to [name] or [email]; [undefined] and [null] are sent
    as SQL NULL. *)
Definition text_param (v : JsValue) : Param JsString :=
  match v with
  | JUndefined | JNull => SqlNull
  | JStr s => varchar255 s
  | other => varchar255 (prepareValue other)
  end.

(** A value bound where the [id] column is compared; the handlers bind a
    number there, which the driver sends in decimal. *)
Definition id_param (v : JsValue) : Param Z :=
  match v with
  | JUndefined | JNull => SqlNull
  | JNum x =>
      match Z_of_number x with
      | Some z =>
          if in_int4 z then Value z
          else Refused {| message := js "value out of range for type integer" |}
      | None => Refused {| message := js "invalid input syntax for type integer" |}
      end
  | _ => Refused {| message := js "invalid input syntax for type integer" |}
  end.

(** SELECT id, name, email FROM users ORDER BY id *)
Definition select_all (t : Table) : QueryResult * Table :=
  (Resolved (map brief_row (sort_by id_leb (users t))), t).

(** INSERT INTO users (name, email) VALUES ($1, $2) RETURNING *
    A value that a column refuses stops the statement before it runs.
    Once it runs, the sequence advances whether or not the row is
    accepted. *)
Definition insert_user (n e : JsValue) (t : Table) : QueryResult * Table :=
  match text_param n with
  | Refused error => (Rejected error, t)
  | new_name =>
      match text_param e with
      | Refused error => (Rejected error, t)
      | new_email =>
          let new_id := Zpos (users_id_seq t) in
          if 2147483647 <? new_id then
            (fail "nextval: reached maximum value of sequence", t)
          else
            let advanced rows :=
              {| users := rows;
                 users_id_seq := Pos.succ (users_id_seq t);
                 current_timestamp := current_timestamp t |} in
            match new_name, new_email with
            | Value n', Value e' =>
                if existsb (has_id new_id) (users t) then
                  (fail "duplicate key value violates unique constraint users_pkey",
                   advanced (users t))
                else if existsb (has_email e') (users t) then
                  (fail "duplicate key value violates unique constraint users_email_key",
                   advanced (users t))
                else
                  let row := {| id_cell := new_id; name_cell := n'; email_cell := e';
                                created_at := current_timestamp t |} in
                  (Resolved [full_row row], advanced (users t ++ [row]))
            | _, _ =>
                (fail "null value violates not-null constraint", advanced (users t))
            end
      end
  end.

(** SELECT id, name, email FROM users WHERE id = $1 *)
Definition select_by_id (v : JsValue) (t : Table) : QueryResult * Table :=
  match id_param v with
  | Refused error => (Rejected error, t)
  | SqlNull => (Resolved [], t)
  | Value z => (Resolved (map brief_row (filter (has_id z) (users t))), t)
  end.

Definition set_fields (z : Z) (n e : JsString) (r : UserRow) : UserRow :=
  if has_id z r then
    {| id_cell := id_cell r; name_cell := n; email_cell := e;
       created_at := created_at r |}
  else r.

(** UPDATE users SET name = $1, email = $2 WHERE id = $3
    RETURNING id, name, email
    A value that a column refuses stops the statement before it runs,
    whether or not a row has the id. *)
Definition update_by_id (n e v : JsValue) (t : Table) : QueryResult * Table :=
  match text_param n with
  | Refused error => (Rejected error, t)
  | new_name =>
      match text_param e with
      | Refused error => (Rejected error, t)
      | new_email =>
          match id_param v with
          | Refused error => (Rejected error, t)
          | SqlNull => (Resolved [], t)
          | Value z =>
              if negb (existsb (has_id z) (users t)) then (Resolved [], t)
              else
                match new_name, new_email with
                | Value n', Value e' =>
                    if existsb (fun r => negb (has_id z r) && has_email e' r)
                               (users t) then
                      (fail "duplicate key value violates unique constraint users_email_key",
                       t)
                    else
                      let rows := map (set_fields z n' e') (users t) in
                      (Resolved (map brief_row (filter (has_id z) rows)),
                       {| users := rows;
                          users_id_seq := users_id_seq t;
                          current_timestamp := current_timestamp t |})
                | _, _ => (fail "null value violates not-null constraint", t)
                end
          end
      end
  end.

(** DELETE FROM users WHERE id = $1 RETURNING id *)
Definition delete_by_id (v : JsValue) (t : Table) : QueryResult * Table :=
  match id_param v with
  | Refused error => (Rejected error, t)
  | SqlNull => (Resolved [], t)
  | Value z =>
      (Resolved (map (fun r => [id_column r]) (filter (has_id z) (users t))),
       {| users := filter (fun r => negb (has_id z r)) (users t);
          users_id_seq := users_id_seq t;
          current_timestamp := current_timestamp t |})
  end.

(** The pool over the table. *)
Definition pg : Pool Table :=
  fun sql params t =>
    if str_eqb sql sql_list then select_all t
    else if str_eqb sql sql_create then
      match params with
      | [n; e] => insert_user n e t
      | _ => (fail "bind message supplies the wrong number of parameters", t)
      end
    else if str_eqb sql sql_get then
      match params with
      | [v] => select_by_id v t
      | _ => (fail "bind message supplies the wrong number of parameters", t)
      end
    else if str_eqb sql sql_update then
      match params with
      | [n; e; v] => update_by_id n e v t
      | _ => (fail "bind message supplies the wrong number of parameters", t)
      end
    else if str_eqb sql sql_delete then
      match params with
      | [v] => delete_by_id v t
      | _ => (fail "bind message supplies the wrong number of parameters", t)
      end
    else (fail "statement outside the model", t).

End Engine.

End UsersTable.

(* ===================================================================== *)
(** ** Sample pools, files and requests                                   *)
(* ===================================================================== *)

Module Samples.

Import Server Database UsersTable.

(** A pool that cannot reach its database. *)
Definition refusing_pool (e : JsError) : Pool unit :=
  fun _ _ d => (Rejected e, d).

(** A pool whose database accepts every statement and returns no row. *)
Definition accepting_pool : Pool unit :=
  fun _ _ d => (Resolved [], d).

Definition connection_refused : JsError :=
  {| message := js "connect ECONNREFUSED 127.0.0.1:5432" |}.

Definition enoent : JsError :=
  {| message := js "ENOENT: no such file or directory" |}.

Definition fresh_world {DB} (d : DB) : World DB :=
  {| database := d; trace := []; clock := js "2025-01-01T00:00:00.000Z" |}.

Definition request (id : string) (fields : list (string * string)) : Request :=
  {| params_id := js id;
     body := map (fun kv => (js (fst kv), JStr (js (snd kv)))) fields |}.

Definition alice : Request :=
  request "" [("name", "Alice"); ("email", "alice@example.com")]%string.

Definition app_src : JsString := js "/app/src".

(** schema.sql, as the tutorial of the repository shows it. *)
Definition schema_text : JsString :=
  js "CREATE TABLE IF NOT EXISTS users (
  id SERIAL PRIMARY KEY,
  name VARCHAR(255) NOT NULL,
  email VARCHAR(255) UNIQUE NOT NULL,
  created_at TIMESTAMP DEFAULT CURRENT_TIMESTAMP
);
CREATE INDEX IF NOT EXISTS idx_users_email ON users(email);
".

(** migrations/001_add_users_table.sql *)
Definition migration_text : JsString :=
  js "-- Add phone column to users
ALTER TABLE users ADD COLUMN IF NOT EXISTS phone VARCHAR(20);

-- Add index
CREATE INDEX IF NOT EXISTS idx_users_phone ON users(phone);
".

(** The files of the repository: schema.sql next to the module, and the
    migrations directory with its one file and a stray note. *)
Definition repo_files : FileSystem :=
  {| existsSync := fun p => str_eqb p (migrationsDir app_src);
     readdirSync := fun p =>
       if str_eqb p (migrationsDir app_src)
       then Returned [js "notes.txt"; js "001_add_users_table.sql"]
       else Thrown enoent;
     readFileSync := fun p =>
       if str_eqb p (path_join app_src (js "schema.sql"))
       then Returned schema_text
       else if str_eqb p (path_join (migrationsDir app_src)
                                    (js "001_add_users_table.sql"))
       then Returned migration_text
       else Thrown enoent |}.

(** The same without schema.sql. *)
Definition no_files : FileSystem :=
  {| existsSync := fun _ => false;
     readdirSync := fun _ => Thrown enoent;
     readFileSync := fun _ => Thrown enoent |}.

Definition no_env : Env := {| PORT := None; NODE_ENV := None |}.

Definition bad_port : JsError :=
  {| message := js "options.port should be >= 0 and < 65536." |}.

Definition address_in_use : JsError :=
  {| message := js "listen EADDRINUSE: address already in use 0.0.0.0:3000" |}.

(** A host on which every port from 0 to 65535 is free; the call throws
    for any other port. *)
Definition valid_port : JsString -> JsString -> Listener :=
  fun port _ =>
    match Z_of_number (to_number port) with
    | Some p => if (0 <=? p) && (p <=? 65535) then Bound else Throws bad_port
    | None => Throws bad_port
    end.

(** A host on which the port is taken. *)
Definition taken_port : JsString -> JsString -> Listener :=
  fun _ _ => Fails address_in_use.

(** The driver text of a value that is not a string, for the samples. *)
Definition no_text : JsValue -> JsString := fun _ => [].

(** A table with the two seed rows, the second stored first. *)
Definition seeded : Table :=
  {| users :=
       [ {| id_cell := 2; name_cell := js "Jane Smith";
            email_cell := js "jane@example.com";
            created_at := js "2025-01-01T00:00:00.000Z" |};
         {| id_cell := 1; name_cell := js "John Doe";
            email_cell := js "john@example.com";
            created_at := js "2025-01-01T00:00:00.000Z" |} ];
     users_id_seq := 3;
     current_timestamp := js "2025-01-02T00:00:00.000Z" |}.

Definition bob : Request := request "" [("name", "Bob")]%string.

Definition alice_b (id : string) : Request :=
  request id [("name", "Alice B"); ("email", "aliceb@example.com")]%string.

(** Runs requests one after the other and collects the answers. *)
Fixpoint serve {DB} (pool : Pool DB) (calls : list (Endpoint * Request))
    (w : World DB) : list Response * World DB :=
  match calls with
  | [] => ([], w)
  | (ep, req) :: rest =>
      let '(r, w1) := handle pool ep req w in
      let '(rs, w2) := serve pool rest w1 in
      (r :: rs, w2)
  end.

(** An update of user 7, whom [seeded] does not have. *)
Definition update_7 : Request :=
  request "7" [("name", "Al"); ("email", "al@example.com")]%string.

(** A migrations directory with numbered files and a stray entry. *)
Definition numbered_files : FileSystem :=
  {| existsSync := fun p => str_eqb p (migrationsDir app_src);
     readdirSync := fun p =>
       if str_eqb p (migrationsDir app_src)
       then Returned [js "2_a.sql"; js "README.md"; js "10_b.sql"]
       else Thrown enoent;
     readFileSync := fun p =>
       if str_eqb p (path_join (migrationsDir app_src) (js "2_a.sql"))
       then Returned (js "ALTER TABLE users ADD COLUMN a TEXT;")
       else if str_eqb p (path_join (migrationsDir app_src) (js "10_b.sql"))
       then Returned (js "ALTER TABLE users ADD COLUMN b TEXT;")
       else Thrown enoent |}.

(** A pool whose database rejects the column [a] and accepts the rest. *)
Definition picky_pool : Pool unit :=
  fun sql _ d =>
    if str_eqb sql (js "ALTER TABLE users ADD COLUMN a TEXT;")
    then (Rejected connection_refused, d)
    else (Resolved [], d).

(** A [meta] that names [level] and [timestamp] itself. *)
Definition shadowing_meta : JsObject :=
  [(js "endpoint", JStr (js "/api/users"));
   (js "level", JStr (js "debug"));
   (js "timestamp", JStr (js "yesterday"))].

(** A rename of John that keeps his email. *)
Definition john_renamed : Request :=
  request "1" [("name", "John D"); ("email", "john@example.com")]%string.

Definition production : Env :=
  {| PORT := Some (js "8080"); NODE_ENV := Some (js "production") |}.

(** A port that no host has. *)
Definition port_99999 : Env :=
  {| PORT := Some (js "99999"); NODE_ENV := Some (js "production") |}.

Definition john : UserRow :=
  {| id_cell := 1; name_cell := js "John Doe"; email_cell := js "john@example.com";
     created_at := js "2025-01-01T00:00:00.000Z" |}.

(** An update of John that takes the email of Jane. *)
Definition john_as_jane : Request :=
  request "1" [("name", "John"); ("email", "jane@example.com")]%string.

(** A create with the email of Jane. *)
Definition jane_again : Request :=
  request "" [("name", "Jane"); ("email", "jane@example.com")]%string.

(** A create whose [name] is an unpaired high surrogate. *)
Definition unpaired : Request :=
  {| params_id := [];
     body := [(js "name", JStr [55296%N]);
              (js "email", JStr (js "eve@example.com"))] |}.

(** A create whose [name] has 256 characters, and one whose [name] ends
    in NUL. *)
Definition long_name : Request :=
  {| params_id := [];
     body := [(js "name", JStr (repeat 97%N 256));
              (js "email", JStr (js "eve@example.com"))] |}.

Definition nul_name : Request :=
  {| params_id := [];
     body := [(js "name", JStr (js "Eve" ++ [0%N]));
              (js "email", JStr (js "eve@example.com"))] |}.

(** The same rows, stored in the other order. *)
Definition seeded_in_order : Table :=
  {| users := rev (users seeded);
     users_id_seq := 3;
     current_timestamp := js "2025-01-02T00:00:00.000Z" |}.

End Samples.

(* ===================================================================== *)
(** * Properties                                                          *)
(* ===================================================================== *)

Import Server Database UsersTable Samples.

(** ** Numbers *)

Section NumberFacts.

Lemma digits2_pos_iter_xO p k :
  digits2_pos (Pos.iter xO p k) = (digits2_pos p + k)%positive.
Proof.
  induction k using Pos.peano_ind.
  - simpl. lia.
  - rewrite Pos.iter_succ. simpl. rewrite IHk. lia.
Qed.

Lemma Zpos_iter_xO p k : Zpos (Pos.iter xO p k) = Zpos p * 2 ^ Zpos k.
Proof.
  induction k using Pos.peano_ind.
  - simpl. lia.
  - rewrite Pos.iter_succ, Pos2Z.inj_succ, Z.pow_succ_r by lia.
    rewrite Pos2Z.inj_xO, IHk. lia.
Qed.

Lemma digits2_pos_bound p :
  2 ^ (Zpos (digits2_pos p) - 1) <= Zpos p < 2 ^ Zpos (digits2_pos p).
Proof.
  assert (step : forall d, 0 < d -> 2 ^ (Z.succ d) = 2 * 2 ^ d
                                    /\ 2 ^ (Z.succ d - 1) = 2 * 2 ^ (d - 1)).
  { intros d Hd. split.
    - apply Z.pow_succ_r. lia.
    - replace (Z.succ d - 1) with (Z.succ (d - 1)) by lia.
      apply Z.pow_succ_r. lia. }
  induction p; simpl digits2_pos; try (simpl; lia);
    rewrite Pos2Z.inj_succ;
    destruct (step (Zpos (digits2_pos p))) as [-> ->]; lia.
Qed.

(** A full-width mantissa is left alone by the rounding step. *)
Lemma shr_fexp_canonical m e :
  Zpos (digits2_pos m) = 53 -> -1074 <= e ->
  shr_fexp prec emax (Zpos m) e loc_Exact =
  ({| shr_m := Zpos m; shr_r := false; shr_s := false |}, e).
Proof.
  intros Hd He.
  unfold shr_fexp, fexp, emin, prec, emax.
  change (Zdigits2 (Zpos m)) with (Zpos (digits2_pos m)).
  rewrite Hd.
  replace (Z.max (53 + e - 53) (3 - 1024 - 53) - e) with 0 by lia.
  reflexivity.
Qed.

Lemma binary_round_aux_canonical s m e :
  Zpos (digits2_pos m) = 53 -> -1074 <= e <= 971 ->
  binary_round_aux prec emax s (Zpos m) e loc_Exact = S754_finite s m e.
Proof.
  intros Hd He.
  unfold binary_round_aux.
  rewrite shr_fexp_canonical by lia.
  cbn [shr_m loc_of_shr_record round_nearest_even].
  rewrite shr_fexp_canonical by lia.
  cbn [shr_m].
  unfold emax, prec.
  destruct (Z.leb_spec e (1024 - 53)); [reflexivity | lia].
Qed.

Lemma number_of_pos_exact p :
  Zpos p < 2 ^ 53 -> Z_of_number (number_of_Z (Zpos p)) = Some (Zpos p).
Proof.
  intros Hp.
  assert (Hd : Zpos (digits2_pos p) <= 53).
  { destruct (Z.le_gt_cases (Zpos (digits2_pos p)) 53) as [H|H]; [exact H|].
    pose proof (digits2_pos_bound p) as [Hlo _].
    assert (2 ^ 53 <= 2 ^ (Zpos (digits2_pos p) - 1))
      by (apply Z.pow_le_mono_r; lia).
    lia. }
  unfold number_of_Z, binary_normalize, binary_round.
  unfold fexp, emin.
  rewrite Z.add_0_r.
  rewrite Z.max_l by (unfold prec, emax; lia).
  unfold shl_align.
  destruct (Z.pos (digits2_pos p) - prec - 0) as [|d|d] eqn:E; unfold prec in E.
  - rewrite binary_round_aux_canonical by lia.
    simpl. rewrite Pos.mul_1_r. reflexivity.
  - lia.
  - rewrite binary_round_aux_canonical.
    + unfold Z_of_number.
      assert (Hk : Z.pos (digits2_pos p) - prec = Z.neg d) by (unfold prec; lia).
      rewrite Hk, Zpos_iter_xO.
      rewrite Z.mod_mul by lia. simpl Z.eqb. cbv iota.
      rewrite Z.div_mul by lia. reflexivity.
    + rewrite digits2_pos_iter_xO. lia.
    + unfold prec. lia.
Qed.

(** Integers below 2^53 are numbers: the conversion loses nothing. *)
Lemma number_of_Z_exact z :
  0 < z < 2 ^ 53 -> Z_of_number (number_of_Z z) = Some z.
Proof.
  destruct z; try lia. intros [_ H]. now apply number_of_pos_exact.
Qed.

Lemma is_integer_iff x : is_integer x = true <-> exists z, Z_of_number x = Some z.
Proof.
  unfold is_integer. destruct (Z_of_number x) as [z|].
  - split; [eauto | reflexivity].
  - split; [discriminate | intros [z H]; discriminate].
Qed.

End NumberFacts.

(** The strings of the examples coerce as JavaScript coerces them. *)
Example number_examples :
  map (fun s => Z_of_number (to_number (js s)))
      ["-5"; "0x10"; "1e3"; " 42 "; "1.5"; "abc"; "12px"; ""; "1e400";
       "Infinity"; "0.5e1"; "1e-400"; "9007199254740993"]%string
  = [Some (-5); Some 16; Some 1000; Some 42; None; None; None; Some 0; None;
     None; Some 5; Some 0; Some 9007199254740992].
Proof. vm_compute. reflexivity. Qed.

(** Decimal literals round to the nearest number, ties to even, with
    gradual underflow and overflow to infinity. *)
Example number_rounding :
  map (fun s => to_number (js s))
      ["0.1"; "1e23"; "5e-324"; "2e-324"; "-1e-400";
       "1.7976931348623157e308"; "1.7976931348623159e308";
       "9007199254740993"; "9007199254740995"]%string
  = [S754_finite false 7205759403792794 (-56);
     S754_finite false 5960464477539062 24;
     S754_finite false 1 (-1074);
     S754_zero false;
     S754_zero true;
     S754_finite false 9007199254740991 971;
     S754_infinity false;
     S754_finite false 4503599627370496 1;
     S754_finite false 4503599627370498 1].
Proof. vm_compute. reflexivity. Qed.

(** ** The handlers, against any pool *)

Section HandlerFacts.

Context {DB : Type} (pool : Pool DB).

(** Unfolds the handler of the goal down to its branches. *)
Ltac unfold_handler :=
  unfold handle, list_users, create_user, get_user, update_user, delete_user,
    logger_error, console_error, console_log, emit, now, query, bind, ret.

(** A request that fails a check is answered at once. *)
Lemma handle_invalid (ep : Endpoint) (req : Request) (w : World DB) :
  rejected_by_validation ep req = true ->
  exists msg : string,
    handle pool ep req w = ({| status := 400; payload := error_body msg |}, w).
Proof.
  unfold rejected_by_validation, bad_id, lacks_fields.
  intros H.
  destruct ep; cbn [by_id reads_body andb orb] in H; try discriminate;
    unfold_handler.
  - rewrite H. eauto.
  - rewrite orb_false_r in H. rewrite H. eauto.
  - destruct (negb (is_integer (to_number (params_id req)))).
    + eauto.
    + cbn [orb] in H. rewrite H. eauto.
  - rewrite orb_false_r in H. rewrite H. eauto.
Qed.

(** C3.  A request that fails validation is answered 400 with a body
    [{error: <message>}], and the world is left as it was: nothing has
    been submitted to the pool, the database is untouched and nothing was
    written to the console.  The checks are those of the handlers: the
    [:id] routes (GET, PUT, DELETE) reject an id that [Number] does not
    coerce to an integer, the routes with a body (POST, PUT) reject a
    missing (or otherwise falsy) [name] or [email]. *)
Theorem validation_fails_fast (ep : Endpoint) (req : Request) (w : World DB) :
  rejected_by_validation ep req = true ->
  exists msg,
    handle pool ep req w =
    ({| status := 400; payload := Json (JObj [(js "error", JStr msg)]) |}, w)
    /\ new_events (handle pool ep req) w = []
    /\ database (snd (handle pool ep req w)) = database w.
Proof.
  intros H. destruct (handle_invalid ep req w H) as [m Hm].
  exists (js m). unfold new_events. rewrite Hm. cbn [snd].
  rewrite skipn_all. auto.
Qed.

(** *** What a run of a handler adds to the world *)

Lemma skipn_exact {A} (l evs : list A) : skipn (List.length l) (l ++ evs) = evs.
Proof. induction l; simpl; auto. Qed.

Lemma validation_passed ep req :
  rejected_by_validation ep req = false ->
  (by_id ep = true -> negb (is_integer (to_number (params_id req))) = false)
  /\ (reads_body ep = true ->
      negb (truthy (get_prop (body req) (js "name")))
      || negb (truthy (get_prop (body req) (js "email"))) = false).
Proof.
  unfold rejected_by_validation, bad_id, lacks_fields.
  intros H. apply orb_false_elim in H. destruct H as [H1 H2].
  split; intros E; rewrite E in *; assumption.
Qed.

Ltac pass_validation H :=
  let Hid := fresh "Hid" in
  let Hbody := fresh "Hbody" in
  destruct (validation_passed _ _ H) as [Hid Hbody];
  try rewrite (Hid eq_refl); try rewrite (Hbody eq_refl).

(** A rejected query: the handler answers 500 with the fixed body and
    writes one line to the error stream. *)
Lemma handle_rejected ep req w e d :
  rejected_by_validation ep req = false ->
  pool (sql_of ep) (bound_values ep req) (database w) = (Rejected e, d) ->
  handle pool ep req w =
  ({| status := 500; payload := error_body "Internal server error" |},
   after ep req w d [Console (failure_line ep e (clock w))]).
Proof.
  intros Hv Hq. unfold after.
  destruct ep; cbn [sql_of bound_values] in *; unfold_handler;
    pass_validation Hv; rewrite Hq; cbn [database trace clock];
    rewrite <- app_assoc; reflexivity.
Qed.

(** A resolved query: the handler adds nothing but its statement. *)
Lemma handle_resolved ep req w rows d :
  rejected_by_validation ep req = false ->
  pool (sql_of ep) (bound_values ep req) (database w) = (Resolved rows, d) ->
  exists resp,
    handle pool ep req w = (resp, after ep req w d [])
    /\ resp =
       match ep, rows with
       | ListUsers, _ => {| status := 200; payload := Json (JArr (map JObj rows)) |}
       | CreateUser, _ => {| status := 201; payload := Json (first_row rows) |}
       | _, [] => {| status := 404; payload := error_body "User not found" |}
       | DeleteUser, _ => {| status := 204; payload := NoContent |}
       | _, _ => {| status := 200; payload := Json (first_row rows) |}
       end.
Proof.
  intros Hv Hq. unfold after.
  destruct ep; cbn [sql_of bound_values] in *; unfold_handler;
    pass_validation Hv; rewrite Hq; destruct rows; eexists; split; reflexivity.
Qed.

Lemma new_events_after {A} (m : M DB A) ep req w a d tail :
  m w = (a, after ep req w d tail) ->
  new_events m w =
  Submitted {| text := sql_of ep; values := bound_values ep req |} :: tail.
Proof.
  intros H. unfold new_events. rewrite H. cbn [snd after trace].
  apply skipn_exact.
Qed.

(** The statements a handler submits: none when validation fails, and
    otherwise its one literal with the values of the request bound. *)
Lemma handle_statements ep req w :
  statements_of (new_events (handle pool ep req) w) =
  if rejected_by_validation ep req then []
  else [{| text := sql_of ep; values := bound_values ep req |}].
Proof.
  destruct (rejected_by_validation ep req) eqn:Hv.
  - destruct (handle_invalid ep req w Hv) as [m Hm].
    unfold new_events. rewrite Hm. cbn [snd]. rewrite skipn_all. reflexivity.
  - destruct (pool (sql_of ep) (bound_values ep req) (database w)) as [[rows|e] d] eqn:Hq.
    + destruct (handle_resolved ep req w rows d Hv Hq) as [resp [Hr _]].
      rewrite (new_events_after _ _ _ _ _ _ _ Hr). reflexivity.
    + rewrite (new_events_after _ _ _ _ _ _ _ (handle_rejected ep req w e d Hv Hq)).
      reflexivity.
Qed.

End HandlerFacts.

(** C6.  The SQL text a handler submits is the literal of its endpoint,
    whatever the request, the pool and the state of the world: a run
    submits nothing, or exactly that literal with the values of the
    request in the array of bound values.  Two runs of one endpoint, on
    any two requests, submit the same text. *)
Theorem sql_text_is_constant {DB DB' : Type} (pool : Pool DB) (pool' : Pool DB')
    (ep : Endpoint) (req req' : Request) (w : World DB) (w' : World DB') :
  let run := statements_of (new_events (handle pool ep req) w) in
  let run' := statements_of (new_events (handle pool' ep req') w') in
  (run = [] \/ run = [{| text := sql_of ep; values := bound_values ep req |}])
  /\ Forall (fun st => text st = sql_of ep) run
  /\ map text run = map (fun _ => sql_of ep) run
  /\ (forall st st', In st run -> In st' run' -> text st = text st').
Proof.
  cbv zeta. rewrite !handle_statements.
  destruct (rejected_by_validation ep req), (rejected_by_validation ep req');
    (split; [auto | split; [repeat constructor | split; [reflexivity |]]]);
    intros st st' Hin Hin'; cbn [In] in Hin, Hin';
    try contradiction;
    destruct Hin as [<- | []]; destruct Hin' as [<- | []]; reflexivity.
Qed.

Lemma includes_self (s : JsString) : includes s s = true.
Proof.
  assert (H : starts_with s s = true).
  { induction s as [|c s IH]; [reflexivity|].
    cbn [starts_with]. rewrite N.eqb_refl. exact IH. }
  destruct s; cbn [includes]; rewrite H; reflexivity.
Qed.

(** C5, as the handlers have it.  When the query of a handler is
    rejected, the handler catches the error, answers 500 with the body
    [{error: "Internal server error"}] whatever the error is, and writes
    exactly one line to the error stream.  That line shows the message
    of the error; on the list route it is the structured line with the
    field [endpoint: "/api/users"], on the other four routes it is a fixed
    label for the operation followed by the error object. *)
Theorem rejected_query_is_generic_500 {DB : Type} (pool : Pool DB)
    (ep : Endpoint) (req : Request) (w : World DB) (e : JsError) (d : DB) :
  rejected_by_validation ep req = false ->
  pool (sql_of ep) (bound_values ep req) (database w) = (Rejected e, d) ->
  fst (handle pool ep req w) =
    {| status := 500;
       payload := Json (JObj [(js "error", JStr (js "Internal server error"))]) |}
  /\ console_of (new_events (handle pool ep req) w) = [failure_line ep e (clock w)]
  /\ mentions (failure_line ep e (clock w)) (message e) = true
  /\ (ep = ListUsers ->
      mentions (failure_line ep e (clock w)) (js "/api/users") = true)
  /\ database (snd (handle pool ep req w)) = d.
Proof.
  intros Hv Hq.
  pose proof (handle_rejected pool ep req w e d Hv Hq) as Hrun.
  rewrite (new_events_after _ _ _ _ _ _ _ Hrun), Hrun.
  repeat split.
  - destruct ep; unfold mentions; cbn; rewrite includes_self; cbn;
      rewrite ?orb_true_r; reflexivity.
  - intros ->. reflexivity.
Qed.

(** C10.  On the [:id] routes the check of the id is
    [Number.isInteger(Number(id))] and nothing more: the answer is 400
    exactly when the coerced id is not an integer, and otherwise the
    coerced number is what the handler binds to its statement, a query
    that finds no row being answered 404.  (For PUT the body is taken
    to carry [name] and [email], whose absence is a 400 of its own.)
    Negative, hexadecimal, exponential and whitespace-padded ids pass. *)
Theorem id_check_is_Number_isInteger :
  (forall (DB : Type) (pool : Pool DB) (ep : Endpoint) (req : Request) (w : World DB),
      by_id ep = true ->
      (reads_body ep = true -> lacks_fields req = false) ->
      let id := to_number (params_id req) in
      (status (fst (handle pool ep req w)) = 400 <-> is_integer id = false)
      /\ (is_integer id = true ->
          statements_of (new_events (handle pool ep req) w) =
            [{| text := sql_of ep; values := bound_values ep req |}]
          /\ last (bound_values ep req) JUndefined = JNum id
          /\ forall d,
              pool (sql_of ep) (bound_values ep req) (database w) = (Resolved [], d) ->
              fst (handle pool ep req w) =
                {| status := 404; payload := error_body "User not found" |}))
  /\ map (fun s => Z_of_number (to_number (js s))) ["-5"; "0x10"; "1e3"; " 42 "]%string
     = [Some (-5); Some 16; Some 1000; Some 42]
  /\ map (fun s => is_integer (to_number (js s))) ["1.5"; "abc"; "12px"; "Infinity"]%string
     = [false; false; false; false].
Proof.
  split; [| split; vm_compute; reflexivity].
  intros DB pool ep req w Hid Hbody id.
  assert (Hv : rejected_by_validation ep req = negb (is_integer id)).
  { unfold rejected_by_validation, bad_id. rewrite Hid. cbn [andb].
    destruct (reads_body ep); [rewrite Hbody by reflexivity|];
      cbn [andb]; apply orb_false_r. }
  destruct (is_integer id) eqn:Hint; cbn [negb] in Hv.
  - split.
    + split; [|discriminate].
      destruct (pool (sql_of ep) (bound_values ep req) (database w))
        as [[rows|e] d] eqn:Hq.
      * destruct (handle_resolved pool ep req w rows d Hv Hq) as [resp [-> ->]].
        destruct ep, rows; cbn; discriminate.
      * rewrite (handle_rejected pool ep req w e d Hv Hq). cbn. discriminate.
    + intros _. split; [|split].
      * rewrite handle_statements, Hv. reflexivity.
      * destruct ep; try discriminate; reflexivity.
      * intros d Hq.
        destruct (handle_resolved pool ep req w [] d Hv Hq) as [resp [-> ->]].
        destruct ep; try discriminate; reflexivity.
  - split; [|discriminate].
    destruct (handle_invalid pool ep req w Hv) as [m ->]. cbn. tauto.
Qed.

(** ** Sorting *)

Section SortFacts.

Context {A : Type} (leb : A -> A -> bool).

Let le (a b : A) : Prop := leb a b = true.

Hypothesis leb_total : forall a b, leb a b = false -> leb b a = true.
Hypothesis leb_trans : forall a b c, leb a b = true -> leb b c = true -> leb a c = true.

Lemma insert_by_perm x l : Permutation (insert_by leb x l) (x :: l).
Proof.
  induction l as [|y l IH]; cbn [insert_by].
  - apply Permutation_refl.
  - destruct (leb x y).
    + apply Permutation_refl.
    + eapply perm_trans; [apply perm_skip, IH | apply perm_swap].
Qed.

Lemma sort_by_perm l : Permutation (sort_by leb l) l.
Proof.
  induction l as [|x l IH]; cbn [sort_by fold_right].
  - constructor.
  - eapply perm_trans; [apply insert_by_perm | apply perm_skip, IH].
Qed.

Lemma insert_by_sorted x l : Sorted le l -> Sorted le (insert_by leb x l).
Proof.
  induction 1 as [|y l Hs IH Hhd]; cbn [insert_by].
  - repeat constructor.
  - destruct (leb x y) eqn:E.
    + constructor; [constructor; assumption | constructor; exact E].
    + constructor; [exact IH|].
      destruct l as [|z l]; cbn [insert_by].
      * constructor. apply leb_total, E.
      * destruct (leb x z); constructor.
        -- apply leb_total, E.
        -- inversion Hhd; assumption.
Qed.

Lemma sort_by_sorted l : Sorted le (sort_by leb l).
Proof.
  induction l as [|x l IH]; cbn [sort_by fold_right].
  - constructor.
  - apply insert_by_sorted, IH.
Qed.

(** Two insertions commute when one element comes strictly first. *)
Lemma insert_by_swap x y l :
  leb x y = true -> leb y x = false ->
  insert_by leb x (insert_by leb y l) = insert_by leb y (insert_by leb x l).
Proof.
  intros Hxy Hyx.
  induction l as [|z l IH]; cbn [insert_by].
  - rewrite Hxy, Hyx. reflexivity.
  - destruct (leb y z) eqn:Hyz.
    + rewrite (leb_trans x y z Hxy Hyz).
      cbn [insert_by]. rewrite Hxy, Hyx, Hyz. reflexivity.
    + cbn [insert_by]. destruct (leb x z) eqn:Hxz.
      * cbn [insert_by]. rewrite Hyx, Hyz. reflexivity.
      * cbn [insert_by]. rewrite Hyz, IH. reflexivity.
Qed.

End SortFacts.

(** ** Start-up *)

Section StartupFacts.

Context {DB : Type} (pool : Pool DB) (fs : FileSystem) (env : Env).
Context (dirname : JsString) (app_listen : JsString -> JsString -> Listener).

Ltac unfold_startup :=
  unfold start, initializeDatabase, console_error, console_log, emit, query,
    bind, ret.

(** Brings [new_events] of an unfolded run to the list of its events. *)
Ltac read_events :=
  unfold new_events; cbn [fst snd trace database clock];
  repeat rewrite <- app_assoc; cbn [app];
  rewrite ?skipn_exact.

(** The whole of [start], by what the file system, the pool and the call
    of [listen] answer. *)
Lemma start_runs (w : World DB) :
  let opening := Console (Log [AStr (js "Initializing database schema...")]) in
  let caught e :=
    [Console (Error [AStr (js "Error initializing database:"); AErr e]);
     Console (Error [AStr (js "Failed to start server:"); AErr e]);
     Exit 1] in
  match readFileSync fs (path_join dirname (js "schema.sql")) with
  | Thrown e =>
      fst (initializeDatabase pool fs dirname w) = Thrown e
      /\ fst (start pool fs env dirname app_listen w) = Terminated 1
      /\ new_events (start pool fs env dirname app_listen) w = opening :: caught e
  | Returned schemaSQL =>
      let st := Submitted {| text := schemaSQL; values := [] |} in
      match fst (pool schemaSQL [] (database w)) with
      | Rejected e =>
          fst (initializeDatabase pool fs dirname w) = Thrown e
          /\ fst (start pool fs env dirname app_listen w) = Terminated 1
          /\ new_events (start pool fs env dirname app_listen) w
             = opening :: st :: caught e
      | Resolved _ =>
          fst (initializeDatabase pool fs dirname w) = Returned tt
          /\ fst (start pool fs env dirname app_listen w) =
             match app_listen (port_text env) (js "0.0.0.0") with
             | Bound => Serving
             | Throws _ | Fails _ => Terminated 1
             end
          /\ new_events (start pool fs env dirname app_listen) w =
             [opening; st;
              Console (Log [AStr (js "Database schema initialized successfully")]);
              Listen (port_text env) (js "0.0.0.0")]
             ++ match app_listen (port_text env) (js "0.0.0.0") with
                | Bound =>
                    [Console (Log [AStr (js "Server running on port "
                                         ++ port_text env)]);
                     Console (Log [AStr (js "Environment: " ++ node_env_text env)])]
                | Throws e =>
                    [Console (Error [AStr (js "Failed to start server:"); AErr e]);
                     Exit 1]
                | Fails e => [Uncaught e]
                end
      end
  end.
Proof.
  cbv zeta. unfold_startup.
  destruct (readFileSync fs (path_join dirname (js "schema.sql"))) as [sql|e].
  - destruct (pool sql [] (database w)) as [[rows|e] d] eqn:Hq; cbn [fst];
      [destruct (app_listen (port_text env) (js "0.0.0.0"))|];
      repeat split; unfold new_events;
      repeat (cbn [fst snd database trace clock]; rewrite ?Hq);
      read_events; reflexivity.
  - repeat split; read_events; reflexivity.
Qed.

(** The one statement [start] submits is the schema. *)
Lemma start_statements (w : World DB) :
  statements_of (new_events (start pool fs env dirname app_listen) w) =
  match readFileSync fs (path_join dirname (js "schema.sql")) with
  | Returned schemaSQL => [{| text := schemaSQL; values := [] |}]
  | Thrown _ => []
  end.
Proof.
  pose proof (start_runs w) as H. cbv zeta in H.
  destruct (readFileSync fs (path_join dirname (js "schema.sql"))) as [sql|e].
  - destruct (fst (pool sql [] (database w)));
      destruct H as [_ [_ ->]]; [|reflexivity].
    destruct (app_listen (port_text env) (js "0.0.0.0")); reflexivity.
  - destruct H as [_ [_ ->]]; reflexivity.
Qed.

End StartupFacts.

(** *** [runMigrations], were it called *)

Lemma statements_of_app (a b : list Event) :
  statements_of (a ++ b) = statements_of a ++ statements_of b.
Proof.
  induction a as [|ev a IH]; [reflexivity|].
  destruct ev; cbn [app statements_of]; rewrite IH; reflexivity.
Qed.

Lemma str_leb_total (a b : JsString) : str_leb a b = false -> str_leb b a = true.
Proof.
  revert b. induction a as [|x a IH]; intros [|y b]; cbn [str_leb]; try easy.
  destruct (N.ltb_spec x y), (N.ltb_spec y x); try easy; try lia.
  apply IH.
Qed.

Section MigrationFacts.

Context {DB : Type} (pool : Pool DB) (fs : FileSystem) (dirname : JsString).

(** The text of a migration file. *)
Let text_of (file : JsString) : JsString :=
  match readFileSync fs (path_join (migrationsDir dirname) file) with
  | Returned sql => sql
  | Thrown _ => []
  end.

Hypothesis pool_accepts : forall sql params d, exists rows d',
  pool sql params d = (Resolved rows, d').

(** The loop submits the files it is given, one statement each, in the
    order of the list. *)
Lemma run_files_in_order files :
  (forall file, In file files -> exists sql,
      readFileSync fs (path_join (migrationsDir dirname) file) = Returned sql) ->
  forall w, exists events,
    trace (snd (run_files pool fs dirname files w)) = trace w ++ events
    /\ fst (run_files pool fs dirname files w) = Returned tt
    /\ statements_of events =
       map (fun file => {| text := text_of file; values := [] |}) files.
Proof.
  induction files as [|file rest IH]; intros Hread w.
  - exists []. cbn. rewrite app_nil_r. auto.
  - destruct (Hread file (or_introl eq_refl)) as [sql Hsql].
    destruct (pool_accepts sql [] (database w)) as [rows [d' Hq]].
    set (ran := [Console (Log [AStr (js "Running migration: " ++ file)]);
                 Submitted {| text := sql; values := [] |};
                 Console (Log [AStr (js "Migration " ++ file ++ js " completed")])]).
    assert (Hstep : run_files pool fs dirname (file :: rest) w =
                    run_files pool fs dirname rest
                      {| database := d'; trace := trace w ++ ran; clock := clock w |}).
    { cbn [run_files]. unfold console_log, emit, query, bind, ret.
      rewrite Hsql. cbn [database trace clock]. rewrite Hq.
      cbn [database trace clock]. repeat rewrite <- app_assoc. reflexivity. }
    rewrite Hstep.
    destruct (IH (fun f Hf => Hread f (or_intror Hf))
                 {| database := d'; trace := trace w ++ ran; clock := clock w |})
      as [events [Htrace [Hret Hst]]].
    exists (ran ++ events). rewrite Htrace, Hret. cbn [trace].
    rewrite <- app_assoc. split; [reflexivity|]. split; [reflexivity|].
    cbn [ran app statements_of map]. rewrite Hst.
    unfold text_of at 2. rewrite Hsql. reflexivity.
Qed.

(** With the directory in place and its [.sql] files readable,
    [runMigrations] submits exactly those files, in ascending order of
    their names. *)
Lemma runMigrations_in_order entries w :
  existsSync fs (migrationsDir dirname) = true ->
  readdirSync fs (migrationsDir dirname) = Returned entries ->
  (forall file, In file entries -> exists sql,
      readFileSync fs (path_join (migrationsDir dirname) file) = Returned sql) ->
  exists files,
    Permutation files (filter (fun file => ends_with file (js ".sql")) entries)
    /\ Sorted (fun a b => str_leb a b = true) files
    /\ fst (runMigrations pool fs dirname w) = Returned tt
    /\ statements_of (new_events (runMigrations pool fs dirname) w) =
       map (fun file => {| text := text_of file; values := [] |}) files.
Proof.
  intros Hdir Hls Hread.
  set (files := sort_by str_leb
                  (filter (fun file => ends_with file (js ".sql")) entries)).
  assert (Hperm : Permutation files
                    (filter (fun file => ends_with file (js ".sql")) entries))
    by apply sort_by_perm.
  exists files. split; [exact Hperm|]. split.
  { apply sort_by_sorted, str_leb_total. }
  destruct (run_files_in_order files) with (w := w) as [events [Htrace [Hret Hst]]].
  { intros file Hin. apply Hread.
    apply (Permutation_in _ Hperm) in Hin. apply filter_In in Hin. tauto. }
  unfold runMigrations, new_events. rewrite Hdir, Hls. cbn [negb].
  fold files. rewrite Htrace, Hret, skipn_exact. auto.
Qed.

(** Without the directory [runMigrations] returns at once: one line on
    the console, nothing submitted, nothing thrown. *)
Lemma runMigrations_without_directory w :
  existsSync fs (migrationsDir dirname) = false ->
  fst (runMigrations pool fs dirname w) = Returned tt
  /\ new_events (runMigrations pool fs dirname) w =
     [Console (Log [AStr (js "No migrations directory found, skipping migrations")])].
Proof.
  intros Hdir. unfold runMigrations, new_events. rewrite Hdir. cbn [negb].
  unfold console_log, emit, bind, ret. cbn [fst snd trace].
  rewrite skipn_exact. auto.
Qed.

End MigrationFacts.

(** C8.  When [initializeDatabase] throws (schema.sql cannot be read, or
    the pool rejects it), [start] ends the process with exit code 1 and
    has not called [listen]: the exit is the last thing the process does.
    [listen] is called, and so a listener bound, only when
    [initializeDatabase] has returned: the schema statement was submitted
    and resolved before the call, and nothing had ended the process by
    then.  What follows the call depends on the call: the process is left
    serving exactly when [initializeDatabase] returned and the call bound
    the port, and then nothing ends it. *)
Theorem listen_only_after_schema {DB : Type} (pool : Pool DB) (fs : FileSystem)
    (env : Env) (dirname : JsString)
    (app_listen : JsString -> JsString -> Listener) (w : World DB) :
  let events := new_events (start pool fs env dirname app_listen) w in
  let outcome := fst (start pool fs env dirname app_listen w) in
  let init := fst (initializeDatabase pool fs dirname w) in
  (forall e, init = Thrown e ->
     outcome = Terminated 1
     /\ (exists before, events = before ++ [Exit 1])
     /\ forall port host, ~ In (Listen port host) events)
  /\ (forall port host, In (Listen port host) events ->
        init = Returned tt
        /\ exists schemaSQL rows d before since,
             readFileSync fs (path_join dirname (js "schema.sql")) = Returned schemaSQL
             /\ pool schemaSQL [] (database w) = (Resolved rows, d)
             /\ events = before ++ Listen port host :: since
             /\ In (Submitted {| text := schemaSQL; values := [] |}) before
             /\ forall ev, In ev before ->
                  match ev with Listen _ _ | Exit _ | Uncaught _ => False | _ => True end)
  /\ (outcome = Serving <->
        init = Returned tt /\ app_listen (port_text env) (js "0.0.0.0") = Bound)
  /\ (outcome = Serving ->
        forall ev, In ev events ->
          match ev with Exit _ | Uncaught _ => False | _ => True end).
Proof.
  cbv zeta. pose proof (start_runs pool fs env dirname app_listen w) as H.
  cbv zeta in H.
  destruct (readFileSync fs (path_join dirname (js "schema.sql"))) as [sql|e0].
  - destruct (pool sql [] (database w)) as [[rows|e0] d] eqn:Hq; cbn [fst] in H;
      destruct H as [-> [-> ->]].
    + split; [intros e; discriminate|]. split; [|split].
      * intros port host Hin. apply in_app_or in Hin.
        assert (Hcall : Listen port host = Listen (port_text env) (js "0.0.0.0")).
        { destruct Hin as [Hin|Hin].
          - cbn [In] in Hin.
            repeat (destruct Hin as [Hin|Hin]; try discriminate);
              [symmetry; exact Hin | contradiction].
          - destruct (app_listen (port_text env) (js "0.0.0.0")); cbn [In] in Hin;
              repeat (destruct Hin as [Hin|Hin]; try discriminate); contradiction. }
        rewrite Hcall. split; [reflexivity|].
        exists sql, rows, d. eexists [_; _; _], _.
        split; [reflexivity|]. split; [exact Hq|]. split; [reflexivity|].
        split; [cbn [In]; auto|].
        intros ev Hev. cbn [In] in Hev.
        repeat (destruct Hev as [<-|Hev]; [exact I|]). contradiction.
      * destruct (app_listen (port_text env) (js "0.0.0.0")); split;
          try (intros [_ Hb]; discriminate Hb); try discriminate; auto.
      * destruct (app_listen (port_text env) (js "0.0.0.0")); try discriminate.
        intros _ ev Hev. cbn [In app] in Hev.
        repeat (destruct Hev as [<-|Hev]; [exact I|]). contradiction.
    + split; [|split; [|split]].
      * intros e _. repeat split.
        -- eexists [_; _; _; _]. reflexivity.
        -- intros port host Hin. cbn [In] in Hin.
           repeat (destruct Hin as [Hin|Hin]; try discriminate). contradiction.
      * intros port host Hin. cbn [In] in Hin.
        repeat (destruct Hin as [Hin|Hin]; try discriminate). contradiction.
      * split; [discriminate | intros [Hr _]; discriminate Hr].
      * discriminate.
  - destruct H as [-> [-> ->]]. split; [|split; [|split]].
    + intros e _. repeat split.
      * eexists [_; _; _]. reflexivity.
      * intros port host Hin. cbn [In] in Hin.
        repeat (destruct Hin as [Hin|Hin]; try discriminate). contradiction.
    + intros port host Hin. cbn [In] in Hin.
      repeat (destruct Hin as [Hin|Hin]; try discriminate). contradiction.
    + split; [discriminate | intros [Hr _]; discriminate Hr].
    + discriminate.
Qed.

(** C7, at the files of the repository.  [runMigrations] would submit
    the migration (the one [.sql] file of the directory), but [start]
    never calls it: whatever the pool and the files, the one statement
    [start] submits is schema.sql, and with the migrations directory in
    place and a database that accepts everything, the process comes up
    having submitted the schema and nothing else. *)
Theorem start_skips_migrations :
  (forall (DB : Type) (pool : Pool DB) fs env dirname app_listen (w : World DB),
      statements_of (new_events (start pool fs env dirname app_listen) w) =
      match readFileSync fs (path_join dirname (js "schema.sql")) with
      | Returned schemaSQL => [{| text := schemaSQL; values := [] |}]
      | Thrown _ => []
      end)
  /\ statements_of
       (new_events (runMigrations accepting_pool repo_files app_src) (fresh_world tt))
     = [{| text := migration_text; values := [] |}]
  /\ fst (start accepting_pool repo_files no_env app_src valid_port (fresh_world tt))
     = Serving
  /\ statements_of
       (new_events (start accepting_pool repo_files no_env app_src valid_port)
                   (fresh_world tt))
     = [{| text := schema_text; values := [] |}].
Proof.
  split.
  - intros DB pool fs env dirname app_listen w. apply start_statements.
  - vm_compute. repeat split.
Qed.

(** ** The column types *)

Lemma int4_in_range (z : Z) : in_int4 (int4 z) = true.
Proof.
  unfold in_int4, int4.
  pose proof (Z.mod_pos_bound (z + 2147483648) 4294967296 eq_refl) as H.
  apply andb_true_iff. split; apply Z.leb_le; lia.
Qed.

Lemma int4_small (z : Z) : in_int4 z = true -> int4 z = z.
Proof.
  unfold in_int4, int4. intros H. apply andb_true_iff in H.
  destruct H as [Hlo Hhi]. apply Z.leb_le in Hlo, Hhi.
  rewrite Z.mod_small by lia. lia.
Qed.

(** A character: one unit that is no surrogate, or a surrogate pair. *)
Lemma characters_are_characters (s : JsString) :
  Forall (fun c => exists u rest,
            c = u :: rest
            /\ (if is_high u
                then exists d, rest = [d] /\ is_low d = true
                else rest = [] /\ is_low u = false))
         (characters s).
Proof.
  assert (H : forall n s, (List.length s <= n)%nat ->
            Forall (fun c => exists u rest,
                      c = u :: rest
                      /\ (if is_high u
                          then exists d, rest = [d] /\ is_low d = true
                          else rest = [] /\ is_low u = false))
                   (characters s)).
  { assert (Hrep : exists u rest, [65533%N] = u :: rest
                     /\ (if is_high u
                         then exists d, rest = [d] /\ is_low d = true
                         else rest = [] /\ is_low u = false)).
    { exists 65533%N, []. split; [reflexivity|]. cbn. auto. }
    induction n as [|n IH]; intros [|c s'] Hlen; cbn [characters];
      try constructor; cbn [List.length] in Hlen; try lia.
    destruct (is_high c) eqn:Hc.
    - destruct s' as [|d s'']; [repeat constructor; exact Hrep|].
      destruct (is_low d) eqn:Hd; constructor.
      + exists c, [d]. rewrite Hc. eauto.
      + apply IH. cbn [List.length] in Hlen. lia.
      + exact Hrep.
      + apply IH. lia.
    - destruct (is_low c) eqn:Hl; constructor.
      + exact Hrep.
      + apply IH. lia.
      + exists c, []. rewrite Hc. auto.
      + apply IH. lia. }
  apply (H (List.length s)). lia.
Qed.

(** The characters of a text made of characters are those characters. *)
Lemma characters_concat (cs : list JsString) :
  Forall (fun c => exists u rest,
            c = u :: rest
            /\ (if is_high u
                then exists d, rest = [d] /\ is_low d = true
                else rest = [] /\ is_low u = false)) cs ->
  characters (List.concat cs) = cs.
Proof.
  induction 1 as [|c cs [u [rest [-> Hc]]] _ IH]; [reflexivity|].
  cbn [List.concat]. destruct (is_high u) eqn:Hu.
  - destruct Hc as [d [-> Hd]]. cbn [app characters].
    rewrite Hu, Hd, IH. reflexivity.
  - destruct Hc as [-> Hl]. cbn [app characters].
    rewrite Hu, Hl, IH. reflexivity.
Qed.

Lemma existsb_firstn {B} (f : B -> bool) (k : nat) (l : list B) :
  existsb f l = false -> existsb f (firstn k l) = false.
Proof.
  revert k. induction l as [|x l IH]; intros [|k] H; try reflexivity.
  cbn [existsb firstn] in *. apply orb_false_iff in H. destruct H as [-> H].
  apply IH, H.
Qed.

Lemma Forall_first {B} (P : B -> Prop) (k : nat) (l : list B) :
  Forall P l -> Forall P (firstn k l).
Proof.
  intros H. revert k. induction H as [|x l Hx _ IH]; intros [|k]; cbn [firstn];
    constructor; auto.
Qed.

(** What a VARCHAR(255) column took, it takes again as it is. *)
Lemma varchar255_again (s s' : JsString) :
  varchar255 s = Value s' -> varchar255 s' = Value s'.
Proof.
  unfold varchar255. cbv zeta.
  pose proof (characters_are_characters s) as Hcs.
  destruct (existsb _ (characters s)) eqn:Hnul; [discriminate|].
  destruct (List.length (characters s) <=? 255)%nat eqn:Hlen.
  - intros H. injection H as <-.
    rewrite (characters_concat _ Hcs), Hnul, Hlen. reflexivity.
  - destruct (forallb _ (skipn 255 (characters s))); [|discriminate].
    intros H.
    apply (f_equal (fun v => match v with Value x => x | _ => [] end)) in H.
    cbv beta iota in H. subst s'.
    rewrite (characters_concat (firstn 255 (characters s)))
      by (apply Forall_first, Hcs).
    rewrite (existsb_firstn _ 255 _ Hnul).
    replace (List.length (firstn 255 (characters s)) <=? 255)%nat with true;
      [reflexivity|].
    symmetry. apply Nat.leb_le. rewrite length_firstn. apply Nat.le_min_l.
Qed.

(** The texts a VARCHAR(255) column takes as they are: those without an
    unpaired surrogate, without NUL, of at most 255 characters. *)
Lemma varchar255_as_it_is (s : JsString) :
  varchar255 s = Value s <->
  List.concat (characters s) = s
  /\ existsb (fun c => str_eqb c [0%N]) (characters s) = false
  /\ (List.length (characters s) <= 255)%nat.
Proof.
  split.
  - intros H. unfold varchar255 in H. cbv zeta in H.
    pose proof (characters_are_characters s) as Hcs.
    destruct (existsb _ (characters s)) eqn:Hnul; [discriminate|].
    destruct (List.length (characters s) <=? 255)%nat eqn:Hlen.
    + apply Nat.leb_le in Hlen.
      apply (f_equal (fun v => match v with Value x => x | _ => [] end)) in H.
      cbv beta iota in H. auto.
    + destruct (forallb _ (skipn 255 (characters s))); [|discriminate].
      apply (f_equal (fun v => match v with Value x => x | _ => [] end)) in H.
      cbv beta iota in H. exfalso.
      assert (Hsame : characters s = firstn 255 (characters s)).
      { rewrite <- H at 1. apply characters_concat, Forall_first, Hcs. }
      apply Nat.leb_gt in Hlen. rewrite Hsame, length_firstn in Hlen.
      pose proof (Nat.le_min_l 255 (List.length (characters s))). lia.
  - intros [Hwf [Hnul Hlen]]. unfold varchar255. cbv zeta.
    rewrite Hnul, (proj2 (Nat.leb_le _ _) Hlen), Hwf. reflexivity.
Qed.

(** A cell read as a text of the column is a text of the column. *)
Lemma as_varchar255_is_varchar255 (s : JsString) :
  varchar255 (as_varchar255 s) = Value (as_varchar255 s).
Proof.
  unfold as_varchar255. destruct (varchar255 s) as [err| |s'] eqn:H;
    try reflexivity.
  apply (varchar255_again s s' H).
Qed.

Lemma as_varchar255_value (s s' : JsString) :
  varchar255 s = Value s' -> as_varchar255 s' = s'.
Proof.
  intros H. unfold as_varchar255. rewrite (varchar255_again s s' H). reflexivity.
Qed.

(** ** The users table *)

Section TableFacts.

Variable prepareValue : JsValue -> JsString.

Let pool : Pool Table := pg prepareValue.

Lemma id_leb_total a b : id_leb a b = false -> id_leb b a = true.
Proof. unfold id_leb. intros H. apply Z.leb_gt in H. apply Z.leb_le. lia. Qed.

Lemma id_leb_trans a b c : id_leb a b = true -> id_leb b c = true -> id_leb a c = true.
Proof. unfold id_leb. rewrite !Z.leb_le. lia. Qed.

(** Rows with distinct ids sort to one order, however they are stored. *)
Lemma sort_by_id_stable_under_perm l l' :
  Permutation l l' -> NoDup (map id l) ->
  sort_by id_leb l = sort_by id_leb l'.
Proof.
  induction 1 as [|x l l' Hp IH|x y l|l l' l'' Hp1 IH1 Hp2 IH2]; intros Hnd.
  - reflexivity.
  - cbn [sort_by fold_right]. cbn [map] in Hnd. inversion Hnd; subst.
    unfold sort_by in IH. rewrite IH by assumption. reflexivity.
  - cbn [sort_by fold_right]. cbn [map] in Hnd.
    assert (Hne : id x <> id y).
    { inversion Hnd as [|? ? Hnotin _]; subst. intros E. apply Hnotin. left. auto. }
    destruct (Z.lt_trichotomy (id x) (id y)) as [Hlt|[Heq|Hgt]]; [|contradiction|].
    + symmetry. apply (insert_by_swap id_leb id_leb_trans); unfold id_leb.
      * apply Z.leb_le; lia.
      * apply Z.leb_gt; lia.
    + apply (insert_by_swap id_leb id_leb_trans); unfold id_leb.
      * apply Z.leb_le; lia.
      * apply Z.leb_gt; lia.
  - rewrite IH1 by assumption. apply IH2.
    eapply Permutation_NoDup; [apply Permutation_map, Hp1 | assumption].
Qed.

Lemma sort_by_id_sorted l : StronglySorted Z.le (map id (sort_by id_leb l)).
Proof.
  assert (H : StronglySorted (fun a b => id_leb a b = true) (sort_by id_leb l)).
  { apply Sorted_StronglySorted.
    - intros a b c. apply id_leb_trans.
    - apply sort_by_sorted, id_leb_total. }
  induction H as [|a rows Hs IH Hall]; cbn [map]; constructor.
  - exact IH.
  - apply Forall_map. eapply Forall_impl; [|exact Hall].
    intros b Hb. apply Z.leb_le, Hb.
Qed.

Lemma pg_list params t : pool sql_list params t = select_all t.
Proof. reflexivity. Qed.

Lemma pg_create n e t : pool sql_create [n; e] t = insert_user prepareValue n e t.
Proof. reflexivity. Qed.

Lemma pg_get v t : pool sql_get [v] t = select_by_id v t.
Proof. reflexivity. Qed.

Lemma pg_update n e v t :
  pool sql_update [n; e; v] t = update_by_id prepareValue n e v t.
Proof. reflexivity. Qed.

Lemma pg_delete v t : pool sql_delete [v] t = delete_by_id v t.
Proof. reflexivity. Qed.

(** The answer of the list route. *)
Lemma list_users_answer req w :
  fst (handle pool ListUsers req w) =
  {| status := 200;
     payload := Json (JArr (map (fun r => JObj (brief_row r))
                                (sort_by id_leb (users (database w))))) |}.
Proof.
  assert (Hq : pool (sql_of ListUsers) (bound_values ListUsers req) (database w)
               = (Resolved (map brief_row (sort_by id_leb (users (database w)))),
                  database w)) by reflexivity.
  destruct (handle_resolved pool ListUsers req w _ _ eq_refl Hq) as [resp [-> ->]].
  cbn [fst]. rewrite map_map. reflexivity.
Qed.

(** *** Rows found by id *)

Lemma no_row_with_id z l :
  (forall r, In r l -> id r <> z) ->
  filter (has_id z) l = []
  /\ existsb (has_id z) l = false
  /\ filter (fun r => negb (has_id z r)) l = l.
Proof.
  unfold has_id. induction l as [|r l IH]; intros H; cbn [filter existsb].
  - auto.
  - destruct IH as [IH1 [IH2 IH3]]; [intros r' Hr'; apply H; right; exact Hr'|].
    assert (E : Z.eqb (id r) z = false) by (apply Z.eqb_neq, H; left; reflexivity).
    rewrite E, IH1, IH2, IH3. auto.
Qed.

(** Under the primary key a stored id picks out one row. *)
Lemma one_row_with_id z l :
  NoDup (map id l) ->
  (exists r, In r l /\ id r = z) ->
  exists before row since,
    l = before ++ row :: since
    /\ id row = z
    /\ filter (has_id z) l = [row]
    /\ filter (fun r => negb (has_id z r)) l = before ++ since.
Proof.
  induction l as [|r l IH]; intros Hnd [r0 [Hin Hid]]; [contradiction|].
  cbn [map] in Hnd. apply NoDup_cons_iff in Hnd. destruct Hnd as [Hnotin Hnd].
  destruct (Z.eq_dec (id r) z) as [E|E].
  - exists [], r, l. split; [reflexivity|]. split; [exact E|].
    destruct (no_row_with_id z l) as [H1 [_ H3]].
    { intros r' Hr' E'. apply Hnotin. rewrite E, <- E'. apply in_map, Hr'. }
    assert (Hr : has_id z r = true) by (apply Z.eqb_eq, E).
    cbn [filter]. rewrite !Hr. cbn [negb]. rewrite H1, H3. auto.
  - destruct Hin as [->|Hin]; [contradiction|].
    destruct IH as [before [row [since [Hl [Hrow [H1 H2]]]]]];
      [assumption | exists r0; auto |].
    exists (r :: before), row, since.
    assert (Hr : has_id z r = false) by (apply Z.eqb_neq, E).
    cbn [filter]. rewrite !Hr. cbn [negb app]. rewrite H1, H2, Hl at 1. auto.
Qed.

Lemma integer_id_passes ep req z :
  Z_of_number (to_number (params_id req)) = Some z ->
  (reads_body ep = true -> lacks_fields req = false) ->
  rejected_by_validation ep req = false.
Proof.
  intros Hz Hbody. unfold rejected_by_validation, bad_id, is_integer.
  rewrite Hz. cbn [negb]. rewrite andb_false_r. cbn [orb].
  destruct (reads_body ep); [rewrite Hbody by reflexivity|]; reflexivity.
Qed.

(** The number a handler binds as id, as the engine takes it. *)
Lemma id_param_value x z :
  Z_of_number x = Some z -> in_int4 z = true -> id_param (JNum x) = Value z.
Proof. intros Hz Hr. cbn [id_param]. rewrite Hz, Hr. reflexivity. Qed.

Lemma id_in_int4 (r : UserRow) : in_int4 (id r) = true.
Proof. apply int4_in_range. Qed.

(** An id of the column that no stored row has: 404 on the three [:id]
    routes, and the rows stay as they are. *)
Lemma absent_id_answer ep req w z :
  by_id ep = true ->
  (reads_body ep = true ->
   lacks_fields req = false
   /\ exists n e,
       text_param prepareValue (get_prop (body req) (js "name")) = Value n
       /\ text_param prepareValue (get_prop (body req) (js "email")) = Value e) ->
  Z_of_number (to_number (params_id req)) = Some z ->
  in_int4 z = true ->
  (forall r, In r (users (database w)) -> id r <> z) ->
  fst (handle pool ep req w) =
    {| status := 404; payload := error_body "User not found" |}
  /\ users (database (snd (handle pool ep req w))) = users (database w).
Proof.
  intros Hby Hbody Hz Hrange Habsent.
  assert (Hv : rejected_by_validation ep req = false).
  { apply (integer_id_passes ep req z Hz). intros Hr. apply Hbody, Hr. }
  destruct (no_row_with_id z _ Habsent) as [H1 [H2 H3]].
  pose proof (id_param_value _ z Hz Hrange) as Hid.
  assert (Hq : exists d,
    pool (sql_of ep) (bound_values ep req) (database w) = (Resolved [], d)
    /\ users d = users (database w)).
  { destruct ep; try discriminate; cbn [sql_of bound_values].
    - rewrite pg_get. unfold select_by_id. rewrite Hid, H1.
      eexists. split; reflexivity.
    - destruct (Hbody eq_refl) as [_ [n [e [Hn He]]]].
      rewrite pg_update. unfold update_by_id. rewrite Hn, He, Hid, H2.
      eexists. split; reflexivity.
    - rewrite pg_delete. unfold delete_by_id. rewrite Hid, H1, H3.
      eexists. split; reflexivity. }
  destruct Hq as [d [Hq Hd]].
  destruct (handle_resolved pool ep req w [] d Hv Hq) as [resp [-> ->]].
  cbn [fst snd after database]. split; [|exact Hd].
  destruct ep; try discriminate; reflexivity.
Qed.

(** An integer id outside the column: the statement is refused, which the
    three [:id] routes answer with 500; the table stays as it is. *)
Lemma id_out_of_range_answer ep req w z :
  by_id ep = true ->
  (reads_body ep = true -> lacks_fields req = false) ->
  Z_of_number (to_number (params_id req)) = Some z ->
  in_int4 z = false ->
  fst (handle pool ep req w) =
    {| status := 500; payload := error_body "Internal server error" |}
  /\ database (snd (handle pool ep req w)) = database w.
Proof.
  intros Hby Hbody Hz Hrange.
  pose proof (integer_id_passes ep req z Hz Hbody) as Hv.
  assert (Hid : exists err,
            id_param (JNum (to_number (params_id req))) = Refused err).
  { cbn [id_param]. rewrite Hz, Hrange. eauto. }
  destruct Hid as [err0 Hid].
  assert (Hq : exists err,
    pool (sql_of ep) (bound_values ep req) (database w) = (Rejected err, database w)).
  { destruct ep; try discriminate; cbn [sql_of bound_values].
    - rewrite pg_get. unfold select_by_id. rewrite Hid. eauto.
    - rewrite pg_update. unfold update_by_id. rewrite Hid.
      destruct (text_param prepareValue _); [eauto| |];
        destruct (text_param prepareValue _); eauto.
    - rewrite pg_delete. unfold delete_by_id. rewrite Hid. eauto. }
  destruct Hq as [err Hq].
  rewrite (handle_rejected pool ep req w err _ Hv Hq).
  cbn [fst snd after database]. auto.
Qed.

(** *** Create, then read *)

Lemma nonempty_is_truthy (s : JsString) : s <> [] -> truthy (JStr s) = true.
Proof. destruct s; [contradiction | reflexivity]. Qed.

Lemma existsb_has_id_false z l :
  existsb (has_id z) l = false -> forall r, In r l -> id r <> z.
Proof.
  intros H r Hin E.
  assert (Ht : existsb (has_id z) l = true).
  { apply existsb_exists. exists r. split; [exact Hin | apply Z.eqb_eq, E]. }
  congruence.
Qed.

Lemma existsb_has_email_false e l :
  existsb (has_email e) l = false -> forall r, In r l -> email r <> e.
Proof.
  intros H r Hin E.
  assert (Ht : existsb (has_email e) l = true).
  { apply existsb_exists. exists r. split; [exact Hin|].
    unfold has_email. rewrite E. clear. induction e as [|c e IH]; cbn [str_eqb];
      [reflexivity | rewrite N.eqb_refl, IH; reflexivity]. }
  congruence.
Qed.

(** The row an INSERT stores reads as the values it was given. *)
Lemma new_row_reads_back (z : Z) (n e n0 e0 c : JsString) :
  in_int4 z = true -> varchar255 n0 = Value n -> varchar255 e0 = Value e ->
  let row := {| id_cell := z; name_cell := n; email_cell := e; created_at := c |} in
  id row = z /\ name row = n /\ email row = e.
Proof.
  intros Hz Hn He. cbv zeta. unfold id, name, email. cbn [id_cell name_cell email_cell].
  rewrite (int4_small z Hz), (as_varchar255_value _ _ Hn), (as_varchar255_value _ _ He).
  auto.
Qed.

Lemma text_param_is_varchar255 v s :
  text_param prepareValue v = Value s -> exists s0, varchar255 s0 = Value s.
Proof.
  destruct v; cbn [text_param]; try discriminate; eauto.
Qed.

(** A create that is answered 201 has stored the row it answers with:
    the two fields as the columns took them, under the next value of the
    sequence. *)
Lemma created_row req w :
  status (fst (handle pool CreateUser req w)) = 201 ->
  let t := database w in
  exists n e row,
    text_param prepareValue (get_prop (body req) (js "name")) = Value n
    /\ text_param prepareValue (get_prop (body req) (js "email")) = Value e
    /\ id row = Zpos (users_id_seq t) /\ name row = n /\ email row = e
    /\ created_at row = current_timestamp t
    /\ Zpos (users_id_seq t) <= 2147483647
    /\ (forall r, In r (users t) -> id r <> Zpos (users_id_seq t))
    /\ fst (handle pool CreateUser req w) =
         {| status := 201; payload := Json (JObj (full_row row)) |}
    /\ database (snd (handle pool CreateUser req w)) =
         {| users := users t ++ [row];
            users_id_seq := Pos.succ (users_id_seq t);
            current_timestamp := current_timestamp t |}.
Proof.
  cbv zeta.
  destruct (rejected_by_validation CreateUser req) eqn:Hv.
  { destruct (handle_invalid pool CreateUser req w Hv) as [m ->]. discriminate. }
  destruct (pool (sql_of CreateUser) (bound_values CreateUser req) (database w))
    as [[rows|err] d] eqn:Hq.
  2:{ rewrite (handle_rejected pool CreateUser req w err d Hv Hq). discriminate. }
  destruct (handle_resolved pool CreateUser req w rows d Hv Hq) as [resp [-> ->]].
  cbn [fst snd status after database]. intros _.
  cbn [sql_of bound_values] in Hq. rewrite pg_create in Hq.
  unfold insert_user in Hq.
  destruct (text_param prepareValue (get_prop (body req) (js "name")))
    as [err| |n] eqn:Hn; [discriminate | |];
    (destruct (text_param prepareValue (get_prop (body req) (js "email")))
       as [err| |e] eqn:He; [discriminate | |]);
    (destruct (2147483647 <? Zpos (users_id_seq (database w))) eqn:Hmax;
       [discriminate|]);
    try discriminate.
  destruct (existsb (has_id (Zpos (users_id_seq (database w))))
                    (users (database w))) eqn:Hpk; [discriminate|].
  destruct (existsb (has_email e) (users (database w))); [discriminate|].
  injection Hq as <- <-. cbn [first_row].
  apply Z.ltb_ge in Hmax.
  destruct (text_param_is_varchar255 _ _ Hn) as [n0 Hn0].
  destruct (text_param_is_varchar255 _ _ He) as [e0 He0].
  assert (Hrange : in_int4 (Zpos (users_id_seq (database w))) = true).
  { unfold in_int4. apply andb_true_iff. split; apply Z.leb_le; lia. }
  destruct (new_row_reads_back _ n e n0 e0 (current_timestamp (database w))
              Hrange Hn0 He0) as [Hid [Hname Hemail]].
  eexists n, e, _. repeat split; try eassumption; try reflexivity.
  apply existsb_has_id_false, Hpk.
Qed.

(** *** The constraints hold from request to request *)

Lemma str_eqb_eq (a b : JsString) : str_eqb a b = true <-> a = b.
Proof.
  revert b. induction a as [|x a IH]; intros [|y b]; cbn [str_eqb];
    try (split; [discriminate | intros H; discriminate H]).
  - split; reflexivity.
  - rewrite andb_true_iff, N.eqb_eq, IH. split.
    + intros [-> ->]. reflexivity.
    + intros H. injection H as -> ->. auto.
Qed.

Lemma NoDup_middle {B} (a : B) (l l' : list B) :
  ~ In a (l ++ l') -> NoDup (l ++ l') -> NoDup (l ++ a :: l').
Proof.
  intros Hnotin Hnd.
  eapply Permutation_NoDup; [apply Permutation_middle|].
  constructor; assumption.
Qed.

Lemma map_id_set_fields z n e l : map id (map (set_fields z n e) l) = map id l.
Proof.
  induction l as [|r l IH]; [reflexivity|]. cbn [map]. rewrite IH. f_equal.
  unfold set_fields. destruct (has_id z r); reflexivity.
Qed.

Lemma set_fields_elsewhere z n e l :
  (forall r, In r l -> id r <> z) -> map (set_fields z n e) l = l.
Proof.
  induction l as [|r l IH]; intros H; [reflexivity|]. cbn [map].
  rewrite IH by (intros r' Hr'; apply H; right; exact Hr').
  unfold set_fields, has_id.
  rewrite (proj2 (Z.eqb_neq _ _)) by (apply H; left; reflexivity). reflexivity.
Qed.

Lemma emails_after_update z n e l :
  as_varchar255 e = e ->
  NoDup (map id l) -> NoDup (map email l) ->
  existsb (fun r => negb (has_id z r) && has_email e r) l = false ->
  NoDup (map email (map (set_fields z n e) l)).
Proof.
  intros Hcol Hid Hem Hfree.
  destruct (existsb (has_id z) l) eqn:Hfound.
  - apply existsb_exists in Hfound. destruct Hfound as [r0 [Hin0 Hr0]].
    destruct (one_row_with_id z l Hid) as [before [row [since [Hl [Hrow _]]]]].
    { exists r0. split; [exact Hin0 | apply Z.eqb_eq, Hr0]. }
    assert (Hothers : forall r, In r (before ++ since) -> id r <> z).
    { intros r Hr E. rewrite Hl, map_app in Hid. cbn [map] in Hid.
      apply NoDup_remove_2 in Hid. apply Hid.
      rewrite <- map_app, Hrow, <- E. apply in_map, Hr. }
    rewrite Hl, map_app. cbn [map].
    rewrite !set_fields_elsewhere
      by (intros r Hr; apply Hothers, in_or_app; auto).
    unfold set_fields at 1. unfold has_id at 1.
    rewrite (proj2 (Z.eqb_eq _ _) Hrow). rewrite map_app. cbn [map].
    assert (Hnew : email {| id_cell := id_cell row; name_cell := n; email_cell := e;
                            created_at := created_at row |} = e) by exact Hcol.
    rewrite Hnew.
    rewrite Hl, map_app in Hem. cbn [map] in Hem.
    apply NoDup_remove_1 in Hem.
    apply NoDup_middle; [|exact Hem].
    rewrite <- map_app. intros Hin. apply in_map_iff in Hin.
    destruct Hin as [r [Hre Hr]].
    assert (Ht : existsb (fun r => negb (has_id z r) && has_email e r) l = true).
    { apply existsb_exists. exists r. split.
      - rewrite Hl. apply in_app_or in Hr. apply in_or_app.
        destruct Hr; [left | right; right]; assumption.
      - unfold has_id, has_email.
        rewrite (proj2 (Z.eqb_neq _ _) (Hothers r Hr)).
        apply (proj2 (str_eqb_eq _ _)) in Hre. rewrite Hre. reflexivity. }
    congruence.
  - rewrite set_fields_elsewhere; [exact Hem|].
    apply existsb_has_id_false, Hfound.
Qed.

Lemma NoDup_map_filter {B} (f : UserRow -> B) (p : UserRow -> bool) l :
  NoDup (map f l) -> NoDup (map f (filter p l)).
Proof.
  induction l as [|r l IH]; intros H; [constructor|].
  cbn [map] in H. apply NoDup_cons_iff in H. destruct H as [Hnotin H].
  cbn [filter]. destruct (p r); [|apply IH, H].
  cbn [map]. constructor; [|apply IH, H].
  intros Hin. apply Hnotin. apply in_map_iff in Hin.
  destruct Hin as [r' [E Hr']]. apply filter_In in Hr'.
  rewrite <- E. apply in_map, Hr'.
Qed.

Lemma text_param_column v s :
  text_param prepareValue v = Value s -> as_varchar255 s = s.
Proof.
  intros H. destruct (text_param_is_varchar255 v s H) as [s0 H0].
  apply (as_varchar255_value s0 s H0).
Qed.

(** Every statement of the handlers keeps the table well formed. *)
Lemma pg_keeps_well_formed sql params t :
  well_formed t -> well_formed (snd (pool sql params t)).
Proof.
  intros Hwf. unfold pool, pg.
  repeat match goal with
         | |- context [if ?c then _ else _] => destruct c
         | |- context [match ?l with [] => _ | _ :: _ => _ end] => destruct l
         end; try exact Hwf.
  - (* INSERT *)
    destruct Hwf as [Hid [Hem [Hseq Hmax]]].
    unfold insert_user.
    destruct (text_param prepareValue j) as [err| |n'] eqn:Hn;
      [repeat split; assumption | |];
      (destruct (text_param prepareValue j0) as [err| |e'] eqn:He;
         [repeat split; assumption | |]);
      (destruct (2147483647 <? Zpos (users_id_seq t)) eqn:Hfull;
         [repeat split; assumption|]);
      apply Z.ltb_ge in Hfull;
      assert (Hseq' : Forall (fun r => 0 < id r < Zpos (Pos.succ (users_id_seq t)))
                             (users t))
        by (eapply Forall_impl; [|exact Hseq]; cbn beta; intros r Hr; lia);
      try (cbn [snd]; repeat split; cbn [users users_id_seq]; auto; lia).
    destruct (existsb (has_id (Zpos (users_id_seq t))) (users t)) eqn:Hpk.
    { cbn [snd]. repeat split; cbn [users users_id_seq]; auto; lia. }
    destruct (existsb (has_email e') (users t)) eqn:Hdup.
    { cbn [snd]. repeat split; cbn [users users_id_seq]; auto; lia. }
    cbn [snd]. unfold well_formed. cbn [users users_id_seq].
    destruct (text_param_is_varchar255 _ _ Hn) as [n0 Hn0].
    destruct (text_param_is_varchar255 _ _ He) as [e0 He0].
    assert (Hrange : in_int4 (Zpos (users_id_seq t)) = true).
    { unfold in_int4. apply andb_true_iff. split; apply Z.leb_le; lia. }
    destruct (new_row_reads_back _ n' e' n0 e0 (current_timestamp t)
                Hrange Hn0 He0) as [Hnew_id [_ Hnew_email]].
    rewrite !map_app. cbn [map]. rewrite Hnew_id, Hnew_email.
    repeat split.
    + rewrite <- (app_nil_r (_ ++ [_])), <- app_assoc. cbn [app].
      apply NoDup_middle; rewrite app_nil_r; [|exact Hid].
      intros Hin. apply in_map_iff in Hin. destruct Hin as [r [E Hr]].
      rewrite Forall_forall in Hseq. specialize (Hseq r Hr). lia.
    + rewrite <- (app_nil_r (_ ++ [_])), <- app_assoc. cbn [app].
      apply NoDup_middle; rewrite app_nil_r; [|exact Hem].
      intros Hin. apply in_map_iff in Hin. destruct Hin as [r [E Hr]].
      assert (Ht : existsb (has_email e') (users t) = true).
      { apply existsb_exists. exists r. split; [exact Hr|].
        apply str_eqb_eq, E. }
      congruence.
    + apply Forall_app. split; [exact Hseq'|].
      constructor; [rewrite Hnew_id; lia | constructor].
    + lia.
  - (* SELECT by id *)
    unfold select_by_id. destruct (id_param j); exact Hwf.
  - (* UPDATE *)
    destruct Hwf as [Hid [Hem [Hseq Hmax]]].
    unfold update_by_id.
    destruct (text_param prepareValue j) as [err| |n'] eqn:Hn;
      [repeat split; assumption | |];
      (destruct (text_param prepareValue j0) as [err| |e'] eqn:He;
         [repeat split; assumption | |]);
      (destruct (id_param j1) as [err| |z]; [repeat split; assumption ..|]);
      (destruct (negb (existsb (has_id z) (users t)));
         [repeat split; assumption|]);
      try (repeat split; assumption).
    destruct (existsb (fun r => negb (has_id z r) && has_email e' r) (users t))
      eqn:Hfree; [repeat split; assumption|].
    cbn [snd]. unfold well_formed. cbn [users users_id_seq].
    repeat split.
    + rewrite map_id_set_fields. exact Hid.
    + apply emails_after_update; try assumption.
      apply (text_param_column _ _ He).
    + apply Forall_map. eapply Forall_impl; [|exact Hseq]. cbn beta.
      intros r Hr. unfold set_fields. destruct (has_id z r); exact Hr.
    + exact Hmax.
  - (* DELETE *)
    destruct Hwf as [Hid [Hem [Hseq Hmax]]].
    unfold delete_by_id.
    destruct (id_param j) as [err| |z]; [repeat split; assumption ..|].
    cbn [snd]. unfold well_formed. cbn [users users_id_seq].
    repeat split.
    + apply NoDup_map_filter, Hid.
    + apply NoDup_map_filter, Hem.
    + rewrite Forall_forall in *. intros r Hr. apply filter_In in Hr.
      apply Hseq, Hr.
    + exact Hmax.
Qed.

Lemma handle_keeps_well_formed ep req w :
  well_formed (database w) -> well_formed (database (snd (handle pool ep req w))).
Proof.
  intros Hwf.
  destruct (rejected_by_validation ep req) eqn:Hv.
  - destruct (handle_invalid pool ep req w Hv) as [m ->]. exact Hwf.
  - pose proof (pg_keeps_well_formed (sql_of ep) (bound_values ep req) _ Hwf) as H.
    destruct (pool (sql_of ep) (bound_values ep req) (database w))
      as [[rows|err] d] eqn:Hq.
    + destruct (handle_resolved pool ep req w rows d Hv Hq) as [resp [-> _]].
      exact H.
    + rewrite (handle_rejected pool ep req w err d Hv Hq). exact H.
Qed.

(** On a well-formed table whose sequence has values left, a create with
    a non-empty [name] and [email] that the columns take as they are, the
    [email] not being stored yet, is answered 201. *)
Lemma create_succeeds req w n e :
  get_prop (body req) (js "name") = JStr n -> n <> [] -> varchar255 n = Value n ->
  get_prop (body req) (js "email") = JStr e -> e <> [] -> varchar255 e = Value e ->
  well_formed (database w) ->
  Zpos (users_id_seq (database w)) <= 2147483647 ->
  (forall r, In r (users (database w)) -> email r <> e) ->
  status (fst (handle pool CreateUser req w)) = 201.
Proof.
  intros Hn Hn0 Hnc He He0 Hec [_ [_ [Hseq _]]] Hleft Hnew.
  assert (Hv : rejected_by_validation CreateUser req = false).
  { unfold rejected_by_validation, lacks_fields. cbn [by_id reads_body andb orb].
    rewrite Hn, He, !nonempty_is_truthy by assumption. reflexivity. }
  assert (Hq : exists rows d,
    pool (sql_of CreateUser) (bound_values CreateUser req) (database w)
    = (Resolved rows, d)).
  { cbn [sql_of bound_values]. rewrite Hn, He, pg_create.
    unfold insert_user. cbn [text_param]. rewrite Hnc, Hec.
    rewrite (proj2 (Z.ltb_ge _ _) Hleft).
    assert (Hpk : existsb (has_id (Zpos (users_id_seq (database w))))
                          (users (database w)) = false).
    { apply not_true_is_false. intros Ht. apply existsb_exists in Ht.
      destruct Ht as [r [Hr Hid]]. apply Z.eqb_eq in Hid.
      rewrite Forall_forall in Hseq. specialize (Hseq r Hr). lia. }
    assert (Hfree : existsb (has_email e) (users (database w)) = false).
    { apply not_true_is_false. intros Ht. apply existsb_exists in Ht.
      destruct Ht as [r [Hr Hem]]. apply str_eqb_eq in Hem.
      exact (Hnew r Hr Hem). }
    rewrite Hpk, Hfree. eauto. }
  destruct Hq as [rows [d Hq]].
  destruct (handle_resolved pool CreateUser req w rows d Hv Hq) as [resp [-> ->]].
  reflexivity.
Qed.

(** A [name] or [email] that its column refuses: the create is answered
    500 and the table stays as it is. *)
Lemma refused_field_answer req w n e :
  get_prop (body req) (js "name") = JStr n -> n <> [] ->
  get_prop (body req) (js "email") = JStr e -> e <> [] ->
  (exists err, varchar255 n = Refused err) \/ (exists err, varchar255 e = Refused err) ->
  fst (handle pool CreateUser req w) =
    {| status := 500; payload := error_body "Internal server error" |}
  /\ database (snd (handle pool CreateUser req w)) = database w.
Proof.
  intros Hn Hn0 He He0 Hrefused.
  assert (Hv : rejected_by_validation CreateUser req = false).
  { unfold rejected_by_validation, lacks_fields. cbn [by_id reads_body andb orb].
    rewrite Hn, He, !nonempty_is_truthy by assumption. reflexivity. }
  assert (Hq : exists err,
    pool (sql_of CreateUser) (bound_values CreateUser req) (database w)
    = (Rejected err, database w)).
  { cbn [sql_of bound_values]. rewrite Hn, He, pg_create.
    unfold insert_user. cbn [text_param].
    destruct Hrefused as [[err Hr] | [err Hr]]; rewrite Hr; [eauto|].
    destruct (varchar255 n); eauto. }
  destruct Hq as [err Hq].
  rewrite (handle_rejected pool CreateUser req w err _ Hv Hq).
  cbn [fst snd after database]. auto.
Qed.

End TableFacts.

(** The body of the list handler answers 200 with the stored rows, each
    once, in ascending order of [id]; two tables holding the same rows in
    different orders (ids being unique) get the same answer. *)
Lemma list_body_is_ordered_by_id (prepareValue : JsValue -> JsString)
    (req : Request) (w : World Table) :
  let resp := fst (handle (pg prepareValue) ListUsers req w) in
  (exists rows,
      resp = {| status := 200;
                payload := Json (JArr (map (fun r => JObj (brief_row r)) rows)) |}
      /\ Permutation rows (users (database w))
      /\ StronglySorted Z.le (map id rows))
  /\ (forall req' w',
        Permutation (users (database w)) (users (database w')) ->
        NoDup (map id (users (database w))) ->
        fst (handle (pg prepareValue) ListUsers req' w') = resp).
Proof.
  cbv zeta. rewrite list_users_answer. split.
  - exists (sort_by id_leb (users (database w))). split; [reflexivity|]. split.
    + apply sort_by_perm.
    + apply sort_by_id_sorted.
  - intros req' w' Hp Hnd. rewrite list_users_answer.
    rewrite (sort_by_id_stable_under_perm _ _ Hp Hnd). reflexivity.
Qed.

(** C4, at the declaration of the list handler.  The handler awaits the
    query in a function that is not declared [async], so the file of the
    application does not parse and GET /api/users is never answered; the
    four other handlers are declared [async].  The body of the handler,
    were it to run as theirs do, answers 200 with the stored rows in
    ascending order of [id]. *)
Theorem list_handler_is_not_async (prepareValue : JsValue -> JsString)
    (req : Request) (w : World Table) :
  (declared_async ListUsers = false
   /\ uses_await ListUsers = true
   /\ parses ListUsers = false
   /\ forall ep, parses ep = false -> ep = ListUsers)
  /\ exists rows,
      fst (handle (pg prepareValue) ListUsers req w) =
        {| status := 200;
           payload := Json (JArr (map (fun r => JObj (brief_row r)) rows)) |}
      /\ Permutation rows (users (database w))
      /\ StronglySorted Z.le (map id rows).
Proof.
  split.
  - repeat split. intros ep. destruct ep; (reflexivity || discriminate).
  - exact (proj1 (list_body_is_ordered_by_id prepareValue req w)).
Qed.

(** C2.  For an integer id of the column, that is one from -2147483648
    to 2147483647, that no stored row has, GET, PUT (its body carrying a
    [name] and an [email] that the columns take) and DELETE on
    [/api/users/:id] answer 404, and leave the rows as they are.  An
    integer outside that range is no value of the column: the statement
    is refused, and the answer is 500. *)
Theorem absent_id_is_404 (prepareValue : JsValue -> JsString)
    (ep : Endpoint) (req : Request) (w : World Table) (z : Z) :
  by_id ep = true ->
  (reads_body ep = true ->
   lacks_fields req = false
   /\ exists n e,
       text_param prepareValue (get_prop (body req) (js "name")) = Value n
       /\ text_param prepareValue (get_prop (body req) (js "email")) = Value e) ->
  Z_of_number (to_number (params_id req)) = Some z ->
  (forall r, In r (users (database w)) -> id r <> z) ->
  let answer := fst (handle (pg prepareValue) ep req w) in
  let table := database (snd (handle (pg prepareValue) ep req w)) in
  (-2147483648 <= z <= 2147483647 ->
   status answer = 404
   /\ payload answer = Json (JObj [(js "error", JStr (js "User not found"))])
   /\ users table = users (database w))
  /\ (z < -2147483648 \/ 2147483647 < z ->
      status answer = 500
      /\ payload answer = Json (JObj [(js "error", JStr (js "Internal server error"))])
      /\ table = database w).
Proof.
  intros Hby Hbody Hz Habsent. cbv zeta. split; intros Hrange.
  - assert (Hin : in_int4 z = true).
    { unfold in_int4. apply andb_true_iff. split; apply Z.leb_le; lia. }
    destruct (absent_id_answer prepareValue ep req w z Hby Hbody Hz Hin Habsent)
      as [-> ->].
    auto.
  - assert (Hout : in_int4 z = false).
    { unfold in_int4. apply andb_false_iff.
      destruct Hrange; [left | right]; apply Z.leb_gt; lia. }
    destruct (id_out_of_range_answer prepareValue ep req w z Hby
                (fun Hr => proj1 (Hbody Hr)) Hz Hout) as [-> ->].
    auto.
Qed.

(** C1.  A create whose body carries as [name] and [email] non-empty
    strings that the VARCHAR(255) columns take as they are (no unpaired
    surrogate, no NUL, at most 255 characters: [varchar255_as_it_is]) and
    that is answered 201, followed by a read of the id it returned: the
    read is answered 200 with that [name] and [email] (and that id).
    The create is answered 201 whenever the table is well formed, its
    sequence has a value left and the [email] is not stored yet. *)
Theorem create_then_get (prepareValue : JsValue -> JsString)
    (req : Request) (w : World Table) (n e : JsString) :
  get_prop (body req) (js "name") = JStr n -> n <> [] -> varchar255 n = Value n ->
  get_prop (body req) (js "email") = JStr e -> e <> [] -> varchar255 e = Value e ->
  let created := handle (pg prepareValue) CreateUser req w in
  (well_formed (database w) ->
   Zpos (users_id_seq (database w)) <= 2147483647 ->
   (forall r, In r (users (database w)) -> email r <> e) ->
   status (fst created) = 201)
  /\ (status (fst created) = 201 ->
      field (fst created) "name" = JStr n
      /\ field (fst created) "email" = JStr e
      /\ forall get_req,
          JNum (to_number (params_id get_req)) = field (fst created) "id" ->
          let read := fst (handle (pg prepareValue) GetUser get_req (snd created)) in
          status read = 200
          /\ field read "name" = JStr n
          /\ field read "email" = JStr e
          /\ field read "id" = field (fst created) "id").
Proof.
  intros Hn Hn0 Hnc He He0 Hec created. subst created.
  split; [apply (create_succeeds prepareValue req w n e); assumption|].
  intros Hst.
  destruct (created_row prepareValue req w Hst)
    as [n' [e' [row [Hn' [He' [Hid [Hname [Hemail [_ [Hmax [Hfresh [Hresp Hdb]]]]]]]]]]]].
  rewrite Hn in Hn'. rewrite He in He'. cbn [text_param] in Hn', He'.
  rewrite Hnc in Hn'. rewrite Hec in He'.
  injection Hn' as <-. injection He' as <-.
  set (w1 := snd (handle (pg prepareValue) CreateUser req w)) in *.
  set (new_id := Zpos (users_id_seq (database w))) in *.
  rewrite Hresp.
  assert (Hfields : field {| status := 201; payload := Json (JObj (full_row row)) |} "id"
                    = JNum (number_of_Z new_id)
                    /\ field {| status := 201; payload := Json (JObj (full_row row)) |}
                             "name" = JStr n
                    /\ field {| status := 201; payload := Json (JObj (full_row row)) |}
                             "email" = JStr e).
  { rewrite <- Hid, <- Hname, <- Hemail. repeat split. }
  destruct Hfields as [Hfield [Hfname Hfemail]].
  rewrite Hfield.
  split; [exact Hfname|]. split; [exact Hfemail|].
  intros get_req Hget read. subst read.
  injection Hget as Hget.
  change (to_number (params_id get_req) = number_of_Z new_id) in Hget.
  assert (Hz : Z_of_number (to_number (params_id get_req)) = Some new_id).
  { rewrite Hget. apply number_of_Z_exact. subst new_id.
    split; [reflexivity|]. apply Z.le_lt_trans with 2147483647; [exact Hmax|].
    reflexivity. }
  assert (Hv : rejected_by_validation GetUser get_req = false).
  { apply (integer_id_passes GetUser get_req new_id Hz). discriminate. }
  destruct (no_row_with_id new_id _ Hfresh) as [H1 _].
  assert (Hq : pg prepareValue (sql_of GetUser) (bound_values GetUser get_req)
                 (database w1) = (Resolved [brief_row row], database w1)).
  { cbn [sql_of bound_values]. rewrite pg_get. unfold select_by_id.
    rewrite (id_param_value _ new_id Hz)
      by (rewrite <- Hid; apply id_in_int4).
    rewrite Hdb. cbn [users].
    rewrite filter_app, H1. cbn [filter app].
    assert (Hrow : has_id new_id row = true) by (apply Z.eqb_eq, Hid).
    rewrite Hrow. reflexivity. }
  destruct (handle_resolved (pg prepareValue) GetUser get_req w1 _ _ Hv Hq)
    as [resp [-> ->]].
  cbn [fst].
  assert (Hread : field {| status := 200; payload := Json (first_row [brief_row row]) |}
                        "id" = JNum (number_of_Z new_id)
                  /\ field {| status := 200; payload := Json (first_row [brief_row row]) |}
                           "name" = JStr n
                  /\ field {| status := 200; payload := Json (first_row [brief_row row]) |}
                           "email" = JStr e).
  { rewrite <- Hid, <- Hname, <- Hemail. repeat split. }
  destruct Hread as [Hrid [Hrname Hremail]].
  repeat split; assumption.
Qed.

(** C9.  Deleting a stored user is answered 204 with an empty body and
    takes out of the table the one row with that id, the others staying
    in place; after it, a read of that id is answered 404, and so is a
    second delete. *)
Theorem delete_then_gone (prepareValue : JsValue -> JsString)
    (req : Request) (w : World Table) (z : Z) :
  Z_of_number (to_number (params_id req)) = Some z ->
  NoDup (map id (users (database w))) ->
  (exists r, In r (users (database w)) /\ id r = z) ->
  let deleted := handle (pg prepareValue) DeleteUser req w in
  fst deleted = {| status := 204; payload := NoContent |}
  /\ (exists before row since,
        users (database w) = before ++ row :: since
        /\ id row = z
        /\ users (database (snd deleted)) = before ++ since)
  /\ forall again,
      Z_of_number (to_number (params_id again)) = Some z ->
      fst (handle (pg prepareValue) GetUser again (snd deleted)) =
        {| status := 404; payload := error_body "User not found" |}
      /\ fst (handle (pg prepareValue) DeleteUser again (snd deleted)) =
        {| status := 404; payload := error_body "User not found" |}.
Proof.
  intros Hz Hnd Hstored deleted. subst deleted.
  destruct (one_row_with_id z _ Hnd Hstored)
    as [before [row [since [Hl [Hrow [Hfound Hrest]]]]]].
  assert (Hv : rejected_by_validation DeleteUser req = false).
  { apply (integer_id_passes DeleteUser req z Hz). discriminate. }
  set (d := {| users := before ++ since;
               users_id_seq := users_id_seq (database w);
               current_timestamp := current_timestamp (database w) |}).
  assert (Hq : pg prepareValue (sql_of DeleteUser) (bound_values DeleteUser req)
                 (database w) = (Resolved [[id_column row]], d)).
  { cbn [sql_of bound_values]. rewrite pg_delete. unfold delete_by_id.
    rewrite (id_param_value _ z Hz) by (rewrite <- Hrow; apply id_in_int4).
    rewrite Hfound, Hrest. reflexivity. }
  destruct (handle_resolved (pg prepareValue) DeleteUser req w _ _ Hv Hq)
    as [resp [Hrun ->]].
  rewrite Hrun. cbn [fst snd after database].
  split; [reflexivity|]. split.
  - exists before, row, since. auto.
  - intros again Hagain.
    assert (Habsent : forall r, In r (users (database (after DeleteUser req w d [])))
                                -> id r <> z).
    { cbn [after database d users]. intros r Hr E.
      rewrite Hl, map_app in Hnd. cbn [map] in Hnd.
      apply NoDup_remove_2 in Hnd. apply Hnd.
      rewrite <- map_app, Hrow, <- E. apply in_map, Hr. }
    assert (Hrange : in_int4 z = true) by (rewrite <- Hrow; apply id_in_int4).
    split.
    + apply (absent_id_answer prepareValue GetUser again _ z); auto; discriminate.
    + apply (absent_id_answer prepareValue DeleteUser again _ z); auto; discriminate.
Qed.

(** ** The scenarios of the specification *)

(** Create Alice, read her, rename her, delete her, read her again. *)
Example alice_scenario :
  map (fun r => (status r, field r "name", field r "email", field r "error"))
      (fst (serve (pg no_text)
              [(CreateUser, alice); (GetUser, request "3" []);
               (UpdateUser, alice_b "3"); (DeleteUser, request "3" []);
               (GetUser, request "3" [])]
              (fresh_world seeded)))
  = [(201, JStr (js "Alice"), JStr (js "alice@example.com"), JUndefined);
     (200, JStr (js "Alice"), JStr (js "alice@example.com"), JUndefined);
     (200, JStr (js "Alice B"), JStr (js "aliceb@example.com"), JUndefined);
     (204, JUndefined, JUndefined, JUndefined);
     (404, JUndefined, JUndefined, JStr (js "User not found"))].
Proof. vm_compute. reflexivity. Qed.

(** A create without [email] is refused and stores nothing. *)
Example bob_scenario :
  handle (pg no_text) CreateUser bob (fresh_world seeded)
  = ({| status := 400; payload := error_body "Name and email required" |},
     fresh_world seeded).
Proof. vm_compute. reflexivity. Qed.

(** A second user with a stored email is refused by the table: 500, and
    no row is added. *)
Example duplicate_email_scenario :
  let '(answers, w) :=
    serve (pg no_text) [(CreateUser, alice); (CreateUser, alice)] (fresh_world seeded) in
  map status answers = [201; 500]
  /\ map id (users (database w)) = [2; 1; 3].
Proof. vm_compute. split; reflexivity. Qed.

Example seeded_is_well_formed : well_formed seeded.
Proof.
  unfold well_formed. cbn.
  repeat split; repeat constructor; cbn; try lia; intuition discriminate.
Qed.

(** ** The properties at sample inputs *)

(** C5 as first stated asks every handler to log the name of the failing
    endpoint and the message of the error.  The create route, with a
    database that refuses the connection, writes the label
    "Error creating user:" and the error: the line shows the message but
    not "/api/users", the name the list route logs as [endpoint]. *)
Lemma failure_line_without_endpoint_name :
  ~ (forall (ep : Endpoint) (req : Request) (w : World unit) (e : JsError),
        rejected_by_validation ep req = false ->
        exists l,
          In l (console_of (new_events (handle (refusing_pool e) ep req) w))
          /\ mentions l (route ep) = true
          /\ mentions l (message e) = true).
Proof.
  intros H.
  destruct (H CreateUser alice (fresh_world tt) connection_refused eq_refl)
    as [l [Hin [Hroute _]]].
  vm_compute in Hin. destruct Hin as [<- | []].
  vm_compute in Hroute. discriminate.
Qed.

Lemma validation_fails_fast_witness :
  rejected_by_validation GetUser (request "abc" []) = true
  /\ exists msg,
      handle accepting_pool GetUser (request "abc" []) (fresh_world tt) =
      ({| status := 400; payload := Json (JObj [(js "error", JStr msg)]) |},
       fresh_world tt)
      /\ new_events (handle accepting_pool GetUser (request "abc" [])) (fresh_world tt) = []
      /\ database (snd (handle accepting_pool GetUser (request "abc" []) (fresh_world tt)))
         = database (fresh_world tt).
Proof.
  split; [reflexivity|].
  apply (validation_fails_fast accepting_pool GetUser (request "abc" [])
           (fresh_world tt)).
  reflexivity.
Defined.

Lemma rejected_query_is_generic_500_witness :
  fst (handle (refusing_pool connection_refused) CreateUser alice (fresh_world tt)) =
    {| status := 500;
       payload := Json (JObj [(js "error", JStr (js "Internal server error"))]) |}
  /\ console_of (new_events (handle (refusing_pool connection_refused) CreateUser alice)
                            (fresh_world tt))
     = [failure_line CreateUser connection_refused (clock (fresh_world tt))]
  /\ mentions (failure_line CreateUser connection_refused (clock (fresh_world tt)))
              (message connection_refused) = true
  /\ (CreateUser = ListUsers ->
      mentions (failure_line CreateUser connection_refused (clock (fresh_world tt)))
               (js "/api/users") = true)
  /\ database (snd (handle (refusing_pool connection_refused) CreateUser alice
                           (fresh_world tt))) = tt.
Proof.
  apply (rejected_query_is_generic_500 (refusing_pool connection_refused)
           CreateUser alice (fresh_world tt) connection_refused tt);
    reflexivity.
Defined.

Lemma id_check_is_Number_isInteger_witness :
  is_integer (to_number (js "0x10")) = true
  /\ statements_of (new_events (handle accepting_pool DeleteUser (request "0x10" []))
                               (fresh_world tt))
     = [{| text := sql_delete; values := [JNum (number_of_Z 16)] |}]
  /\ fst (handle accepting_pool DeleteUser (request "0x10" []) (fresh_world tt))
     = {| status := 404; payload := error_body "User not found" |}.
Proof.
  destruct (proj1 id_check_is_Number_isInteger unit accepting_pool DeleteUser
              (request "0x10" []) (fresh_world tt) eq_refl)
    as [_ Hforward].
  - discriminate.
  - destruct (Hforward eq_refl) as [Hst [_ Hnone]].
    split; [reflexivity|]. split; [exact Hst|].
    apply (Hnone tt). reflexivity.
Defined.

Lemma listen_only_after_schema_witness :
  fst (start (refusing_pool connection_refused) repo_files no_env app_src valid_port
         (fresh_world tt)) = Terminated 1
  /\ (exists before,
        new_events (start (refusing_pool connection_refused) repo_files no_env app_src
                      valid_port)
                   (fresh_world tt) = before ++ [Exit 1])
  /\ forall port host,
      ~ In (Listen port host)
           (new_events (start (refusing_pool connection_refused) repo_files no_env
                          app_src valid_port) (fresh_world tt)).
Proof.
  apply (proj1 (listen_only_after_schema (refusing_pool connection_refused)
                  repo_files no_env app_src valid_port (fresh_world tt))
           connection_refused).
  reflexivity.
Defined.

(** The three ways a call of [listen] can go, once the schema is in
    place: the port is bound, the call throws, the port is taken. *)
Example start_by_listen :
  map (fun run => fst (run (fresh_world tt)))
      [start accepting_pool repo_files no_env app_src valid_port;
       start accepting_pool repo_files port_99999 app_src valid_port;
       start accepting_pool repo_files no_env app_src taken_port]
  = [Serving; Terminated 1; Terminated 1]
  /\ map (fun run => last (snd (run (fresh_world tt))).(trace) (Exit 0))
         [start accepting_pool repo_files no_env app_src valid_port;
          start accepting_pool repo_files port_99999 app_src valid_port;
          start accepting_pool repo_files no_env app_src taken_port]
     = [Console (Log [AStr (js "Environment: undefined")]);
        Exit 1;
        Uncaught address_in_use].
Proof. vm_compute. split; reflexivity. Qed.

Example list_body_at_seeded :
  fst (handle (pg no_text) ListUsers alice (fresh_world seeded_in_order))
  = fst (handle (pg no_text) ListUsers alice (fresh_world seeded)).
Proof.
  apply (proj2 (list_body_is_ordered_by_id no_text alice (fresh_world seeded))).
  - apply perm_swap.
  - repeat constructor; cbn; intuition discriminate.
Qed.

(** C2 as first stated covers every integer.  2147483648 coerces to an
    integer that no row of the seeded table has, and GET answers 500:
    the value is outside the [id] column, and the statement is refused. *)
Lemma absent_id_outside_the_column :
  ~ (forall (ep : Endpoint) (req : Request) (w : World Table) (z : Z),
        by_id ep = true ->
        (reads_body ep = true -> lacks_fields req = false) ->
        Z_of_number (to_number (params_id req)) = Some z ->
        (forall r, In r (users (database w)) -> id r <> z) ->
        status (fst (handle (pg no_text) ep req w)) = 404).
Proof.
  intros H.
  assert (H404 : status (fst (handle (pg no_text) GetUser (request "2147483648" [])
                                (fresh_world seeded))) = 404).
  { apply (H GetUser (request "2147483648" []) (fresh_world seeded) 2147483648).
    - reflexivity.
    - discriminate.
    - vm_compute. reflexivity.
    - intros r [<- | [<- | []]]; vm_compute; discriminate. }
  vm_compute in H404. discriminate.
Qed.

Lemma absent_id_is_404_witness :
  status (fst (handle (pg no_text) UpdateUser
                 update_7
                 (fresh_world seeded))) = 404
  /\ payload (fst (handle (pg no_text) UpdateUser update_7 (fresh_world seeded)))
     = Json (JObj [(js "error", JStr (js "User not found"))])
  /\ users (database (snd (handle (pg no_text) UpdateUser
                             update_7
                             (fresh_world seeded))))
     = users seeded.
Proof.
  apply (proj1 (absent_id_is_404 no_text UpdateUser
                  update_7
                  (fresh_world seeded) 7 eq_refl
                  (fun _ => conj eq_refl
                     (ex_intro _ (js "Al")
                        (ex_intro _ (js "al@example.com") (conj eq_refl eq_refl))))
                  eq_refl
                  ltac:(intros r [<- | [<- | []]]; vm_compute; discriminate))).
  lia.
Defined.

(** C1 as first stated covers every non-empty [name].  An unpaired
    surrogate is sent as U+FFFD: the create is answered 201, and the read
    of the id it returned gives back another [name] than the one
    supplied. *)
Lemma create_then_get_of_an_unpaired_surrogate :
  ~ (forall (req : Request) (w : World Table) (n e : JsString),
        get_prop (body req) (js "name") = JStr n -> n <> [] ->
        get_prop (body req) (js "email") = JStr e -> e <> [] ->
        let created := handle (pg no_text) CreateUser req w in
        status (fst created) = 201 ->
        forall get_req,
          JNum (to_number (params_id get_req)) = field (fst created) "id" ->
          let read := fst (handle (pg no_text) GetUser get_req (snd created)) in
          status read = 200
          /\ field read "name" = JStr n
          /\ field read "email" = JStr e).
Proof.
  intros H.
  specialize (H unpaired (fresh_world seeded) [55296%N] (js "eve@example.com")
                eq_refl ltac:(discriminate) eq_refl ltac:(discriminate)).
  cbv zeta in H.
  assert (Hst : status (fst (handle (pg no_text) CreateUser unpaired
                               (fresh_world seeded))) = 201)
    by (vm_compute; reflexivity).
  assert (Hid : JNum (to_number (params_id (request "3" [])))
                = field (fst (handle (pg no_text) CreateUser unpaired
                                (fresh_world seeded))) "id")
    by (vm_compute; reflexivity).
  destruct (H Hst (request "3" []) Hid) as [_ [Hname _]].
  vm_compute in Hname. discriminate.
Qed.

(** A [name] of 256 characters, or one with NUL in it, is refused by its
    column: the create is answered 500 and returns no id. *)
Example unstorable_name_scenario :
  map (fun req => fst (handle (pg no_text) CreateUser req (fresh_world seeded)))
      [long_name; nul_name]
  = [{| status := 500; payload := error_body "Internal server error" |};
     {| status := 500; payload := error_body "Internal server error" |}].
Proof. vm_compute. reflexivity. Qed.

Lemma create_then_get_witness :
  status (fst (handle (pg no_text) CreateUser alice (fresh_world seeded))) = 201
  /\ status (fst (handle (pg no_text) GetUser (request "3" [])
                    (snd (handle (pg no_text) CreateUser alice (fresh_world seeded)))))
     = 200
  /\ field (fst (handle (pg no_text) GetUser (request "3" [])
                   (snd (handle (pg no_text) CreateUser alice (fresh_world seeded)))))
           "email"
     = JStr (js "alice@example.com").
Proof.
  destruct (create_then_get no_text alice (fresh_world seeded)
              (js "Alice") (js "alice@example.com")
              eq_refl ltac:(discriminate) eq_refl
              eq_refl ltac:(discriminate) eq_refl)
    as [Hcreated Hread].
  assert (Hst : status (fst (handle (pg no_text) CreateUser alice (fresh_world seeded)))
                = 201).
  { apply Hcreated.
    - apply seeded_is_well_formed.
    - vm_compute. discriminate.
    - intros r [<- | [<- | []]]; vm_compute; discriminate. }
  destruct (Hread Hst) as [_ [_ Hget]].
  destruct (Hget (request "3" []) eq_refl) as [H200 [_ [Hemail _]]].
  auto.
Defined.

Lemma delete_then_gone_witness :
  fst (handle (pg no_text) DeleteUser (request "2" []) (fresh_world seeded))
  = {| status := 204; payload := NoContent |}.
Proof.
  apply (delete_then_gone no_text (request "2" []) (fresh_world seeded) 2).
  - reflexivity.
  - repeat constructor; cbn; intuition discriminate.
  - eexists. split; [left; reflexivity | reflexivity].
Defined.

(* ===================================================================== *)
(** * Further properties                                                  *)
(* ===================================================================== *)

(** ** The handlers, against any pool *)

Section MoreHandlerFacts.

Context {DB : Type} (pool : Pool DB).

(** Every run of a handler is one of three: refused by validation, its
    query rejected, its query resolved. *)
Lemma handle_cases ep req w :
  (rejected_by_validation ep req = true
   /\ exists msg : string,
       handle pool ep req w = ({| status := 400; payload := error_body msg |}, w))
  \/ (rejected_by_validation ep req = false
      /\ exists e d,
          pool (sql_of ep) (bound_values ep req) (database w) = (Rejected e, d)
          /\ handle pool ep req w =
             ({| status := 500; payload := error_body "Internal server error" |},
              after ep req w d [Console (failure_line ep e (clock w))]))
  \/ (rejected_by_validation ep req = false
      /\ exists rows d resp,
          pool (sql_of ep) (bound_values ep req) (database w) = (Resolved rows, d)
          /\ handle pool ep req w = (resp, after ep req w d [])
          /\ resp =
             match ep, rows with
             | ListUsers, _ =>
                 {| status := 200; payload := Json (JArr (map JObj rows)) |}
             | CreateUser, _ => {| status := 201; payload := Json (first_row rows) |}
             | _, [] => {| status := 404; payload := error_body "User not found" |}
             | DeleteUser, _ => {| status := 204; payload := NoContent |}
             | _, _ => {| status := 200; payload := Json (first_row rows) |}
             end).
Proof.
  destruct (rejected_by_validation ep req) eqn:Hv.
  - left. split; [reflexivity|]. apply handle_invalid, Hv.
  - right.
    destruct (pool (sql_of ep) (bound_values ep req) (database w))
      as [[rows|e] d] eqn:Hq.
    + right. split; [reflexivity|].
      destruct (handle_resolved pool ep req w rows d Hv Hq) as [resp [Hrun Hresp]].
      exists rows, d, resp. auto.
    + left. split; [reflexivity|]. exists e, d. split; [reflexivity|].
      apply handle_rejected; assumption.
Qed.

End MoreHandlerFacts.

(** X1.  The status of an answer.  It is 400 exactly when the request
    fails validation and 500 exactly when the query is rejected; 404 is
    sent by the [:id] routes only, and only for a query that resolved
    with no row; every other answer carries the success status of its
    route (200, 201 for create, 204 for delete).  A create or a list is
    never answered 404, whatever the pool returns. *)
Theorem status_of_answer {DB : Type} (pool : Pool DB)
    (ep : Endpoint) (req : Request) (w : World DB) :
  let code := status (fst (handle pool ep req w)) in
  let answer := fst (pool (sql_of ep) (bound_values ep req) (database w)) in
  In code [success_status ep; 400; 404; 500]
  /\ (code = 400 <-> rejected_by_validation ep req = true)
  /\ (code = 500 <->
      rejected_by_validation ep req = false /\ exists e, answer = Rejected e)
  /\ (code = 404 <->
      rejected_by_validation ep req = false /\ by_id ep = true
      /\ answer = Resolved []).
Proof.
  cbv zeta.
  destruct (handle_cases pool ep req w)
    as [[Hv [m Hrun]] | [[Hv [e [d [Hq Hrun]]]] | [Hv [rows [d [resp [Hq [Hrun Hresp]]]]]]]];
    rewrite Hrun, Hv; try rewrite Hq; cbn [fst status].
  - split; [cbn; auto|]. repeat split; try discriminate; intros [H _]; discriminate.
  - split; [cbn; auto|]. repeat split; try discriminate; eauto.
    intros [_ [_ H]]. discriminate.
  - subst resp. destruct ep, rows; cbn [status success_status by_id];
      (split; [cbn; auto|]);
      repeat split; try discriminate; try reflexivity;
      try (intros [_ [e He]]; discriminate);
      try (intros [_ [_ H]]; discriminate);
      try (intros [_ [H _]]; discriminate).
Qed.

(** X2.  The body of an error.  An answer with status 400, 404 or 500
    has the body [{error: m}] with [m] one of four fixed texts, chosen
    by the status and the failed check alone: nothing of the request or
    of the error of the database is echoed.  On PUT the check of the id
    comes first: a bad id is reported as such even when the fields are
    missing too. *)
Theorem body_of_error {DB : Type} (pool : Pool DB)
    (ep : Endpoint) (req : Request) (w : World DB) :
  let resp := fst (handle pool ep req w) in
  (status resp = 400 ->
   payload resp =
   error_body (if by_id ep && bad_id req then "Invalid user id"
               else "Name and email required"))
  /\ (status resp = 404 -> payload resp = error_body "User not found")
  /\ (status resp = 500 -> payload resp = error_body "Internal server error").
Proof.
  cbv zeta.
  destruct (handle_cases pool ep req w)
    as [[Hv [m Hrun]] | [[Hv [e [d [Hq Hrun]]]] | [Hv [rows [d [resp [Hq [Hrun Hresp]]]]]]]].
  - repeat split; try (rewrite Hrun; cbn; discriminate).
    intros _. clear Hrun m.
    unfold rejected_by_validation in Hv.
    destruct ep; cbn [by_id reads_body andb orb] in *; try discriminate;
      unfold handle, create_user, get_user, update_user, delete_user, ret,
        bad_id, lacks_fields in *.
    + rewrite Hv. reflexivity.
    + rewrite orb_false_r in Hv. rewrite Hv. reflexivity.
    + destruct (negb (is_integer (to_number (params_id req)))); [reflexivity|].
      cbn [orb] in Hv. rewrite Hv. reflexivity.
    + rewrite orb_false_r in Hv. rewrite Hv. reflexivity.
  - rewrite Hrun. cbn [fst status payload].
    repeat split; try discriminate; reflexivity.
  - rewrite Hrun. subst resp. cbn [fst].
    destruct ep, rows; cbn [status payload];
      repeat split; try discriminate; reflexivity.
Qed.

(** X3.  What a handler lets out.  A handler writes to the console
    exactly when it answers 500, and then one line on the error stream;
    it submits its statement at most once (a rejected query is not tried
    again), and it neither listens nor exits. *)
Theorem handler_effects {DB : Type} (pool : Pool DB)
    (ep : Endpoint) (req : Request) (w : World DB) :
  let events := new_events (handle pool ep req) w in
  let code := status (fst (handle pool ep req w)) in
  trace (snd (handle pool ep req w)) = trace w ++ events
  /\ clock (snd (handle pool ep req w)) = clock w
  /\ (code = 500 -> exists args, console_of events = [Error args])
  /\ (code <> 500 -> console_of events = [])
  /\ (List.length (statements_of events) <= 1)%nat
  /\ Forall (fun ev => match ev with
                       | Submitted _ | Console (Error _) => True
                       | _ => False
                       end) events.
Proof.
  cbv zeta.
  destruct (handle_cases pool ep req w)
    as [[Hv [m Hrun]] | [[Hv [e [d [Hq Hrun]]]] | [Hv [rows [d [resp [Hq [Hrun Hresp]]]]]]]].
  - unfold new_events. rewrite Hrun. cbn [fst snd status].
    rewrite skipn_all, app_nil_r. repeat split; auto; discriminate.
  - rewrite (new_events_after _ _ _ _ _ _ _ Hrun), Hrun.
    cbn [fst snd status after trace clock console_of statements_of List.length].
    repeat split; auto;
      try (intros H; contradiction);
      try (intros _; destruct ep; cbn [failure_line]; eauto; fail);
      try (repeat constructor; destruct ep; exact I).
  - rewrite (new_events_after _ _ _ _ _ _ _ Hrun), Hrun.
    cbn [fst snd after trace clock console_of statements_of List.length].
    repeat split; auto;
      try (subst resp; destruct ep, rows; cbn; discriminate);
      try (repeat constructor).
Qed.

(** X4.  What a handler reads.  Of the request a handler uses the number
    the [:id] segment coerces to (on the [:id] routes) and the properties
    [name] and [email] of the body (on POST and PUT) and nothing else:
    two requests that agree on these are served alike.  So a body cannot
    set [id], [created_at] or anything but the two fields, and two
    spellings of one number ("7", " 7 ", "0x7", "7.0") name one user. *)
Theorem handler_reads_id_name_email {DB : Type} (pool : Pool DB)
    (ep : Endpoint) (req req' : Request) (w : World DB) :
  (by_id ep = true -> to_number (params_id req) = to_number (params_id req')) ->
  (reads_body ep = true ->
   get_prop (body req) (js "name") = get_prop (body req') (js "name")
   /\ get_prop (body req) (js "email") = get_prop (body req') (js "email")) ->
  handle pool ep req w = handle pool ep req' w.
Proof.
  intros Hid Hbody.
  destruct ep; cbn [by_id reads_body] in *; unfold handle.
  - reflexivity.
  - destruct (Hbody eq_refl) as [Hn He]. unfold create_user. rewrite Hn, He.
    reflexivity.
  - unfold get_user. cbv zeta. rewrite (Hid eq_refl). reflexivity.
  - destruct (Hbody eq_refl) as [Hn He]. unfold update_user. cbv zeta.
    rewrite (Hid eq_refl), Hn, He. reflexivity.
  - unfold delete_user. cbv zeta. rewrite (Hid eq_refl). reflexivity.
Qed.

(** ** The logger *)

Section LoggerFacts.

Lemma str_eqb_refl (k : JsString) : str_eqb k k = true.
Proof. apply str_eqb_eq. reflexivity. Qed.

Lemma get_prop_set_same (o : JsObject) k v : get_prop (set_prop o k v) k = v.
Proof.
  induction o as [|[k' v'] o IH]; cbn [set_prop get_prop].
  - rewrite str_eqb_refl. reflexivity.
  - destruct (str_eqb k' k) eqn:E; cbn [get_prop].
    + rewrite str_eqb_refl. reflexivity.
    + rewrite E. exact IH.
Qed.

Lemma get_prop_set_other (o : JsObject) k k' v :
  k <> k' -> get_prop (set_prop o k v) k' = get_prop o k'.
Proof.
  intros Hne.
  assert (Hkk' : str_eqb k k' = false).
  { apply not_true_is_false. intros H. apply str_eqb_eq in H. contradiction. }
  induction o as [|[k0 v0] o IH]; cbn [set_prop get_prop].
  - rewrite Hkk'. reflexivity.
  - destruct (str_eqb k0 k) eqn:E; cbn [get_prop].
    + apply str_eqb_eq in E. subst k0. rewrite Hkk'. reflexivity.
    + destruct (str_eqb k0 k'); [reflexivity | exact IH].
Qed.

(** The object has a property named [k]. *)
Let has_key (o : JsObject) (k : JsString) : bool :=
  existsb (fun kv => str_eqb (fst kv) k) o.

(** A spread copies every property of [meta], over what [o] had. *)
Lemma get_prop_spread (meta o : JsObject) k :
  NoDup (map fst meta) ->
  get_prop (spread o meta) k =
  if has_key meta k then get_prop meta k else get_prop o k.
Proof.
  unfold spread, has_key. revert o.
  induction meta as [|[k0 v0] meta IH]; intros o Hnd; cbn [fold_left existsb].
  - reflexivity.
  - cbn [map fst] in Hnd. apply NoDup_cons_iff in Hnd. destruct Hnd as [Hnotin Hnd].
    rewrite IH by exact Hnd. cbn [fst snd get_prop].
    destruct (str_eqb k0 k) eqn:E; cbn [orb].
    + apply str_eqb_eq in E. subst k0.
      assert (Hno : existsb (fun kv => str_eqb (fst kv) k) meta = false).
      { apply not_true_is_false. intros H. apply existsb_exists in H.
        destruct H as [[k1 v1] [Hin Hk]]. apply str_eqb_eq in Hk. cbn in Hk.
        subst k1. apply Hnotin. apply (in_map fst) in Hin. exact Hin. }
      rewrite Hno. apply get_prop_set_same.
    + destruct (existsb (fun kv => str_eqb (fst kv) k) meta); [reflexivity|].
      apply get_prop_set_other. intros ->. rewrite str_eqb_refl in E. discriminate.
Qed.

End LoggerFacts.

(** X5.  The line of the logger.  [logger.error] writes one line of
    JSON on the error stream and [logger.info] one on the output stream.
    In that object [timestamp] is the time of the call whatever [meta]
    carries; every other property of [meta] is there with its value,
    also when it is named [level] or [msg], and these two are those of
    the call when [meta] does not name them. *)
Theorem logger_line {DB : Type} (msg : JsString) (meta : JsObject) (w : World DB) :
  NoDup (map fst meta) ->
  exists o_error o_info,
    new_events (logger_error msg meta) w = [Console (Error [AJson (JObj o_error)])]
    /\ new_events (logger_info msg meta) w = [Console (Log [AJson (JObj o_info)])]
    /\ get_prop o_error (js "timestamp") = JStr (clock w)
    /\ get_prop o_info (js "timestamp") = JStr (clock w)
    /\ forall k, k <> js "timestamp" ->
        let named := existsb (fun kv => str_eqb (fst kv) k) meta in
        get_prop o_error k =
          (if named then get_prop meta k
           else get_prop [(js "level", JStr (js "error")); (js "msg", JStr msg)] k)
        /\ get_prop o_info k =
          (if named then get_prop meta k
           else get_prop [(js "level", JStr (js "info")); (js "msg", JStr msg)] k).
Proof.
  intros Hnd. eexists. eexists.
  unfold logger_error, logger_info, console_error, console_log, emit, now, bind,
    new_events.
  cbn [fst snd trace clock]. rewrite !skipn_exact.
  split; [reflexivity|]. split; [reflexivity|].
  rewrite !get_prop_set_same. split; [reflexivity|]. split; [reflexivity|].
  intros k Hk. cbv zeta.
  rewrite !get_prop_set_other by (intros E; apply Hk; symmetry; exact E).
  rewrite !get_prop_spread by exact Hnd. split; reflexivity.
Qed.

(** ** Ids in the path *)

Section IdFacts.

Lemma drop_ws_blank (s : JsString) :
  Forall (fun c => is_ws c = true) s -> drop_ws s = [].
Proof.
  induction 1 as [|c s Hc _ IH]; cbn [drop_ws]; [reflexivity|].
  rewrite Hc. exact IH.
Qed.

Lemma to_number_blank (s : JsString) :
  Forall (fun c => is_ws c = true) s -> to_number s = S754_zero false.
Proof.
  intros H. unfold to_number, trim. rewrite (drop_ws_blank s H). reflexivity.
Qed.

Lemma drop_ws_head (c : N) (s : JsString) : is_ws c = false -> drop_ws (c :: s) = c :: s.
Proof. intros H. cbn [drop_ws]. rewrite H. reflexivity. Qed.

(** Trimming leaves a string without whitespace as it is. *)
Lemma trim_solid (s : JsString) :
  Forall (fun c => is_ws c = false) s -> trim s = s.
Proof.
  intros H. unfold trim.
  assert (Hdrop : forall t, Forall (fun c => is_ws c = false) t -> drop_ws t = t).
  { intros t Ht. destruct Ht as [|c t Hc _]; [reflexivity | apply drop_ws_head, Hc]. }
  rewrite (Hdrop s H).
  rewrite Hdrop by (apply Forall_rev, H).
  apply rev_involutive.
Qed.

Lemma units_of_uint_solid (d : Decimal.uint) :
  Forall (fun c => is_ws c = false) (units_of_uint d).
Proof. induction d; cbn [units_of_uint]; constructor; auto. Qed.

(** Reading decimal digits computes the number they write. *)
Lemma take_digits_uint (d : Decimal.uint) (acc : positive) (n : Z) :
  exists n',
    take_digits 10 (units_of_uint d) (Zpos acc) n =
    (Zpos (Pos.of_uint_acc d acc), n', []) /\ n <= n'.
Proof.
  revert acc n.
  induction d; intros acc n; cbn [units_of_uint take_digits Pos.of_uint_acc];
    try (exists n; split; [reflexivity | lia]);
    match goal with
    | |- context [digit_of 10 ?c] =>
        let v := eval vm_compute in (digit_of 10 c) in
        change (digit_of 10 c) with v; cbv iota beta
    end;
    match goal with
    | |- context [take_digits 10 _ ?a (n + 1)] =>
        match goal with
        | |- context [Pos.of_uint_acc d ?b] =>
            destruct (IHd b (n + 1)) as [n' [Hrun Hle]];
            replace a with (Zpos b) by lia;
            exists n'; split; [exact Hrun | lia]
        end
    end.
Qed.

(** [Number] of the decimal digits of a positive integer. *)
Lemma to_number_decimal (p : positive) :
  to_number (decimal p) = number_of_Z (Zpos p).
Proof.
  unfold decimal, to_number.
  rewrite trim_solid by apply units_of_uint_solid.
  pose proof (DecimalPos.Unsigned.of_to p) as Hof.
  pose proof (DecimalPos.Unsigned.to_uint_nonnil p) as Hnil.
  assert (Hnorm : Decimal.unorm (Pos.to_uint p) = Pos.to_uint p).
  { rewrite <- DecimalPos.Unsigned.to_of, Hof. reflexivity. }
  destruct (Pos.to_uint p) as [|d|d|d|d|d|d|d|d|d|d] eqn:E;
    [contradiction | | | | | | | | | |];
    cbn [units_of_uint];
    try (unfold unsigned_decimal;
         match goal with
         | |- context [str_eqb ?s (js "Infinity")] =>
             change (str_eqb s (js "Infinity")) with false; cbv iota
         end;
         cbn [take_digits];
         match goal with
         | |- context [digit_of 10 ?c] =>
             let v := eval vm_compute in (digit_of 10 c) in
             change (digit_of 10 c) with v; cbv iota beta
         end;
         match goal with
         | |- context [take_digits 10 _ ?a ?n0] =>
             let q := eval vm_compute in (Z.to_pos a) in
             change a with (Zpos q);
             destruct (take_digits_uint d q n0) as [n' [Hrun Hle]];
             rewrite Hrun
         end;
         replace (n' + 0 <=? 0) with false
           by (symmetry; apply Z.leb_gt; lia);
         cbn [Pos.of_uint] in Hof; injection Hof as Hof; rewrite Hof;
         unfold number_of_decimal, number_of_Z, binary_normalize;
         cbn [Z.sub Z.opp Z.add Z.pow Z.pow_pos Pos.iter Z.to_pos];
         rewrite Pos.mul_1_r; reflexivity).
  (* a leading zero: not the digits of a positive integer *)
  exfalso. unfold Decimal.unorm in Hnorm. cbn [Decimal.nzhead] in Hnorm.
  cbn [Pos.of_uint] in Hof.
  assert (Hhead : forall u, match Decimal.nzhead u with
                            | Decimal.D0 _ => False | _ => True end).
  { induction u; cbn [Decimal.nzhead]; auto. }
  specialize (Hhead d).
  destruct (Decimal.nzhead d) eqn:Hz; try discriminate Hnorm; try contradiction.
  rewrite <- DecimalPos.Unsigned.of_uint_norm in Hof.
  unfold Decimal.unorm in Hof. rewrite Hz in Hof. discriminate.
Qed.

End IdFacts.

(** X6.  A blank id.  An [:id] segment made of whitespace only (one
    character of it at least: the route does not match an empty segment)
    is not refused: [Number] coerces it to 0, and the handler queries
    for the user 0. *)
Theorem blank_id_is_user_zero {DB : Type} (pool : Pool DB)
    (ep : Endpoint) (req : Request) (w : World DB) :
  by_id ep = true ->
  (reads_body ep = true -> lacks_fields req = false) ->
  params_id req <> [] ->
  Forall (fun c => is_ws c = true) (params_id req) ->
  status (fst (handle pool ep req w)) <> 400
  /\ statements_of (new_events (handle pool ep req) w) =
     [{| text := sql_of ep; values := bound_values ep req |}]
  /\ last (bound_values ep req) JUndefined = JNum (S754_zero false).
Proof.
  intros Hby Hbody _ Hblank.
  pose proof (to_number_blank _ Hblank) as Hzero.
  assert (Hv : rejected_by_validation ep req = false).
  { apply (integer_id_passes ep req 0); [|exact Hbody]. rewrite Hzero. reflexivity. }
  split; [|split].
  - destruct (handle_cases pool ep req w)
      as [[Hv' _] | [[_ [e [d [_ Hrun]]]] | [_ [rows [d [resp [_ [Hrun Hresp]]]]]]]].
    + congruence.
    + rewrite Hrun. cbn. discriminate.
    + rewrite Hrun. subst resp. destruct ep, rows; cbn; discriminate.
  - rewrite handle_statements, Hv. reflexivity.
  - destruct ep; try discriminate; cbn [bound_values last]; rewrite Hzero;
      reflexivity.
Qed.

(** X7.  An id in decimal.  With unique ids, GET /api/users/<n>, [n]
    being the decimal digits of the id of a stored row, is answered 200
    with the [id], [name] and [email] of that row, and leaves the table
    as it is. *)
Theorem get_by_decimal_id (prepareValue : JsValue -> JsString)
    (req : Request) (w : World Table) (r : UserRow) (p : positive) :
  NoDup (map id (users (database w))) ->
  In r (users (database w)) ->
  id r = Zpos p ->
  Zpos p < 2 ^ 53 ->
  params_id req = decimal p ->
  handle (pg prepareValue) GetUser req w =
  ({| status := 200; payload := Json (JObj (brief_row r)) |},
   after GetUser req w (database w) []).
Proof.
  intros Hnd Hin Hid Hsmall Hpath.
  assert (Hz : Z_of_number (to_number (params_id req)) = Some (Zpos p)).
  { rewrite Hpath, to_number_decimal. apply number_of_Z_exact. lia. }
  assert (Hv : rejected_by_validation GetUser req = false).
  { apply (integer_id_passes GetUser req (Zpos p) Hz). discriminate. }
  destruct (one_row_with_id (Zpos p) _ Hnd) as [before [row [since [Hl [Hrow [Hfound _]]]]]].
  { exists r. auto. }
  assert (Hsame : row = r).
  { rewrite Hl in Hin, Hnd. rewrite map_app in Hnd. cbn [map] in Hnd.
    apply NoDup_remove_2 in Hnd.
    apply in_app_or in Hin. cbn [In] in Hin.
    destruct Hin as [Hin | [Heq | Hin]]; [|exact Heq|]; exfalso; apply Hnd;
      rewrite <- map_app, Hrow, <- Hid; apply in_map, in_or_app; auto. }
  subst row.
  assert (Hq : pg prepareValue (sql_of GetUser) (bound_values GetUser req) (database w)
               = (Resolved [brief_row r], database w)).
  { cbn [sql_of bound_values]. rewrite pg_get. unfold select_by_id.
    rewrite (id_param_value _ (Zpos p) Hz) by (rewrite <- Hid; apply id_in_int4).
    rewrite Hfound. reflexivity. }
  destruct (handle_resolved (pg prepareValue) GetUser req w _ _ Hv Hq)
    as [resp [-> ->]].
  reflexivity.
Qed.

(** ** database.js *)

Section MoreMigrationFacts.

Context {DB : Type} (pool : Pool DB) (fs : FileSystem) (dirname : JsString).

(** What the loop of [runMigrations] does for one file that goes through. *)
Let ran (file sql : JsString) : list Event :=
  [Console (Log [AStr (js "Running migration: " ++ file)]);
   Submitted {| text := sql; values := [] |};
   Console (Log [AStr (js "Migration " ++ file ++ js " completed")])].

(** The file can be read and the pool resolves its text. *)
Let goes_through (file : JsString) : Prop :=
  exists sql,
    readFileSync fs (path_join (migrationsDir dirname) file) = Returned sql
    /\ forall d, exists rows d', pool sql [] d = (Resolved rows, d').

Let text_of (file : JsString) : JsString :=
  match readFileSync fs (path_join (migrationsDir dirname) file) with
  | Returned sql => sql
  | Thrown _ => []
  end.

Lemma run_files_step file rest sql rows d' w :
  readFileSync fs (path_join (migrationsDir dirname) file) = Returned sql ->
  pool sql [] (database w) = (Resolved rows, d') ->
  run_files pool fs dirname (file :: rest) w =
  run_files pool fs dirname rest
    {| database := d'; trace := trace w ++ ran file sql; clock := clock w |}.
Proof.
  intros Hsql Hq.
  cbn [run_files]. unfold console_log, emit, query, bind, ret.
  rewrite Hsql. cbn [database trace clock]. rewrite Hq.
  cbn [database trace clock]. unfold ran. repeat rewrite <- app_assoc. reflexivity.
Qed.

(** The loop over files that all go through. *)
Lemma run_files_events files :
  (forall file, In file files -> goes_through file) ->
  forall w,
    fst (run_files pool fs dirname files w) = Returned tt
    /\ trace (snd (run_files pool fs dirname files w)) =
       trace w ++ flat_map (fun file => ran file (text_of file)) files.
Proof.
  induction files as [|file rest IH]; intros Hall w.
  - cbn. rewrite app_nil_r. auto.
  - destruct (Hall file (or_introl eq_refl)) as [sql [Hsql Hok]].
    destruct (Hok (database w)) as [rows [d' Hq]].
    rewrite (run_files_step file rest sql rows d' w Hsql Hq).
    destruct (IH (fun f Hf => Hall f (or_intror Hf))
                 {| database := d'; trace := trace w ++ ran file sql; clock := clock w |})
      as [Hret Htrace].
    rewrite Hret, Htrace. cbn [trace flat_map].
    unfold text_of at 2. rewrite Hsql. rewrite <- app_assoc. auto.
Qed.

(** The loop up to a file that fails: unreadable, or rejected by the pool. *)
Lemma run_files_stops done file rest e :
  (forall g, In g done -> goes_through g) ->
  (readFileSync fs (path_join (migrationsDir dirname) file) = Thrown e
   \/ exists sql,
       readFileSync fs (path_join (migrationsDir dirname) file) = Returned sql
       /\ forall d, exists d', pool sql [] d = (Rejected e, d')) ->
  forall w,
    fst (run_files pool fs dirname (done ++ file :: rest) w) = Thrown e
    /\ trace (snd (run_files pool fs dirname (done ++ file :: rest) w)) =
       trace w
       ++ flat_map (fun g => ran g (text_of g)) done
       ++ Console (Log [AStr (js "Running migration: " ++ file)])
          :: match readFileSync fs (path_join (migrationsDir dirname) file) with
             | Returned sql => [Submitted {| text := sql; values := [] |}]
             | Thrown _ => []
             end.
Proof.
  intros Hdone Hfail.
  induction done as [|g done IH]; intros w.
  - cbn [app flat_map run_files]. unfold console_log, emit, query, bind, ret.
    destruct Hfail as [Hread | [sql [Hread Hrej]]]; rewrite Hread.
    + cbn [fst snd trace]. auto.
    + cbn [database trace clock].
      destruct (Hrej (database w)) as [d' Hq]. rewrite Hq.
      cbn [fst snd trace]. rewrite <- app_assoc. auto.
  - destruct (Hdone g (or_introl eq_refl)) as [sql [Hsql Hok]].
    destruct (Hok (database w)) as [rows [d' Hq]].
    cbn [app]. rewrite (run_files_step g _ sql rows d' w Hsql Hq).
    destruct (IH (fun f Hf => Hdone f (or_intror Hf))
                 {| database := d'; trace := trace w ++ ran g sql; clock := clock w |})
      as [Hret Htrace].
    rewrite Hret, Htrace. cbn [trace flat_map].
    unfold text_of at 2. rewrite Hsql. repeat rewrite <- app_assoc. auto.
Qed.

(** X8.  Migrations in order.  With the directory in place and every
    [.sql] file readable and accepted, [runMigrations] returns normally
    having run exactly the entries whose name ends in [.sql], each once,
    in ascending order of their names by code unit (so "10_b.sql" runs
    before "2_a.sql"), each announced before and confirmed after its
    statement; other entries are not touched. *)
Theorem runMigrations_runs_sql_files_in_order (entries : list JsString)
    (w : World DB) :
  existsSync fs (migrationsDir dirname) = true ->
  readdirSync fs (migrationsDir dirname) = Returned entries ->
  (forall file, In file entries -> ends_with file (js ".sql") = true ->
                goes_through file) ->
  exists files,
    Permutation files (filter (fun file => ends_with file (js ".sql")) entries)
    /\ Sorted (fun a b => str_leb a b = true) files
    /\ fst (runMigrations pool fs dirname w) = Returned tt
    /\ new_events (runMigrations pool fs dirname) w =
       flat_map (fun file => ran file (text_of file)) files.
Proof.
  intros Hdir Hls Hall.
  set (files := sort_by str_leb
                  (filter (fun file => ends_with file (js ".sql")) entries)).
  assert (Hperm : Permutation files
                    (filter (fun file => ends_with file (js ".sql")) entries))
    by apply sort_by_perm.
  exists files. split; [exact Hperm|]. split.
  { apply sort_by_sorted, str_leb_total. }
  destruct (run_files_events files) with (w := w) as [Hret Htrace].
  { intros file Hin. apply (Permutation_in _ Hperm) in Hin.
    apply filter_In in Hin. destruct Hin as [Hin Hsql]. apply Hall; assumption. }
  unfold runMigrations, new_events. rewrite Hdir, Hls. cbn [negb].
  fold files. rewrite Hret, Htrace, skipn_exact. auto.
Qed.

(** X9.  Migrations stop at the first failure.  When a migration cannot
    be read or is rejected, [runMigrations] throws that error at once:
    the files before it have been run and stay run, the failing file
    has been announced (and submitted, if it could be read) but not
    confirmed, and no later file is read or submitted. *)
Theorem runMigrations_stops_at_first_failure (entries done rest : list JsString)
    (file : JsString) (e : JsError) (w : World DB) :
  existsSync fs (migrationsDir dirname) = true ->
  readdirSync fs (migrationsDir dirname) = Returned entries ->
  sort_by str_leb (filter (fun f => ends_with f (js ".sql")) entries)
    = done ++ file :: rest ->
  (forall g, In g done -> goes_through g) ->
  (readFileSync fs (path_join (migrationsDir dirname) file) = Thrown e
   \/ exists sql,
       readFileSync fs (path_join (migrationsDir dirname) file) = Returned sql
       /\ forall d, exists d', pool sql [] d = (Rejected e, d')) ->
  fst (runMigrations pool fs dirname w) = Thrown e
  /\ new_events (runMigrations pool fs dirname) w =
     flat_map (fun g => ran g (text_of g)) done
     ++ Console (Log [AStr (js "Running migration: " ++ file)])
        :: match readFileSync fs (path_join (migrationsDir dirname) file) with
           | Returned sql => [Submitted {| text := sql; values := [] |}]
           | Thrown _ => []
           end.
Proof.
  intros Hdir Hls Hfiles Hdone Hfail.
  destruct (run_files_stops done file rest e Hdone Hfail w) as [Hret Htrace].
  unfold runMigrations, new_events. rewrite Hdir, Hls. cbn [negb].
  rewrite Hfiles, Hret, Htrace, skipn_exact. auto.
Qed.

(** X10.  Migrations without a directory.  When the migrations directory
    does not exist [runMigrations] says so on the console and returns:
    it reads no directory and no file, submits nothing and throws
    nothing, whatever the pool would answer. *)
Theorem runMigrations_skips_missing_directory (w : World DB) :
  existsSync fs (migrationsDir dirname) = false ->
  runMigrations pool fs dirname w =
  (Returned tt,
   {| database := database w;
      trace := trace w
               ++ [Console (Log [AStr (js "No migrations directory found, skipping migrations")])];
      clock := clock w |}).
Proof.
  intros Hdir. unfold runMigrations. rewrite Hdir. reflexivity.
Qed.

End MoreMigrationFacts.

Section MoreStartupFacts.

Context {DB : Type} (pool : Pool DB) (fs : FileSystem) (env : Env).
Context (dirname : JsString).

(** The whole of [initializeDatabase], by what the file system and the
    pool answer. *)
Lemma initializeDatabase_runs (w : World DB) :
  let opening := Console (Log [AStr (js "Initializing database schema...")]) in
  let caught e :=
    Console (Error [AStr (js "Error initializing database:"); AErr e]) in
  match readFileSync fs (path_join dirname (js "schema.sql")) with
  | Thrown e =>
      initializeDatabase pool fs dirname w =
      (Thrown e,
       {| database := database w;
          trace := trace w ++ [opening; caught e];
          clock := clock w |})
  | Returned schemaSQL =>
      let st := Submitted {| text := schemaSQL; values := [] |} in
      match pool schemaSQL [] (database w) with
      | (Rejected e, d) =>
          initializeDatabase pool fs dirname w =
          (Thrown e,
           {| database := d;
              trace := trace w ++ [opening; st; caught e];
              clock := clock w |})
      | (Resolved _, d) =>
          initializeDatabase pool fs dirname w =
          (Returned tt,
           {| database := d;
              trace := trace w
                       ++ [opening; st;
                           Console (Log [AStr (js "Database schema initialized successfully")])];
              clock := clock w |})
      end
  end.
Proof.
  cbv zeta. unfold initializeDatabase, console_error, console_log, emit, query,
    bind, ret.
  destruct (readFileSync fs (path_join dirname (js "schema.sql"))) as [sql|e].
  - cbn [database trace clock].
    destruct (pool sql [] (database w)) as [[rows|e] d];
      cbn [database trace clock]; repeat rewrite <- app_assoc; reflexivity.
  - cbn [database trace clock]. repeat rewrite <- app_assoc. reflexivity.
Qed.

End MoreStartupFacts.

(** X11.  Initialising the schema.  [initializeDatabase] returns normally
    exactly when schema.sql can be read and the pool resolves it.
    Otherwise it throws the very error it met, that of the file system
    or that of the pool, after writing it once to the error stream.  It
    submits the text of schema.sql as it is, with no bound values, at
    most once, and nothing when the file cannot be read. *)
Theorem initializeDatabase_outcome {DB : Type} (pool : Pool DB) (fs : FileSystem)
    (dirname : JsString) (w : World DB) :
  let result := fst (initializeDatabase pool fs dirname w) in
  let events := new_events (initializeDatabase pool fs dirname) w in
  let read := readFileSync fs (path_join dirname (js "schema.sql")) in
  (result = Returned tt <->
   exists schemaSQL rows d,
     read = Returned schemaSQL
     /\ pool schemaSQL [] (database w) = (Resolved rows, d))
  /\ (forall e, result = Thrown e ->
        (read = Thrown e
         \/ exists schemaSQL d,
             read = Returned schemaSQL
             /\ pool schemaSQL [] (database w) = (Rejected e, d))
        /\ console_of events =
           [Log [AStr (js "Initializing database schema...")];
            Error [AStr (js "Error initializing database:"); AErr e]])
  /\ statements_of events =
     match read with
     | Returned schemaSQL => [{| text := schemaSQL; values := [] |}]
     | Thrown _ => []
     end.
Proof.
  cbv zeta. pose proof (initializeDatabase_runs pool fs dirname w) as H.
  cbv zeta in H. unfold new_events.
  destruct (readFileSync fs (path_join dirname (js "schema.sql"))) as [sql|e0].
  - destruct (pool sql [] (database w)) as [[rows|e0] d] eqn:Hq; rewrite H;
      cbn [fst snd trace]; rewrite skipn_exact.
    + split; [|split].
      * split; [intros _; exists sql, rows, d; auto | reflexivity].
      * intros e He. discriminate.
      * reflexivity.
    + split; [|split].
      * split; [discriminate|]. intros [s [r [d' [Hs Hr]]]].
        injection Hs as <-. rewrite Hq in Hr. discriminate.
      * intros e He. injection He as <-. split; [|reflexivity].
        right. exists sql, d. auto.
      * reflexivity.
  - rewrite H. cbn [fst snd trace]. rewrite skipn_exact.
    split; [|split].
    + split; [discriminate|]. intros [s [r [d' [Hs _]]]]. discriminate.
    + intros e He. injection He as <-. split; [left|]; reflexivity.
    + reflexivity.
Qed.

(** X12.  Where the server listens.  When the schema is initialised,
    [start] calls [listen] exactly once, on host 0.0.0.0 and on the port
    of the environment, or on 3000 when [PORT] is not set or is empty.
    When the call binds the port, [start] names the port and [NODE_ENV]
    ("undefined" when not set) on the console and the process serves.
    When the call throws, as it does for a port above 65535, [start]
    writes "Failed to start server:" with the error and exits with code
    1.  When the port cannot be bound after the call has returned,
    nothing catches the error and the process ends without the two lines. *)
Theorem start_listens_on_port {DB : Type} (pool : Pool DB) (fs : FileSystem)
    (env : Env) (dirname : JsString)
    (app_listen : JsString -> JsString -> Listener) (w : World DB) :
  fst (initializeDatabase pool fs dirname w) = Returned tt ->
  let port := match PORT env with
              | Some (c :: p) => c :: p
              | Some [] | None => js "3000"
              end in
  let mode := match NODE_ENV env with
              | Some v => v
              | None => js "undefined"
              end in
  let outcome := fst (start pool fs env dirname app_listen w) in
  let events := new_events (start pool fs env dirname app_listen) w in
  let called := new_events (initializeDatabase pool fs dirname) w
                ++ [Listen port (js "0.0.0.0")] in
  match app_listen port (js "0.0.0.0") with
  | Bound =>
      outcome = Serving
      /\ events = called
                  ++ [Console (Log [AStr (js "Server running on port " ++ port)]);
                      Console (Log [AStr (js "Environment: " ++ mode)])]
  | Throws e =>
      outcome = Terminated 1
      /\ events = called
                  ++ [Console (Error [AStr (js "Failed to start server:"); AErr e]);
                      Exit 1]
  | Fails e =>
      outcome = Terminated 1 /\ events = called ++ [Uncaught e]
  end
  /\ forall ev, In ev (new_events (initializeDatabase pool fs dirname) w) ->
       match ev with
       | Listen _ _ | Exit _ | Uncaught _ => False
       | _ => True
       end.
Proof.
  intros Hinit. cbv zeta.
  pose proof (initializeDatabase_runs pool fs dirname w) as H. cbv zeta in H.
  pose proof (start_runs pool fs env dirname app_listen w) as Hs. cbv zeta in Hs.
  assert (Hport : port_text env = match PORT env with
                                  | Some (c :: p) => c :: p
                                  | Some [] | None => js "3000"
                                  end).
  { unfold port_text. destruct (PORT env) as [[|c p]|]; reflexivity. }
  rewrite <- Hport. change (match NODE_ENV env with
                            | Some v => v
                            | None => js "undefined"
                            end) with (node_env_text env).
  unfold new_events in *.
  destruct (readFileSync fs (path_join dirname (js "schema.sql"))) as [sql|e0].
  - destruct (pool sql [] (database w)) as [[rows|e0] d] eqn:Hq.
    + cbn [fst] in Hs. destruct Hs as [_ [Hout Hevents]].
      rewrite Hout, Hevents, H. cbn [fst snd trace]. rewrite skipn_exact.
      split.
      * destruct (app_listen (port_text env) (js "0.0.0.0"));
          split; reflexivity.
      * intros ev Hin. cbn [In] in Hin.
        repeat (destruct Hin as [<- | Hin]; [exact I|]). contradiction.
    + rewrite H in Hinit. discriminate.
  - rewrite H in Hinit. discriminate.
Qed.

(** ** The handlers over the users table *)

Section MoreTableFacts.

Variable prepareValue : JsValue -> JsString.

Let pool : Pool Table := pg prepareValue.

(** Under the primary key a stored row is the one row with its id. *)
Lemma stored_row_splits (r : UserRow) (l : list UserRow) :
  NoDup (map id l) -> In r l ->
  exists before since,
    l = before ++ r :: since
    /\ (forall r', In r' (before ++ since) -> id r' <> id r).
Proof.
  intros Hnd Hin. apply in_split in Hin. destruct Hin as [before [since ->]].
  exists before, since. split; [reflexivity|].
  intros r' Hr' E. rewrite map_app in Hnd. cbn [map] in Hnd.
  apply NoDup_remove_2 in Hnd. apply Hnd.
  rewrite <- map_app, <- E. apply in_map, Hr'.
Qed.

Lemma filter_has_id_split z r before since :
  id r = z ->
  (forall r', In r' (before ++ since) -> id r' <> z) ->
  filter (has_id z) (before ++ r :: since) = [r]
  /\ existsb (has_id z) (before ++ r :: since) = true.
Proof.
  intros Hid Hothers.
  destruct (no_row_with_id z before) as [Hb _];
    [intros r' Hr'; apply Hothers, in_or_app; auto|].
  destruct (no_row_with_id z since) as [Hs _];
    [intros r' Hr'; apply Hothers, in_or_app; auto|].
  assert (Hr : has_id z r = true) by (apply Z.eqb_eq, Hid).
  split.
  - rewrite filter_app. cbn [filter]. rewrite Hb, Hs, Hr. reflexivity.
  - rewrite existsb_app. cbn [existsb]. rewrite Hr. apply orb_true_r.
Qed.

(** The table a handler leaves: that of its statement, or the one it
    found when validation fails. *)
Lemma handle_database {DB : Type} (p : Pool DB) ep req (w : World DB) :
  database (snd (handle p ep req w)) =
  if rejected_by_validation ep req then database w
  else snd (p (sql_of ep) (bound_values ep req) (database w)).
Proof.
  destruct (handle_cases p ep req w)
    as [[Hv [m Hrun]] | [[Hv [e [d [Hq Hrun]]]] | [Hv [rows [d [resp [Hq [Hrun _]]]]]]]];
    rewrite Hrun, Hv; try rewrite Hq; reflexivity.
Qed.

Lemma fields_pass req n e :
  get_prop (body req) (js "name") = JStr n -> n <> [] ->
  get_prop (body req) (js "email") = JStr e -> e <> [] ->
  lacks_fields req = false.
Proof.
  intros Hn Hn0 He He0. unfold lacks_fields.
  rewrite Hn, He, !nonempty_is_truthy by assumption. reflexivity.
Qed.

End MoreTableFacts.

(** X13.  Update, then read.  With unique ids, a PUT for a stored id
    with a non-empty [name] and [email] that the VARCHAR(255) columns
    take as they are (no unpaired surrogate, no NUL, at most 255
    characters), the [email] being that of no other user, is answered
    200 with the id and the two new fields; in the table that one row
    carries the new fields and keeps its id, its place and its
    [created_at], the other rows are as they were; a GET of the id then
    returns the new fields. *)
Theorem update_then_get (prepareValue : JsValue -> JsString)
    (req : Request) (w : World Table) (r : UserRow) (n e : JsString) :
  Z_of_number (to_number (params_id req)) = Some (id r) ->
  get_prop (body req) (js "name") = JStr n -> n <> [] -> varchar255 n = Value n ->
  get_prop (body req) (js "email") = JStr e -> e <> [] -> varchar255 e = Value e ->
  NoDup (map id (users (database w))) ->
  In r (users (database w)) ->
  (forall r', In r' (users (database w)) -> id r' <> id r -> email r' <> e) ->
  let updated := handle (pg prepareValue) UpdateUser req w in
  let answer :=
    {| status := 200;
       payload := Json (JObj [(js "id", JNum (number_of_Z (id r)));
                              (js "name", JStr n);
                              (js "email", JStr e)]) |} in
  fst updated = answer
  /\ (exists before r' since,
        users (database w) = before ++ r :: since
        /\ users (database (snd updated)) = before ++ r' :: since
        /\ id r' = id r /\ name r' = n /\ email r' = e
        /\ created_at r' = created_at r)
  /\ forall again,
      Z_of_number (to_number (params_id again)) = Some (id r) ->
      fst (handle (pg prepareValue) GetUser again (snd updated)) = answer.
Proof.
  intros Hz Hn Hn0 Hnc He He0 Hec Hnd Hin Hfree updated answer.
  subst updated answer.
  set (r' := {| id_cell := id_cell r; name_cell := n; email_cell := e;
                created_at := created_at r |}).
  assert (Hname : name r' = n) by apply (as_varchar255_value n n Hnc).
  assert (Hemail : email r' = e) by apply (as_varchar255_value e e Hec).
  assert (Hbrief : brief_row r' = [(js "id", JNum (number_of_Z (id r)));
                                   (js "name", JStr n); (js "email", JStr e)]).
  { unfold brief_row, id_column. rewrite Hname, Hemail. reflexivity. }
  destruct (stored_row_splits r _ Hnd Hin) as [before [since [Hl Hothers]]].
  pose proof (fields_pass req n e Hn Hn0 He He0) as Hfields.
  assert (Hv : rejected_by_validation UpdateUser req = false).
  { apply (integer_id_passes UpdateUser req (id r) Hz). intros _. exact Hfields. }
  destruct (filter_has_id_split (id r) r before since eq_refl Hothers)
    as [_ Hfound].
  assert (Hrows : map (set_fields (id r) n e) (users (database w))
                  = before ++ r' :: since).
  { rewrite Hl, map_app. cbn [map].
    rewrite !set_fields_elsewhere
      by (intros x Hx; apply Hothers, in_or_app; auto).
    unfold set_fields at 1. unfold has_id. rewrite Z.eqb_refl. reflexivity. }
  assert (Hq : pg prepareValue (sql_of UpdateUser) (bound_values UpdateUser req)
                 (database w)
               = (Resolved [brief_row r'],
                  {| users := before ++ r' :: since;
                     users_id_seq := users_id_seq (database w);
                     current_timestamp := current_timestamp (database w) |})).
  { cbn [sql_of bound_values]. rewrite Hn, He, pg_update.
    unfold update_by_id. cbn [text_param]. rewrite Hnc, Hec.
    rewrite (id_param_value _ (id r) Hz (id_in_int4 r)).
    rewrite <- Hl in Hfound. rewrite Hfound. cbn [negb].
    assert (Hclear : existsb (fun x => negb (has_id (id r) x) && has_email e x)
                             (users (database w)) = false).
    { apply not_true_is_false. intros Ht. apply existsb_exists in Ht.
      destruct Ht as [x [Hx Hc]]. apply andb_true_iff in Hc. destruct Hc as [Hid Hem].
      apply negb_true_iff, Z.eqb_neq in Hid. apply str_eqb_eq in Hem.
      exact (Hfree x Hx Hid Hem). }
    rewrite Hclear, Hrows.
    destruct (filter_has_id_split (id r) r' before since eq_refl Hothers) as [-> _].
    reflexivity. }
  destruct (handle_resolved (pg prepareValue) UpdateUser req w _ _ Hv Hq)
    as [resp [Hrun ->]].
  rewrite Hrun. cbn [fst snd after database users].
  split; [cbn [first_row]; rewrite Hbrief; reflexivity|].
  split; [exists before, r', since; repeat split; assumption|].
  intros again Hagain.
  assert (Hv' : rejected_by_validation GetUser again = false).
  { apply (integer_id_passes GetUser again (id r) Hagain). discriminate. }
  match goal with
  | |- fst (handle _ GetUser again ?w1) = _ =>
      assert (Hq' : pg prepareValue (sql_of GetUser) (bound_values GetUser again)
                      (database w1) = (Resolved [brief_row r'], database w1))
  end.
  { cbn [sql_of bound_values]. rewrite pg_get. unfold select_by_id.
    rewrite (id_param_value _ (id r) Hagain (id_in_int4 r)).
    cbn [after database users].
    destruct (filter_has_id_split (id r) r' before since eq_refl Hothers) as [-> _].
    reflexivity. }
  destruct (handle_resolved (pg prepareValue) GetUser again _ _ _ Hv' Hq')
    as [resp [-> ->]].
  cbn [fst first_row]. rewrite Hbrief. reflexivity.
Qed.

(** X14.  A stored email cannot be created again.  A create whose
    [email] some stored user already has is answered 500 with the
    generic body, and no row is added or changed. *)
Theorem create_with_stored_email (prepareValue : JsValue -> JsString)
    (req : Request) (w : World Table) (n e : JsString) :
  get_prop (body req) (js "name") = JStr n -> n <> [] ->
  get_prop (body req) (js "email") = JStr e -> e <> [] ->
  (exists r, In r (users (database w)) /\ email r = e) ->
  fst (handle (pg prepareValue) CreateUser req w) =
    {| status := 500; payload := error_body "Internal server error" |}
  /\ users (database (snd (handle (pg prepareValue) CreateUser req w))) =
     users (database w).
Proof.
  intros Hn Hn0 He He0 [r [Hin Hem]].
  assert (Hv : rejected_by_validation CreateUser req = false).
  { unfold rejected_by_validation. cbn [by_id reads_body andb orb].
    apply (fields_pass req n e); assumption. }
  assert (Hstored : existsb (has_email e) (users (database w)) = true).
  { apply existsb_exists. exists r. split; [exact Hin | apply str_eqb_eq, Hem]. }
  assert (Hq : exists err d,
    pg prepareValue (sql_of CreateUser) (bound_values CreateUser req) (database w)
    = (Rejected err, d) /\ users d = users (database w)).
  { assert (Hcol : varchar255 e = Value e).
    { rewrite <- Hem. apply as_varchar255_is_varchar255. }
    cbn [sql_of bound_values]. rewrite Hn, He, pg_create.
    unfold insert_user, fail. cbn [text_param]. rewrite Hcol.
    destruct (varchar255 n) as [err| |n']; [eauto | |];
      (destruct (2147483647 <? Zpos (users_id_seq (database w))); [eauto|]);
      [eauto|].
    destruct (existsb (has_id (Zpos (users_id_seq (database w))))
                      (users (database w))); [eauto|].
    rewrite Hstored. eauto. }
  destruct Hq as [err [d [Hq Hd]]].
  rewrite (handle_rejected (pg prepareValue) CreateUser req w err d Hv Hq).
  cbn [fst snd after database]. auto.
Qed.

(** X15.  An update cannot take the email of another user.  A PUT for a
    stored id whose [email] another user has is answered 500 with the
    generic body, and the table is left as it was. *)
Theorem update_to_stored_email (prepareValue : JsValue -> JsString)
    (req : Request) (w : World Table) (z : Z) (n e : JsString) :
  Z_of_number (to_number (params_id req)) = Some z ->
  get_prop (body req) (js "name") = JStr n -> n <> [] ->
  get_prop (body req) (js "email") = JStr e -> e <> [] ->
  (exists r, In r (users (database w)) /\ id r = z) ->
  (exists r', In r' (users (database w)) /\ id r' <> z /\ email r' = e) ->
  fst (handle (pg prepareValue) UpdateUser req w) =
    {| status := 500; payload := error_body "Internal server error" |}
  /\ database (snd (handle (pg prepareValue) UpdateUser req w)) = database w.
Proof.
  intros Hz Hn Hn0 He He0 [r [Hin Hid]] [r' [Hin' [Hid' Hem']]].
  assert (Hv : rejected_by_validation UpdateUser req = false).
  { apply (integer_id_passes UpdateUser req z Hz). intros _.
    apply (fields_pass req n e); assumption. }
  assert (Hq : exists err,
    pg prepareValue (sql_of UpdateUser) (bound_values UpdateUser req) (database w)
    = (Rejected err, database w)).
  { assert (Hcol : varchar255 e = Value e).
    { rewrite <- Hem'. apply as_varchar255_is_varchar255. }
    cbn [sql_of bound_values]. rewrite Hn, He, pg_update.
    unfold update_by_id, fail. cbn [text_param]. rewrite Hcol.
    rewrite (id_param_value _ z Hz) by (rewrite <- Hid; apply id_in_int4).
    assert (Hfound : existsb (has_id z) (users (database w)) = true).
    { apply existsb_exists. exists r. split; [exact Hin | apply Z.eqb_eq, Hid]. }
    assert (Htaken : existsb (fun x => negb (has_id z x) && has_email e x)
                             (users (database w)) = true).
    { apply existsb_exists. exists r'. split; [exact Hin'|].
      apply andb_true_iff. split.
      - apply negb_true_iff, Z.eqb_neq, Hid'.
      - apply str_eqb_eq, Hem'. }
    rewrite Hfound, Htaken. cbn [negb].
    destruct (varchar255 n); eauto. }
  destruct Hq as [err Hq].
  rewrite (handle_rejected (pg prepareValue) UpdateUser req w err _ Hv Hq).
  cbn [fst snd after database]. auto.
Qed.

(** X16.  What the handlers keep of the table.  From a well-formed
    table (unique ids, unique emails, every id below the sequence) every
    handler leaves a well-formed table; the sequence never goes back,
    and a row that is there afterwards has the id of a row that was
    there before or, after a create, the value the sequence had, which
    is above every id stored before: no id is given twice, not even
    after a delete.  The two reading routes leave the table as it is. *)
Theorem handlers_keep_the_constraints (prepareValue : JsValue -> JsString)
    (ep : Endpoint) (req : Request) (w : World Table) :
  well_formed (database w) ->
  let t := database w in
  let t' := database (snd (handle (pg prepareValue) ep req w)) in
  well_formed t'
  /\ (users_id_seq t <= users_id_seq t')%positive
  /\ (forall r, In r (users t') ->
        In (id r) (map id (users t))
        \/ (ep = CreateUser /\ id r = Zpos (users_id_seq t)
            /\ forall old, In old (users t) -> id old < id r))
  /\ (ep = ListUsers \/ ep = GetUser -> t' = t).
Proof.
  intros Hwf. cbv zeta.
  split; [apply handle_keeps_well_formed, Hwf|].
  rewrite handle_database.
  destruct (rejected_by_validation ep req).
  { split; [lia|]. split; [|reflexivity].
    intros r Hr. left. apply in_map, Hr. }
  destruct Hwf as [_ [_ [Hseq _]]].
  destruct ep; cbn [sql_of bound_values].
  - rewrite pg_list. cbn [select_all snd]. split; [lia|]. split; [|reflexivity].
    intros r Hr. left. apply in_map, Hr.
  - rewrite pg_create. unfold insert_user.
    assert (Hkept : forall t0 : Table,
              users t0 = users (database w) ->
              (users_id_seq (database w) <= users_id_seq t0)%positive ->
              (users_id_seq (database w) <= users_id_seq t0)%positive
              /\ (forall r, In r (users t0) ->
                    In (id r) (map id (users (database w)))
                    \/ (CreateUser = CreateUser
                        /\ id r = Zpos (users_id_seq (database w))
                        /\ forall old, In old (users (database w)) -> id old < id r))
              /\ (CreateUser = ListUsers \/ CreateUser = GetUser -> t0 = database w)).
    { intros t0 Hu Hs. split; [exact Hs|]. split; [|intros [H|H]; discriminate].
      intros r Hr. left. rewrite Hu in Hr. apply in_map, Hr. }
    destruct (text_param prepareValue (get_prop (body req) (js "name")))
      as [err| |n'] eqn:Hn; [apply Hkept; cbn [snd users users_id_seq]; [reflexivity | lia] | |];
      (destruct (text_param prepareValue (get_prop (body req) (js "email")))
         as [err| |e'] eqn:He; [apply Hkept; cbn [snd users users_id_seq]; [reflexivity | lia] | |]);
      (destruct (2147483647 <? Zpos (users_id_seq (database w))) eqn:Hfull;
         [apply Hkept; cbn [snd users users_id_seq]; [reflexivity | lia]|]);
      try (apply Hkept; cbn [snd users users_id_seq]; [reflexivity | lia]).
    destruct (existsb (has_id _) _);
      [apply Hkept; cbn [snd users users_id_seq]; [reflexivity | lia]|].
    destruct (existsb (has_email _) _);
      [apply Hkept; cbn [snd users users_id_seq]; [reflexivity | lia]|].
    cbn [snd users users_id_seq].
    split; [lia|]. split; [|intros [H|H]; discriminate].
    intros r Hr. apply in_app_or in Hr. destruct Hr as [Hr | [<- | []]].
    + left. apply in_map, Hr.
    + right. apply Z.ltb_ge in Hfull.
      destruct (text_param_is_varchar255 _ _ _ Hn) as [n0 Hn0].
      destruct (text_param_is_varchar255 _ _ _ He) as [e0 He0].
      assert (Hrange : in_int4 (Zpos (users_id_seq (database w))) = true).
      { unfold in_int4. apply andb_true_iff. split; apply Z.leb_le; lia. }
      destruct (new_row_reads_back _ n' e' n0 e0 (current_timestamp (database w))
                  Hrange Hn0 He0) as [Hnew_id _].
      rewrite Hnew_id. split; [reflexivity|]. split; [reflexivity|].
      intros old Hold. rewrite Forall_forall in Hseq.
      specialize (Hseq old Hold). lia.
  - rewrite pg_get. unfold select_by_id.
    destruct (id_param _); cbn [snd]; (split; [lia|]); (split; [|reflexivity]);
      intros r Hr; left; apply in_map, Hr.
  - rewrite pg_update. unfold update_by_id.
    assert (Hsame : forall t0 : Table, t0 = database w ->
              (users_id_seq (database w) <= users_id_seq t0)%positive
              /\ (forall r, In r (users t0) ->
                    In (id r) (map id (users (database w)))
                    \/ (UpdateUser = CreateUser /\ id r = Zpos (users_id_seq (database w))
                        /\ forall old, In old (users (database w)) -> id old < id r))
              /\ (UpdateUser = ListUsers \/ UpdateUser = GetUser -> t0 = database w)).
    { intros t0 ->. split; [lia|]. split; [|reflexivity].
      intros r Hr. left. apply in_map, Hr. }
    destruct (text_param prepareValue (get_prop (body req) (js "name")))
      as [err| |n']; [apply Hsame; reflexivity | |];
      (destruct (text_param prepareValue (get_prop (body req) (js "email")))
         as [err| |e']; [apply Hsame; reflexivity | |]);
      (destruct (id_param _) as [err| |z]; [apply Hsame; reflexivity ..|]);
      (destruct (negb _); [apply Hsame; reflexivity|]);
      try (apply Hsame; reflexivity).
    destruct (existsb _ _); [apply Hsame; reflexivity|].
    cbn [snd users users_id_seq]. split; [lia|]. split; [|intros [H|H]; discriminate].
    intros r Hr. left. rewrite <- (map_id_set_fields z n' e'). apply in_map, Hr.
  - rewrite pg_delete. unfold delete_by_id.
    destruct (id_param _) as [err| |z]; cbn [snd users users_id_seq];
      (split; [lia|]); (split; [|intros [H|H]; discriminate]);
      intros r Hr; left; apply in_map;
      try (apply filter_In in Hr; destruct Hr as [Hr _]); exact Hr.
Qed.

(** X17.  What a read returns.  A GET that is answered 200 returns the
    [id], [name] and [email] of a stored row whose id is the number the
    [:id] segment coerces to, and nothing else of it; the table is left
    as it was. *)
Theorem get_returns_a_stored_row (prepareValue : JsValue -> JsString)
    (req : Request) (w : World Table) :
  status (fst (handle (pg prepareValue) GetUser req w)) = 200 ->
  exists r,
    In r (users (database w))
    /\ Z_of_number (to_number (params_id req)) = Some (id r)
    /\ payload (fst (handle (pg prepareValue) GetUser req w)) =
       Json (JObj [(js "id", JNum (number_of_Z (id r)));
                   (js "name", JStr (name r));
                   (js "email", JStr (email r))])
    /\ database (snd (handle (pg prepareValue) GetUser req w)) = database w.
Proof.
  intros H200.
  destruct (handle_cases (pg prepareValue) GetUser req w)
    as [[Hv [m Hrun]] | [[Hv [e [d [Hq Hrun]]]] | [Hv [rows [d [resp [Hq [Hrun Hresp]]]]]]]];
    rewrite Hrun in H200 |- *; cbn [fst snd status] in *; try discriminate.
  cbn [sql_of bound_values] in Hq. rewrite pg_get in Hq. unfold select_by_id in Hq.
  cbn [id_param] in Hq.
  destruct (Z_of_number (to_number (params_id req))) as [z|] eqn:Hz;
    [|discriminate].
  destruct (in_int4 z); [|discriminate].
  injection Hq as <- <-. subst resp.
  destruct (filter (has_id z) (users (database w))) as [|r rest] eqn:Hf;
    [cbn in H200; discriminate|].
  assert (Hr : In r (filter (has_id z) (users (database w))))
    by (rewrite Hf; left; reflexivity).
  apply filter_In in Hr. destruct Hr as [Hin Hid]. apply Z.eqb_eq in Hid.
  exists r. subst z. repeat split; assumption || reflexivity.
Qed.

(** ** The further properties at sample inputs *)

(** The migration numbered 10 runs before the one numbered 2. *)
Example numbered_migrations_order :
  map text (statements_of
              (new_events (runMigrations accepting_pool numbered_files app_src)
                          (fresh_world tt)))
  = [js "ALTER TABLE users ADD COLUMN b TEXT;";
     js "ALTER TABLE users ADD COLUMN a TEXT;"].
Proof. vm_compute. reflexivity. Qed.

Lemma handler_reads_id_name_email_witness :
  handle accepting_pool DeleteUser (request "7" []) (fresh_world tt)
  = handle accepting_pool DeleteUser
      (request " 0x7 " [("id", "99"); ("created_at", "never")]%string)
      (fresh_world tt).
Proof.
  apply (handler_reads_id_name_email accepting_pool DeleteUser).
  - intros _. vm_compute. reflexivity.
  - intros H. discriminate H.
Defined.

Lemma logger_line_witness :
  NoDup (map fst shadowing_meta)
  /\ exists o_error,
      new_events (logger_error (DB := unit) (js "Error fetching users") shadowing_meta)
                 (fresh_world tt)
      = [Console (Error [AJson (JObj o_error)])]
      /\ get_prop o_error (js "timestamp") = JStr (clock (fresh_world tt))
      /\ get_prop o_error (js "level") = JStr (js "debug").
Proof.
  assert (Hnd : NoDup (map fst shadowing_meta)).
  { repeat constructor; cbn; intuition discriminate. }
  split; [exact Hnd|].
  destruct (logger_line (DB := unit) (js "Error fetching users") shadowing_meta
              (fresh_world tt) Hnd)
    as [o_error [o_info [Hline [_ [Htime [_ Hrest]]]]]].
  exists o_error. split; [exact Hline|]. split; [exact Htime|].
  destruct (Hrest (js "level")) as [Hlevel _]; [discriminate|].
  rewrite Hlevel. reflexivity.
Defined.

Lemma blank_id_is_user_zero_witness :
  status (fst (handle accepting_pool GetUser (request "  " []) (fresh_world tt))) <> 400
  /\ statements_of (new_events (handle accepting_pool GetUser (request "  " []))
                               (fresh_world tt))
     = [{| text := sql_get; values := [JNum (S754_zero false)] |}].
Proof.
  destruct (blank_id_is_user_zero accepting_pool GetUser (request "  " [])
              (fresh_world tt) eq_refl)
    as [Hstatus [Hst _]].
  - intros H. discriminate H.
  - discriminate.
  - repeat constructor.
  - split; [exact Hstatus | exact Hst].
Defined.

Lemma get_by_decimal_id_witness :
  fst (handle (pg no_text) GetUser (request "1" []) (fresh_world seeded))
  = {| status := 200; payload := Json (JObj (brief_row john)) |}.
Proof.
  rewrite (get_by_decimal_id no_text (request "1" []) (fresh_world seeded) john 1).
  - reflexivity.
  - repeat constructor; cbn; intuition discriminate.
  - right. left. reflexivity.
  - reflexivity.
  - reflexivity.
  - reflexivity.
Defined.

Lemma runMigrations_runs_sql_files_in_order_witness :
  fst (runMigrations accepting_pool numbered_files app_src (fresh_world tt))
  = Returned tt.
Proof.
  destruct (runMigrations_runs_sql_files_in_order accepting_pool numbered_files
              app_src [js "2_a.sql"; js "README.md"; js "10_b.sql"] (fresh_world tt)
              eq_refl eq_refl)
    as [files [_ [_ [Hret _]]]].
  - intros file [<- | [<- | [<- | []]]] Hsql.
    + eexists. split; [reflexivity|]. intros d. exists [], d. reflexivity.
    + vm_compute in Hsql. discriminate Hsql.
    + eexists. split; [reflexivity|]. intros d. exists [], d. reflexivity.
  - exact Hret.
Defined.

Lemma runMigrations_stops_at_first_failure_witness :
  fst (runMigrations picky_pool numbered_files app_src (fresh_world tt))
  = Thrown connection_refused
  /\ statements_of (new_events (runMigrations picky_pool numbered_files app_src)
                               (fresh_world tt))
     = [{| text := js "ALTER TABLE users ADD COLUMN b TEXT;"; values := [] |};
        {| text := js "ALTER TABLE users ADD COLUMN a TEXT;"; values := [] |}].
Proof.
  destruct (runMigrations_stops_at_first_failure picky_pool numbered_files app_src
              [js "2_a.sql"; js "README.md"; js "10_b.sql"]
              [js "10_b.sql"] [] (js "2_a.sql") connection_refused (fresh_world tt)
              eq_refl eq_refl eq_refl)
    as [Hret Hevents].
  - intros g [<- | []].
    eexists. split; [reflexivity|]. intros d. exists [], d. reflexivity.
  - right. eexists. split; [reflexivity|]. intros d. exists d. reflexivity.
  - split; [exact Hret|]. rewrite Hevents. reflexivity.
Defined.

Lemma runMigrations_skips_missing_directory_witness :
  fst (runMigrations (refusing_pool connection_refused) no_files app_src
         (fresh_world tt)) = Returned tt.
Proof.
  rewrite (runMigrations_skips_missing_directory
             (refusing_pool connection_refused) no_files app_src (fresh_world tt)).
  - reflexivity.
  - reflexivity.
Defined.

Lemma start_listens_on_port_witness :
  fst (start accepting_pool repo_files port_99999 app_src valid_port (fresh_world tt))
  = Terminated 1
  /\ exists before,
      new_events (start accepting_pool repo_files port_99999 app_src valid_port)
                 (fresh_world tt)
      = before ++ [Listen (js "99999") (js "0.0.0.0");
                   Console (Error [AStr (js "Failed to start server:");
                                   AErr bad_port]);
                   Exit 1].
Proof.
  pose proof (start_listens_on_port accepting_pool repo_files port_99999 app_src
                valid_port (fresh_world tt) eq_refl) as H.
  cbv zeta in H.
  match type of H with
  | context [match ?call with Bound => _ | Throws _ => _ | Fails _ => _ end] =>
      assert (E : call = Throws bad_port) by (vm_compute; reflexivity);
      rewrite E in H
  end.
  destruct H as [[Hout Hevents] _].
  split; [exact Hout|]. eexists. rewrite Hevents, <- app_assoc. reflexivity.
Defined.

Lemma update_then_get_witness :
  fst (handle (pg no_text) UpdateUser john_renamed (fresh_world seeded))
  = {| status := 200;
       payload := Json (JObj [(js "id", JNum (number_of_Z 1));
                              (js "name", JStr (js "John D"));
                              (js "email", JStr (js "john@example.com"))]) |}.
Proof.
  apply (update_then_get no_text john_renamed (fresh_world seeded) john
           (js "John D") (js "john@example.com")).
  - reflexivity.
  - reflexivity.
  - discriminate.
  - reflexivity.
  - reflexivity.
  - discriminate.
  - reflexivity.
  - repeat constructor; cbn; intuition discriminate.
  - right. left. reflexivity.
  - intros r' [<- | [<- | []]] Hid; vm_compute in *; congruence.
Defined.

Lemma create_with_stored_email_witness :
  fst (handle (pg no_text) CreateUser jane_again (fresh_world seeded)) =
    {| status := 500; payload := error_body "Internal server error" |}
  /\ users (database (snd (handle (pg no_text) CreateUser jane_again
                             (fresh_world seeded))))
     = users seeded.
Proof.
  apply (create_with_stored_email no_text jane_again (fresh_world seeded)
           (js "Jane") (js "jane@example.com")).
  - reflexivity.
  - discriminate.
  - reflexivity.
  - discriminate.
  - eexists. split; [left; reflexivity | reflexivity].
Defined.

Lemma update_to_stored_email_witness :
  fst (handle (pg no_text) UpdateUser john_as_jane (fresh_world seeded)) =
    {| status := 500; payload := error_body "Internal server error" |}
  /\ database (snd (handle (pg no_text) UpdateUser john_as_jane (fresh_world seeded)))
     = seeded.
Proof.
  apply (update_to_stored_email no_text john_as_jane (fresh_world seeded) 1
           (js "John") (js "jane@example.com")).
  - reflexivity.
  - reflexivity.
  - discriminate.
  - reflexivity.
  - discriminate.
  - exists john. split; [right; left; reflexivity | reflexivity].
  - eexists. split; [left; reflexivity|]. split; [discriminate | reflexivity].
Defined.

Lemma handlers_keep_the_constraints_witness :
  well_formed (database (snd (handle (pg no_text) DeleteUser (request "2" [])
                                (fresh_world seeded)))).
Proof.
  apply (handlers_keep_the_constraints no_text DeleteUser (request "2" [])
           (fresh_world seeded)).
  apply seeded_is_well_formed.
Defined.

Lemma get_returns_a_stored_row_witness :
  exists r,
    In r (users seeded)
    /\ Z_of_number (to_number (js "1")) = Some (id r)
    /\ payload (fst (handle (pg no_text) GetUser (request "1" []) (fresh_world seeded)))
       = Json (JObj [(js "id", JNum (number_of_Z (id r)));
                     (js "name", JStr (name r));
                     (js "email", JStr (email r))])
    /\ database (snd (handle (pg no_text) GetUser (request "1" []) (fresh_world seeded)))
       = seeded.
Proof.
  apply (get_returns_a_stored_row no_text (request "1" []) (fresh_world seeded)).
  reflexivity.
Defined.
